(** * Doculog: changelog assembly engine (doculog/changelog.py, doculog/requests.py,
    doculog/config.py, doculog/git.py, doculog/main.py)

    Shallow embedding of the changelog data model and its operations.
    Python [str] values are Rocq [string]s; a character is read as the
    Latin-1 code point [N_of_ascii c]. Python's dicts become association
    lists in insertion order, exceptions become [None] results, and every
    collaborator the code calls (git, the HTTP client, [json.loads]) is a
    Section variable. *)

From Stdlib Require Import Ascii String List Bool Arith Lia ZArith NArith.
Import ListNotations.
Open Scope list_scope.
Open Scope string_scope.

(** ** Python string primitives *)
Module PyStr.

(** [str.isspace] on the Latin-1 range: \t \n \v \f \r, \x1c-\x1f, space,
    \x85 and \xa0. This is also what [\s] matches in a [str] regex. *)
Definition is_space (c : ascii) : bool :=
  let n := N_of_ascii c in
  ((9 <=? n) && (n <=? 13))%N || ((28 <=? n) && (n <=? 32))%N
  || (n =? 133)%N || (n =? 160)%N.

Definition nl : ascii := "010".

(** [str.lower] for one character: A-Z and the Latin-1 capitals
    \xc0-\xde (except the multiplication sign \xd7). *)
Definition lower_char (c : ascii) : ascii :=
  let n := N_of_ascii c in
  if ((65 <=? n) && (n <=? 90))%N || ((192 <=? n) && (n <=? 222) && negb (n =? 215))%N
  then ascii_of_N (n + 32) else c.

(** Title case of one character (first letter of [str.capitalize]):
    a-z and \xe0-\xfe (except the division sign \xf7). The title case of
    \xb5, \xdf and \xff lies outside Latin-1; they are left as they are. *)
Definition upper_char (c : ascii) : ascii :=
  let n := N_of_ascii c in
  if ((97 <=? n) && (n <=? 122))%N || ((224 <=? n) && (n <=? 254) && negb (n =? 247))%N
  then ascii_of_N (n - 32) else c.

Fixpoint lower (s : string) : string :=
  match s with
  | EmptyString => EmptyString
  | String c s' => String (lower_char c) (lower s')
  end.

(** [str.capitalize]: first character upper, the rest lower. *)
Definition capitalize (s : string) : string :=
  match s with
  | EmptyString => EmptyString
  | String c s' => String (upper_char c) (lower s')
  end.

(** [str.lstrip()] *)
Fixpoint lstrip (s : string) : string :=
  match s with
  | EmptyString => EmptyString
  | String c s' => if is_space c then lstrip s' else s
  end.

(** [str.rstrip()] *)
Fixpoint rstrip (s : string) : string :=
  match s with
  | EmptyString => EmptyString
  | String c s' =>
      match rstrip s' with
      | EmptyString => if is_space c then EmptyString else String c EmptyString
      | r => String c r
      end
  end.

(** [str.strip()] *)
Definition strip (s : string) : string := rstrip (lstrip s).

(** [str.lstrip(chars)] for a one-character [chars] *)
Fixpoint lstrip_char (ch : ascii) (s : string) : string :=
  match s with
  | EmptyString => EmptyString
  | String c s' => if Ascii.eqb c ch then lstrip_char ch s' else s
  end.

(** [s.split(sep)] for a one-character separator. *)
Fixpoint split (sep : ascii) (s : string) : list string :=
  match s with
  | EmptyString => [EmptyString]
  | String c s' =>
      if Ascii.eqb c sep then EmptyString :: split sep s'
      else match split sep s' with
           | [] => [String c EmptyString]
           | w :: ws => String c w :: ws
           end
  end.

(** [s.split(sep)[0]] *)
Definition first_part (sep : ascii) (s : string) : string :=
  hd EmptyString (split sep s).

(** [s.replace(old, "")]: every non-overlapping occurrence of [old], left
    to right, is removed. [skip] counts the characters of a match still
    to be dropped. For [old = ""] Python inserts [""] everywhere, i.e.
    returns [s]. *)
Fixpoint remove_from (old : string) (skip : nat) (s : string) : string :=
  match s with
  | EmptyString => EmptyString
  | String c s' =>
      match skip with
      | S k => remove_from old k s'
      | O => if String.prefix old s
             then remove_from old (String.length old - 1) s'
             else String c (remove_from old O s')
      end
  end.

Definition replace_empty (old s : string) : string :=
  match old with
  | EmptyString => s
  | _ => remove_from old O s
  end.

(** [io.StringIO(s).readlines()]: the text cut after every newline, each
    line keeping its newline. *)
Fixpoint readlines (s : string) : list string :=
  match s with
  | EmptyString => []
  | String c s' =>
      if Ascii.eqb c nl then String c EmptyString :: readlines s'
      else match readlines s' with
           | [] => [String c EmptyString]
           | l :: ls => String c l :: ls
           end
  end.

Definition has_nl (s : string) : bool :=
  existsb (Ascii.eqb nl) (list_ascii_of_string s).

End PyStr.
Import PyStr.

(** ** Commit classifier: [ChangelogRelease.catalog_commit] *)
Module Catalog.

(** The [commit_types] dict, in source order. *)
Definition commit_types : list (string * string) :=
  [("fixed", "Fixed"); ("fixes", "Fixed"); ("fix", "Fixed");
   ("bugfix", "Fixed"); ("solve", "Fixed"); ("solves", "Fixed");
   ("solved", "Fixed"); ("close", "Fixed"); ("closes", "Fixed");
   ("closed", "Fixed"); ("corrects", "Fixed"); ("correct", "Fixed");
   ("corrected", "Fixed");
   ("create", "Added"); ("creates", "Added"); ("created", "Added");
   ("make", "Added"); ("makes", "Added"); ("made", "Added");
   ("write", "Added"); ("wrote", "Added"); ("add", "Added");
   ("adds", "Added"); ("added", "Added");
   ("list", "Changed"); ("lists", "Changed"); ("use", "Changed");
   ("uses", "Changed"); ("fetch", "Changed"); ("fetches", "Changed");
   ("fetched", "Changed"); ("log", "Changed"); ("logs", "Changed");
   ("logged", "Changed"); ("improve", "Changed"); ("improves", "Changed");
   ("improved", "Changed"); ("print", "Changed"); ("prints", "Changed");
   ("printed", "Changed"); ("rewrite", "Changed"); ("rewrote", "Changed");
   ("rewrit", "Changed"); ("refactor", "Changed"); ("change", "Changed");
   ("changes", "Changed"); ("changed", "Changed"); ("move", "Changed");
   ("moves", "Changed"); ("moved", "Changed"); ("update", "Changed");
   ("updates", "Changed"); ("updated", "Changed"); ("tweak", "Changed");
   ("tweaks", "Changed"); ("tweaked", "Changed");
   ("remove", "Removed"); ("removes", "Removed"); ("removed", "Removed");
   ("delete", "Removed"); ("deletes", "Removed"); ("deleted", "Removed");
   ("deprecate", "Deprecated"); ("deprecates", "Deprecated");
   ("deprecated", "Deprecated")].

(** [commit_types[key]], [None] standing for the [KeyError]. *)
Fixpoint lookup (key : string) (d : list (string * string)) : option string :=
  match d with
  | [] => None
  | (k, v) :: d' => if String.eqb k key then Some v else lookup key d'
  end.

Definition catalog_commit (commit : string) : option string * string :=
  let commit_lower := lower commit in
  let start_word := first_part " " commit_lower in
  match lookup start_word commit_types with
  | Some commit_type =>
      (Some commit_type,
       capitalize (strip (replace_empty start_word commit_lower)))
  | None => (None, commit)
  end.

(** What the spec describes for a hit: only the leading verb token is cut
    from the lowercased title. *)
Definition spec_cleaned (title : string) : string :=
  let tl := lower title in
  capitalize (strip (String.substring (String.length (first_part " " tl))
                       (String.length tl) tl)).

End Catalog.

(** ** [ChangelogSection] *)
Module Section.

(** [re.match(r"\s*[\*-]\s", s)] (anchored at the start of [s]). The
    marker is not whitespace, so [\s*] takes exactly the leading
    whitespace run. *)
Definition is_marker (c : ascii) : bool :=
  Ascii.eqb c "*" || Ascii.eqb c "-".

Definition bullet_match (s : string) : bool :=
  match lstrip s with
  | String c (String d _) => is_marker c && is_space d
  | _ => false
  end.

(** [re.match(r"#+\s", s)] *)
Definition heading_match (s : string) : bool :=
  match s with
  | String "#" _ =>
      match lstrip_char "#" s with
      | String d _ => is_space d
      | EmptyString => false
      end
  | _ => false
  end.

(** [add_commit]: the line that is appended. *)
Definition add_commit_line (commit_title : string) : string :=
  rstrip (if bullet_match commit_title then commit_title
          else "* " ++ commit_title).

Definition add_commit (commits : list string) (commit_title : string) : list string :=
  (commits ++ [add_commit_line commit_title])%list.

Definition has_content (commits : list string) : bool :=
  negb (Nat.eqb (List.length commits) 0).

Definition mem (x : string) (l : list string) : bool :=
  existsb (String.eqb x) l.

(** [remove_duplicates]: the loop over [self._commits] with the
    accumulator [unique_commits]. *)
Fixpoint remove_dups_loop (unique_commits commits : list string) : list string :=
  match commits with
  | [] => unique_commits
  | commit :: rest =>
      if mem commit unique_commits
      then remove_dups_loop unique_commits rest
      else remove_dups_loop (unique_commits ++ [commit])%list rest
  end.

Definition remove_duplicates (commits : list string) : list string :=
  remove_dups_loop [] commits.

(** [ChangelogSection.__str__] *)
Definition to_str (title : string) (commits : list string) : string :=
  "### " ++ title ++ String nl (String nl EmptyString)
  ++ String.concat "" (map (fun c => c ++ String nl EmptyString) commits).

(** The operations a caller can run on a section. *)
Inductive op := AddCommit (s : string) | RemoveDuplicates.

Definition run_op (commits : list string) (o : op) : list string :=
  match o with
  | AddCommit s => add_commit commits s
  | RemoveDuplicates => remove_duplicates commits
  end.

Definition run_ops (ops : list op) : list string := fold_left run_op ops [].

End Section.

(** ** [ChangelogRelease] *)
Module Release.
Import Section.

(** The keys of [self._sections], in dict order. *)
Inductive category := Added | Changed | Fixed | Removed | Deprecated.

Definition categories : list category := [Added; Changed; Fixed; Removed; Deprecated].

Definition cat_name (c : category) : string :=
  match c with
  | Added => "Added" | Changed => "Changed" | Fixed => "Fixed"
  | Removed => "Removed" | Deprecated => "Deprecated"
  end.

(** [self._sections[key]]; [None] is the [KeyError]. *)
Definition cat_of_key (key : string) : option category :=
  find (fun c => String.eqb (cat_name c) key) categories.

(** The five [ChangelogSection]s, by their [_commits]. *)
Record sections := mk_sections {
  s_added : list string; s_changed : list string; s_fixed : list string;
  s_removed : list string; s_deprecated : list string }.

Definition empty_sections : sections := mk_sections [] [] [] [] [].

Definition get_sec (c : category) (ss : sections) : list string :=
  match c with
  | Added => s_added ss | Changed => s_changed ss | Fixed => s_fixed ss
  | Removed => s_removed ss | Deprecated => s_deprecated ss
  end.

Definition set_sec (c : category) (l : list string) (ss : sections) : sections :=
  match c with
  | Added => mk_sections l (s_changed ss) (s_fixed ss) (s_removed ss) (s_deprecated ss)
  | Changed => mk_sections (s_added ss) l (s_fixed ss) (s_removed ss) (s_deprecated ss)
  | Fixed => mk_sections (s_added ss) (s_changed ss) l (s_removed ss) (s_deprecated ss)
  | Removed => mk_sections (s_added ss) (s_changed ss) (s_fixed ss) l (s_deprecated ss)
  | Deprecated => mk_sections (s_added ss) (s_changed ss) (s_fixed ss) (s_removed ss) l
  end.

(** [self._sections[c].add_commit(msg)] *)
Definition add_to (c : category) (msg : string) (ss : sections) : sections :=
  set_sec c (add_commit (get_sec c ss) msg) ss.

(** A [ChangelogRelease]; [unreleased] marks a [ChangelogUnreleased]
    (whose [header] drops the date). [batched] is [_batched_commits]. *)
Record release := mk_release {
  version : string;
  date : string;
  unreleased : bool;
  secs : sections;
  batched : list (option string * string) }.

(** [ChangelogRelease(version, date)] *)
Definition new_release (v d : string) : release := mk_release v d false empty_sections [].

(** [ChangelogUnreleased()] *)
Definition new_unreleased : release :=
  mk_release "Unreleased" "2099-01-01" true empty_sections [].

(** [_line.lower() in ("added", "changed", "fixed", "removed", "deprecated")] *)
Definition is_category_word (s : string) : bool :=
  existsb (String.eqb s) ["added"; "changed"; "fixed"; "removed"; "deprecated"].

(** The inner loop [for commit_line in lines[i + 1 :]]. *)
Fixpoint read_section (c : category) (lines : list string) (ss : sections) : sections :=
  match lines with
  | [] => ss
  | commit_line :: rest =>
      if bullet_match commit_line then read_section c rest (add_to c commit_line ss)
      else if heading_match commit_line then ss
      else read_section c rest ss
  end.

(** [ChangelogRelease.read]: the outer [for i, line in enumerate(lines)];
    [rest] is [lines[i + 1 :]]. *)
Fixpoint read (lines : list string) (ss : sections) : sections :=
  match lines with
  | [] => ss
  | line :: rest =>
      let _line := strip (lstrip_char "#" line) in
      let ss' :=
        if is_category_word (lower _line) then
          match cat_of_key (capitalize _line) with
          | Some title => read_section title rest ss
          | None => ss   (* unreachable: the word is one of the five keys *)
          end
        else ss in
      read rest ss'
  end.

Definition header (r : release) : string :=
  if unreleased r then "## " ++ version r
  else "## " ++ version r ++ " - " ++ date r.

Definition nl2 : string := String nl (String nl EmptyString).

(** [ChangelogRelease.__str__] *)
Definition to_str (r : release) : string :=
  header r ++ nl2
  ++ String.concat ""
       (map (fun c => if has_content (get_sec c (secs r))
                      then strip (Section.to_str (cat_name c) (get_sec c (secs r))) ++ nl2
                      else "")
            categories).

End Release.

(** ** [hashlib.sha224(name.encode("utf-8")).hexdigest()] (FIPS 180-4) *)
Module Sha224.
Open Scope Z_scope.

Definition mask32 : Z := 4294967295.
Definition add32 (a b : Z) : Z := Z.land (a + b) mask32.
Definition rotr (x : Z) (n : Z) : Z :=
  Z.lor (Z.shiftr x n) (Z.land (Z.shiftl x (32 - n)) mask32).
Definition ch (e f g : Z) : Z := Z.lxor (Z.land e f) (Z.land (Z.lxor e mask32) g).
Definition maj (a b c : Z) : Z := Z.lxor (Z.lxor (Z.land a b) (Z.land a c)) (Z.land b c).
Definition bsig0 (a : Z) : Z := Z.lxor (Z.lxor (rotr a 2) (rotr a 13)) (rotr a 22).
Definition bsig1 (e : Z) : Z := Z.lxor (Z.lxor (rotr e 6) (rotr e 11)) (rotr e 25).
Definition ssig0 (w : Z) : Z := Z.lxor (Z.lxor (rotr w 7) (rotr w 18)) (Z.shiftr w 3).
Definition ssig1 (w : Z) : Z := Z.lxor (Z.lxor (rotr w 17) (rotr w 19)) (Z.shiftr w 10).

(** The round constants (FIPS 180-4, 4.2.2): the first 32 bits of the
    fractional parts of the cube roots of the first 64 primes, that is
    [floor (cbrt (p * 2^96)) mod 2^32]. *)
Definition is_prime (n : Z) : bool :=
  (2 <=? n) && forallb (fun d => negb (n mod d =? 0))
                       (map Z.of_nat (seq 2 (Z.to_nat n - 2))).

Definition first_primes (k : nat) (bound : nat) : list Z :=
  firstn k (filter is_prime (map Z.of_nat (seq 2 bound))).

(** The integer cube root, built bit by bit from bit [bits - 1] down. *)
Fixpoint cbrt_bits (n x : Z) (bits : nat) : Z :=
  match bits with
  | O => x
  | S b => let y := Z.lor x (Z.shiftl 1 (Z.of_nat b)) in
           cbrt_bits n (if y * y * y <=? n then y else x) b
  end.

Definition K : list Z :=
  Eval vm_compute in
  map (fun p => Z.land (cbrt_bits (p * 2 ^ 96) 0 40) mask32) (first_primes 64 400).

(** The eight working variables. *)
Record hstate := mk_h { ha : Z; hb : Z; hc : Z; hd : Z; he : Z; hf : Z; hg : Z; hh : Z }.

Definition H0 : hstate :=
  mk_h 0xc1059ed8 0x367cd507 0x3070dd17 0xf70e5939 0xffc00b31 0x68581511 0x64f98fa7 0xbefa4fa4.

Definition round (s : hstate) (kw : Z * Z) : hstate :=
  let t1 := add32 (add32 (add32 (add32 (hh s) (bsig1 (he s))) (ch (he s) (hf s) (hg s))) (fst kw)) (snd kw) in
  let t2 := add32 (bsig0 (ha s)) (maj (ha s) (hb s) (hc s)) in
  mk_h (add32 t1 t2) (ha s) (hb s) (hc s) (add32 (hd s) t1) (he s) (hf s) (hg s).

(** Message schedule: [rw] holds the words computed so far, newest first. *)
Fixpoint extend (n : nat) (rw : list Z) : list Z :=
  match n with
  | O => rw
  | S n' =>
      let w := add32 (add32 (add32 (ssig1 (nth 1 rw 0)) (nth 6 rw 0)) (ssig0 (nth 14 rw 0))) (nth 15 rw 0) in
      extend n' (w :: rw)
  end.

Fixpoint words_of_bytes (n : nat) (bs : list Z) : list Z :=
  match n with
  | O => []
  | S n' =>
      match bs with
      | b0 :: b1 :: b2 :: b3 :: bs' =>
          Z.lor (Z.shiftl b0 24) (Z.lor (Z.shiftl b1 16) (Z.lor (Z.shiftl b2 8) b3))
          :: words_of_bytes n' bs'
      | _ => []
      end
  end.

Definition compress (s : hstate) (block : list Z) : hstate :=
  let w := rev (extend 48 (rev (words_of_bytes 16 block))) in
  let s' := fold_left round (combine K w) s in
  mk_h (add32 (ha s) (ha s')) (add32 (hb s) (hb s')) (add32 (hc s) (hc s')) (add32 (hd s) (hd s'))
       (add32 (he s) (he s')) (add32 (hf s) (hf s')) (add32 (hg s) (hg s')) (add32 (hh s) (hh s')).

Fixpoint compress_all (fuel : nat) (s : hstate) (bs : list Z) : hstate :=
  match fuel with
  | O => s
  | S f => match bs with
           | [] => s
           | _ => compress_all f (compress s (firstn 64 bs)) (skipn 64 bs)
           end
  end.

(** Bit length as eight big-endian bytes. *)
Definition be64 (n : Z) : list Z :=
  map (fun i => Z.land (Z.shiftr n (8 * (7 - i))) 255) [0; 1; 2; 3; 4; 5; 6; 7].

Definition pad (msg : list Z) : list Z :=
  let len := Z.of_nat (List.length msg) in
  let k := Z.to_nat ((55 - len) mod 64) in
  msg ++ [128] ++ repeat 0 k ++ be64 (8 * len).

(** [str.encode("utf-8")] for Latin-1 code points. *)
Definition utf8 (s : string) : list Z :=
  flat_map (fun c => let n := Z.of_N (N_of_ascii c) in
                     if n <? 128 then [n] else [192 + n / 64; 128 + n mod 64])
           (list_ascii_of_string s).

Definition hex_digit (n : Z) : ascii :=
  nth (Z.to_nat n) (list_ascii_of_string "0123456789abcdef") "0"%char.

Definition hex8 (w : Z) : string :=
  string_of_list_ascii
    (map (fun i => hex_digit (Z.land (Z.shiftr w (4 * (7 - i))) 15)) [0; 1; 2; 3; 4; 5; 6; 7]).

Definition digest (s : list Z) : hstate :=
  let p := pad s in compress_all (List.length p) H0 p.

(** [hexdigest()]: SHA-224 keeps the first seven words. *)
Definition sha224_hex (s : string) : string :=
  let h := digest (utf8 s) in
  hex8 (ha h) ++ hex8 (hb h) ++ hex8 (hc h) ++ hex8 (hd h) ++ hex8 (he h) ++ hex8 (hf h) ++ hex8 (hg h).

End Sha224.

(** ** [doculog.requests.post] *)
Module Gateway.

(** The environment variables [post] reads ([os.getenv]). *)
Record env := mk_env {
  documatic_api_key : option string;
  doculog_api_key : option string;
  doculog_project_name : option string;
  doculog_run_locally : option string }.

(** Python truthiness of an optional [str]. *)
Definition truthy (o : option string) : bool :=
  match o with Some (String _ _) => true | _ => false end.

(** [a or b] *)
Definition py_or (a b : option string) : option string := if truthy a then a else b.

Definition SERVER_DOMAIN : string :=
  "https://av9kmkrq4f.execute-api.eu-west-2.amazonaws.com/Prod/".

(** The decoded [message]: a list of [(category, text)] pairs or a string. *)
Inductive msg := MPairs (l : list (option string * string)) | MStr (s : string).

Record request := mk_request {
  req_url : string;
  req_params : list (string * string);
  req_data : list (option string * string);
  req_headers : list (string * string) }.

Inductive net_result :=
  | ConnectionError
  | Response (status : Z) (message : msg).

(** [d[k] = v] on an insertion-ordered dict. *)
Fixpoint assoc_set {A} (k : string) (v : A) (d : list (string * A)) : list (string * A) :=
  match d with
  | [] => [(k, v)]
  | (k', v') :: d' => if String.eqb k' k then (k', v) :: d' else (k', v') :: assoc_set k v d'
  end.

Fixpoint assoc_get {A} (k : string) (d : list (string * A)) : option A :=
  match d with
  | [] => None
  | (k', v') :: d' => if String.eqb k' k then Some v' else assoc_get k d'
  end.

(** [d.update(upd)] *)
Definition dict_update (d upd : list (string * string)) : list (string * string) :=
  fold_left (fun acc kv => assoc_set (fst kv) (snd kv) acc) upd d.

(** [project_name if project_name else "DefaultProject"] *)
Definition project_name (e : env) : string :=
  match doculog_project_name e with
  | Some (String c s) => String c s
  | _ => "DefaultProject"
  end.

Section Post.
(** [requests.post] seen from the caller, and [json.loads] ([None] is the
    exception that [post] swallows). *)
Variable net : request -> net_result.
Variable json_loads : string -> option msg.

(** [post(endpoint, payload, params)]: the request it sends (if any) and
    its return value ([None] for Python's [None]). *)
Definition post (e : env) (endpoint : string) (payload : list (option string * string))
    (params : list (string * string)) : option request * option msg :=
  let hashed_project := Sha224.sha224_hex (project_name e) in
  match py_or (documatic_api_key e) (doculog_api_key e) with
  | Some (String c s) =>
      let api_key := String c s in
      let run_locally :=
        match doculog_run_locally e with Some v => String.eqb v "True" | None => false end in
      let server_domain := if run_locally then "http://127.0.0.1:3000/" else SERVER_DOMAIN in
      let req := mk_request (server_domain ++ endpoint)
                   (dict_update [("project", hashed_project)] params) payload
                   [("x-api-key", api_key); ("content-type", "application/json")] in
      match net req with
      | ConnectionError => (Some req, None)
      | Response status message =>
          if (status =? 200)%Z then
            (Some req,
             Some (match message with
                   | MPairs l => MPairs l
                   | MStr m => match json_loads m with Some m' => m' | None => MStr m end
                   end))
          else (Some req, None)
      end
  | _ => (None, None)
  end.
End Post.

End Gateway.

(** What the program does that a caller can observe. *)
Inductive event :=
  | EvPrint (s : string)
  | EvReadFile
  | EvGetCommits (since until : string)
  | EvRequest (r : Gateway.request).

(** ** Population of a release from history ([ChangelogRelease.generate]) *)
Module Gen.
Import Gateway Release.

Section Gen.
Variable e : env.
Variable net : request -> net_result.
Variable json_loads : string -> option msg.
(** [get_commits(since_date, until_date)], by the commits' ["title"]s. *)
Variable get_commits : string -> string -> list string.

(** [_update_log]: [None] is the [KeyError] of an unknown category. *)
Fixpoint update_log (ss : sections) (log_updates : list (option string * string)) : option sections :=
  match log_updates with
  | [] => Some ss
  | (commit_type, commit_msg) :: rest =>
      if truthy commit_type then
        match commit_type with
        | Some k =>
            match cat_of_key k with
            | Some c => update_log (add_to c commit_msg ss) rest
            | None => None
            end
        | None => None
        end
      else update_log ss rest
  end.

Definition with_secs (r : release) (ss : sections) (b : list (option string * string)) : release :=
  mk_release (version r) (date r) (unreleased r) ss b.

Definition request_events (q : option request) : list event :=
  match q with Some q' => [EvRequest q'] | None => [] end.

(** [post_classification] *)
Definition post_classification (r : release) : option (release * list event) :=
  match batched r with
  | [] => Some (r, [])
  | _ =>
      let (q, classified_commits) :=
        post net json_loads e "classify" (batched r) [("version", version r)] in
      let updated :=
        match classified_commits with
        | Some (MPairs ((_ :: _) as l)) => update_log (secs r) l
        | Some (MStr (String _ _)) => None  (* unpacking a character: ValueError *)
        | _ => update_log (secs r) (batched r)
        end in
      match updated with
      | Some ss => Some (with_secs r ss [], request_events q)
      | None => None
      end
  end.

(** [track_commit] *)
Definition track_commit (r : release) (commit_type : option string) (commit_update : string)
  : option (release * list event) :=
  let r1 := with_secs r (secs r) (batched r ++ [(commit_type, commit_update)])%list in
  if Nat.leb 25 (List.length (batched r1)) then post_classification r1 else Some (r1, []).

Fixpoint track_all (r : release) (commits : list string) : option (release * list event) :=
  match commits with
  | [] => Some (r, [])
  | title :: rest =>
      if truthy (Some title) then
        let (commit_type, clean_commit) := Catalog.catalog_commit title in
        match track_commit r commit_type clean_commit with
        | Some (r1, ev1) =>
            match track_all r1 rest with
            | Some (r2, ev2) => Some (r2, ev1 ++ ev2)%list
            | None => None
            end
        | None => None
        end
      else track_all r rest
  end.

Definition dedup_all (ss : sections) : sections :=
  mk_sections (Section.remove_duplicates (s_added ss)) (Section.remove_duplicates (s_changed ss))
    (Section.remove_duplicates (s_fixed ss)) (Section.remove_duplicates (s_removed ss))
    (Section.remove_duplicates (s_deprecated ss)).

(** [ChangelogRelease.generate(start_date)] *)
Definition generate (r : release) (start_date : string) : option (release * list event) :=
  let commits := get_commits start_date (date r) in
  match track_all r commits with
  | Some (r1, ev1) =>
      match post_classification r1 with
      | Some (r2, ev2) =>
          Some (with_secs r2 (dedup_all (secs r2)) (batched r2),
                (EvGetCommits start_date (date r) :: ev1 ++ ev2)%list)
      | None => None
      end
  | None => None
  end.

End Gen.
End Gen.

(** ** [ChangelogDoc] *)
Module Doc.
Import Gateway Release.

Definition nls : string := String nl EmptyString.

Definition is_digit (c : ascii) : bool :=
  let n := N_of_ascii c in ((48 <=? n) && (n <=? 57))%N.

(** [[0-9]{1,2}]: the possible remainders after it *)
Definition digits12 (s : string) : list string :=
  match s with
  | String c s' =>
      if is_digit c then
        s' :: match s' with
              | String c2 s'' => if is_digit c2 then [s''] else []
              | EmptyString => []
              end
      else []
  | EmptyString => []
  end.

Definition dot (s : string) : list string :=
  match s with String "." s' => [s'] | _ => [] end.

(** [re.match(r"[0-9]{1,2}\.[0-9]{1,2}\.[0-9]{1,2}", s)] *)
Definition ver_match (s : string) : bool :=
  match flat_map digits12 (flat_map dot (flat_map digits12 (flat_map dot (digits12 s)))) with
  | [] => false
  | _ => true
  end.

Definition mem {A} (k : string) (d : list (string * A)) : bool :=
  match assoc_get k d with Some _ => true | None => false end.

(** [ChangelogDoc._get_tag_date]; [None] is Python's [None]. *)
Fixpoint get_tag_date (tags : list (string * string)) (tag_name : string) : option string :=
  match tags with
  | [] => None
  | (tag, tag_date) :: rest => if String.eqb tag tag_name then Some tag_date else get_tag_date rest tag_name
  end.

(** [str(x)] for an optional [str]. *)
Definition py_str (o : option string) : string :=
  match o with Some s => s | None => "None" end.

(** The locals of [ChangelogDoc.read]. [version_date] starts as [None]
    but is only read once a heading has set it. *)
Record reader := mk_reader {
  curr_version : option string;
  version_date : string;
  curr_lines : list string }.

(** [_read_release] *)
Definition read_release (rd : reader) (rels : list (string * release)) : list (string * release) :=
  match curr_version rd with
  | None => rels
  | Some v =>
      let nr := if String.eqb (lower v) "unreleased" then new_unreleased
                else new_release v (version_date rd) in
      assoc_set v (Gen.with_secs nr (Release.read (curr_lines rd) (secs nr)) (batched nr)) rels
  end.

(** The loop [for line in content] of [ChangelogDoc.read]. *)
Fixpoint read_loop (tags : list (string * string)) (content : list string) (rd : reader)
    (rels : list (string * release)) : list (string * release) :=
  match content with
  | [] => read_release rd rels
  | line :: rest =>
      let _line := strip (lstrip_char "#" line) in
      let _line_parts := split "-" _line in
      let _ver := lstrip_char "v" (strip (hd EmptyString _line_parts)) in
      if ver_match _ver || String.eqb (lower _ver) "unreleased" then
        let rels' := read_release rd rels in
        let vd := if Nat.eqb (List.length _line_parts) 2
                  then strip (nth 1 _line_parts EmptyString)
                  else py_str (get_tag_date tags ("v" ++ _ver)) in
        read_loop tags rest (mk_reader (Some _ver) vd []) rels'
      else read_loop tags rest (mk_reader (curr_version rd) (version_date rd) (curr_lines rd ++ [line])%list) rels
  end.

(** [ChangelogDoc.read] on an existing file with text [content]. *)
Definition read (tags : list (string * string)) (content : string)
    (rels : list (string * release)) : list (string * release) :=
  read_loop tags (readlines content) (mk_reader None "None" []) rels.

Record doc := mk_doc {
  releases : list (string * release);
  tags : list (string * string);
  has_git : bool }.

Definition sentinel : string := "1999-01-01".

Definition not_enabled_msg : string :=
  "Git not enabled in current working directory. Not generating Changelog.".

Section Generate.
Variable e : env.
Variable net : request -> net_result.
Variable json_loads : string -> option msg.
Variable get_commits : string -> string -> list string.

(** The loop [for i, (tag_name, tag_date) in enumerate(self._tags)];
    [all_tags] is [self._tags], [rest] its suffix from index [i]. *)
Fixpoint gen_tags (all_tags : list (string * string)) (i : nat) (rest : list (string * string))
    (rels : list (string * release)) : option (list (string * release) * list event) :=
  match rest with
  | [] => Some (rels, [])
  | (tag_name, tag_date) :: rest' =>
      let vless_tag := strip (lstrip_char "v" tag_name) in
      if mem vless_tag rels then gen_tags all_tags (S i) rest' rels
      else
        let section_start :=
          if Nat.eqb i (List.length all_tags - 1) then sentinel
          else snd (nth (S i) all_tags (EmptyString, EmptyString)) in
        match Gen.generate e net json_loads get_commits (new_release vless_tag tag_date) section_start with
        | Some (release, ev1) =>
            match gen_tags all_tags (S i) rest' (assoc_set vless_tag release rels) with
            | Some (rels', ev2) => Some (rels', ev1 ++ ev2)%list
            | None => None
            end
        | None => None
        end
  end.

(** [ChangelogDoc.generate]; [file] is the changelog file's text, [None]
    when it does not exist. *)
Definition generate (file : option string) (d : doc) : option (doc * list event) :=
  if negb (has_git d) then Some (d, [EvPrint not_enabled_msg])
  else
    let '(rels0, ev0) :=
      match file with
      | Some content => (read (tags d) content (releases d), [EvReadFile])
      | None => (releases d, [])
      end in
    let rels1 :=
      if negb (mem "Unreleased" rels0)
         || match tags d with
            | (t, _) :: _ => negb (mem (lstrip_char "v" t) rels0)
            | [] => false
            end
      then assoc_set "Unreleased" new_unreleased rels0 else rels0 in
    let unreleased_start_date :=
      match tags d with (_, dt) :: _ => dt | [] => sentinel end in
    match assoc_get "Unreleased" rels1 with
    | None => None
    | Some u =>
        match Gen.generate e net json_loads get_commits u unreleased_start_date with
        | None => None
        | Some (u', ev1) =>
            match gen_tags (tags d) 0 (tags d) (assoc_set "Unreleased" u' rels1) with
            | None => None
            | Some (rels3, ev2) => Some (mk_doc rels3 (tags d) (has_git d), ev0 ++ ev1 ++ ev2)%list
            end
        end
    end.
End Generate.

(** [ChangelogDoc.__str__] *)
Definition to_str (d : doc) : string :=
  "# Changelog" ++ nl2 ++ "Based on KeepAChangelog." ++ nls ++ "Generated by **Documatic.**" ++ nl2
  ++ match assoc_get "Unreleased" (releases d) with
     | Some u => strip (Release.to_str u)
     | None => EmptyString
     end
  ++ String.concat EmptyString
       (map (fun t => match assoc_get (strip (lstrip_char "v" (fst t))) (releases d) with
                      | Some r => nl2 ++ strip (Release.to_str r)
                      | None => EmptyString
                      end) (tags d))
  ++ nls.

(** [ChangelogDoc.save]: the file's text afterwards ([None]: no file). *)
Definition save (file : option string) (d : doc) : option string :=
  if has_git d then Some (to_str d) else file.

End Doc.

(** ** Start-up: key validation, configuration and the CLI entry point
    (doculog/requests.py [validate_key], doculog/config.py, doculog/main.py) *)
Module Config.
Import Gateway.

(** A JSON value as [response.json()] decodes it (numbers by their integer
    value). *)
#[warnings="-register-all"]
Inductive json :=
  | JNull
  | JBool (b : bool)
  | JNum (z : Z)
  | JStr (s : string)
  | JArr (l : list json)
  | JObj (l : list (string * json)).

(** Python truthiness of a decoded JSON value. *)
Definition json_truthy (j : json) : bool :=
  match j with
  | JNull => false
  | JBool b => b
  | JNum z => negb (z =? 0)%Z
  | JStr s => match s with EmptyString => false | _ => true end
  | JArr l => match l with [] => false | _ => true end
  | JObj l => match l with [] => false | _ => true end
  end.

(** [requests.get] seen from the caller: the status code, the ["message"]
    field of [response.json()] ([None]: the body has no such field, which
    raises) and the ["x-amzn-errortype"] header ([None]: absent, which
    raises [KeyError] when it is read). *)
Inductive get_result :=
  | GConnectionError
  | GResponse (status : Z) (message : option json) (errortype : option string).

(** What start-up does that a caller can observe. *)
Inductive cevent :=
  | CPrint (s : string)
  | CGet (r : request)
  | CRemove (path : string)
  | CLog (level : string) (s : string).

(** The f-string printed on a 403 answer. *)
Definition msg_403 (errortype : string) : string :=
  String nl ("API call error: " ++ errortype ++ "." ++ String nl
   ("Please file a bug report if this is unexpected." ++ String nl
    ("doculog can still run, but without advanced features." ++ String nl EmptyString))).

(** [validate_key()]: the events up to its return and its return value
    ([None]: it raises). [False] is [JBool false]. *)
Definition validate_key (net_get : request -> get_result) (e : env)
    : list cevent * option json :=
  let hashed_project := Sha224.sha224_hex (project_name e) in
  match py_or (documatic_api_key e) (doculog_api_key e) with
  | Some (String c s) =>
      let api_key := String c s in
      if negb (match doculog_run_locally e with
               | Some v => String.eqb v "False"
               | None => false
               end)
      then ([], Some (JBool false))
      else
        let req := mk_request (SERVER_DOMAIN ++ "validate")
                     [("project", hashed_project)] []
                     [("x-api-key", api_key); ("content-type", "application/json")] in
        match net_get req with
        | GConnectionError => ([CGet req], Some (JBool false))
        | GResponse status message errortype =>
            if (status =? 200)%Z then ([CGet req], message)
            else if (status =? 403)%Z then
              match errortype with
              | Some t => ([CGet req; CPrint (msg_403 t)], Some (JBool false))
              | None => ([CGet req], None)
              end
            else ([CGet req], Some (JBool false))
        end
  | _ => ([CPrint "DOCUMATIC_API_KEY not in environment"], Some (JBool false))
  end.

(** [os.environ[k] = v] ([Some v]) and [del os.environ[k]] ([None]) on the
    variables the program reads; it reads no other. *)
Definition env_set (k : string) (v : option string) (e : env) : env :=
  if String.eqb k "DOCUMATIC_API_KEY" then
    mk_env v (doculog_api_key e) (doculog_project_name e) (doculog_run_locally e)
  else if String.eqb k "DOCULOG_API_KEY" then
    mk_env (documatic_api_key e) v (doculog_project_name e) (doculog_run_locally e)
  else if String.eqb k "DOCULOG_PROJECT_NAME" then
    mk_env (documatic_api_key e) (doculog_api_key e) v (doculog_run_locally e)
  else if String.eqb k "DOCULOG_RUN_LOCALLY" then
    mk_env (documatic_api_key e) (doculog_api_key e) (doculog_project_name e) v
  else e.

(** [k in os.environ] *)
Definition env_has (o : option string) : bool :=
  match o with Some _ => true | None => false end.

(** [set_env_vars(vars)] *)
Definition set_env_vars (vars : list (string * string)) (e : env) : env :=
  fold_left (fun e kv => env_set (fst kv) (Some (snd kv)) e) vars e.

(** [configure_api(local)]: the environment afterwards ([None]: it raises). *)
Definition configure_api (net_get : request -> get_result) (local : bool) (e : env)
    : list cevent * option env :=
  if local then ([], Some e)
  else
    let (tr, v) := validate_key net_get e in
    match v with
    | None => (tr, None)
    | Some v =>
        if json_truthy v then (tr, Some e)
        else
          let e := if env_has (documatic_api_key e) then env_set "DOCUMATIC_API_KEY" None e else e in
          let e := if env_has (doculog_api_key e) then env_set "DOCULOG_API_KEY" None e else e in
          (tr, Some e)
    end.

(** [str.rstrip(chars)] for a one-character [chars] *)
Fixpoint rstrip_char (ch : ascii) (s : string) : string :=
  match s with
  | EmptyString => EmptyString
  | String c s' =>
      match rstrip_char ch s' with
      | EmptyString => if Ascii.eqb c ch then EmptyString else String c EmptyString
      | r => String c r
      end
  end.

(** [str.strip(chars)] for a one-character [chars] *)
Definition strip_char (ch : ascii) (s : string) : string := rstrip_char ch (lstrip_char ch s).

(** [s.strip(quote).strip(double_quote)] *)
Definition strip_quotes (s : string) : string := strip_char "034" (strip_char "'" s).

(** [s.endswith(suffix)] *)
Definition endswith (suffix s : string) : bool :=
  let l := list_ascii_of_string s in
  let m := list_ascii_of_string suffix in
  Nat.leb (List.length m) (List.length l)
  && String.eqb (string_of_list_ascii (skipn (List.length l - List.length m) l)) suffix.

(** [ConfigParser.get(section, option)] seen from the caller: the value
    (after interpolation), [NoOptionError], or another exception. *)
Inductive cp_result := CPValue (v : string) | CPNoOption | CPError.

Record parser := mk_parser {
  cp_has_section : string -> bool;
  cp_get : string -> string -> cp_result }.

(** [pyproject.toml] as [parse_config] meets it: absent, rejected by
    [config.read] (which raises), or read. *)
Inductive pyproject := NoFile | Unreadable | Read (p : parser).

(** [ConfigParser.BOOLEAN_STATES[value.lower()]] ([None]: [ValueError]) *)
Definition boolean_state (v : string) : option bool :=
  let l := lower v in
  if existsb (String.eqb l) ["1"; "yes"; "true"; "on"] then Some true
  else if existsb (String.eqb l) ["0"; "no"; "false"; "off"] then Some false
  else None.

(** [config.getboolean(section, option)], with [NoOptionError] and
    [ValueError] caught as [parse_config] does ([None]: another exception). *)
Definition getboolean_or_false (cp : parser) (section opt : string) : option bool :=
  match cp_get cp section opt with
  | CPValue v => match boolean_state v with Some b => Some b | None => Some false end
  | CPNoOption => Some false
  | CPError => None
  end.

(** [config.get(section, option)] stripped of quotes as [strip_quotes] does, with
    [NoOptionError] giving [default]. *)
Definition get_or (cp : parser) (section opt default : string) : option string :=
  match cp_get cp section opt with
  | CPValue v => Some (strip_quotes v)
  | CPNoOption => Some default
  | CPError => None
  end.

(** Values of the returned config dict. *)
Inductive cval := CStr (s : string) | CBool (b : bool).

Definition cval_truthy (v : cval) : bool :=
  match v with CStr EmptyString => false | CStr _ => true | CBool b => b end.

Definition DEFAULT_VARS (stem : string) : list (string * string) :=
  [("DOCULOG_PROJECT_NAME", stem); ("DOCULOG_RUN_LOCALLY", "false")].

Definition DEFAULT_CONFIG : list (string * cval) :=
  [("changelog_name", CStr "CHANGELOG.md"); ("local", CBool false)].

Definition py_str_bool (b : bool) : string := if b then "True" else "False".

(** [parse_config(project_root)]. [load_dotenv] is [load_dotenv(project_root
    / ".env")], [stem] is [project_root.stem] and [root_join n] is the text
    of [project_root / n]. *)
Definition parse_config (load_dotenv : env -> env) (stem : string)
    (root_join : string -> string) (pp : pyproject) (e : env)
    : list cevent * option (env * list (string * cval)) :=
  let tr := [CPrint ("Reading environment variables from " ++ root_join ".env.")] in
  let e := load_dotenv e in
  match pp with
  | NoFile => (tr, Some (set_env_vars (DEFAULT_VARS stem) e, DEFAULT_CONFIG))
  | Unreadable => (tr, None)
  | Read cp =>
      if negb (cp_has_section cp "tool.doculog") then
        (tr, Some (set_env_vars (DEFAULT_VARS stem) e, DEFAULT_CONFIG))
      else
        match get_or cp "tool.doculog" "project" stem with
        | None => (tr, None)
        | Some project_name =>
            match getboolean_or_false cp "tool.doculog" "local" with
            | None => (tr, None)
            | Some local =>
                let tr := app tr (app
                     (if negb (env_has (documatic_api_key e)) && negb (env_has (doculog_api_key e))
                      then [CPrint "Environment variable DOCUMATIC_API_KEY not set. Advanced features disabled."]
                      else [])
                     (if env_has (doculog_api_key e)
                      then [CPrint "DOCULOG_API_KEY is deprecated and will be removed in v0.2.0. Use DOCUMATIC_API_KEY environment variable to set your api key instead."]
                      else [])) in
                let e := env_set "DOCULOG_PROJECT_NAME" (Some project_name) e in
                let e := env_set "DOCULOG_RUN_LOCALLY" (Some (py_str_bool local)) e in
                match get_or cp "tool.doculog" "changelog" "CHANGELOG.md" with
                | None => (tr, None)
                | Some changelog_name =>
                    let changelog_name :=
                      if negb (endswith ".md" changelog_name) then changelog_name ++ ".md"
                      else changelog_name in
                    (tr, Some (e, [("changelog_name", CStr changelog_name); ("local", CBool local)]))
                end
            end
        end
  end.

(** [configure(project_root)]: the environment afterwards and the config. *)
Definition configure (net_get : request -> get_result) (load_dotenv : env -> env)
    (stem : string) (root_join : string -> string) (pp : pyproject) (e : env)
    : list cevent * option (env * list (string * cval)) :=
  let e := load_dotenv e in
  let (tr, r) := parse_config load_dotenv stem root_join pp e in
  match r with
  | None => (tr, None)
  | Some (e, config) =>
      match assoc_get "local" config with
      | None => (tr, None)
      | Some local =>
          let (tr', r') := configure_api net_get (cval_truthy local) e in
          match r' with
          | None => (app tr tr', None)
          | Some e => (app tr tr', Some (e, config))
          end
      end
  end.

(** [main.generate_changelog(overwrite)]: the events and the outcome
    ([None]: it raises). [exists p] is [Path(p).exists()]; [rest] is what
    follows the lookups [config["categories"]] and
    [config["category_options"]] (building the [ChangelogDoc], [generate],
    [save] and the final log), given the config and the environment. *)
Definition generate_changelog (net_get : request -> get_result) (load_dotenv : env -> env)
    (stem : string) (root_join : string -> string) (exists_ : string -> bool)
    (rest : list (string * cval) -> env -> list cevent * option unit)
    (overwrite : bool) (pp : pyproject) (e : env) : list cevent * option unit :=
  let (tr, r) := configure net_get load_dotenv stem root_join pp e in
  match r with
  | None => (tr, None)
  | Some (e, config) =>
      match assoc_get "changelog_name" config with
      | Some (CStr name) =>
          let log_path := root_join name in
          let tr := app tr
            (if overwrite then
               if exists_ log_path
               then [CRemove log_path; CLog "info" "Overwriting current changelog"]
               else [CLog "warning" "Skipping overwrite, existing changelog file not found"]
             else []) in
          match assoc_get "categories" config, assoc_get "category_options" config with
          | Some _, Some _ => let (tr', r') := rest config e in (app tr tr', r')
          | _, _ => (tr, None)
          end
      | _ => (tr, None)
      end
  end.

End Config.

(** ** Commit history (doculog/git.py) *)
Module Git.
Import Gateway.

(** Values of a commit dict: [str] or [list] of [str]. *)
Inductive cfield := FStr (s : string) | FList (l : list string).

Definition commit := list (string * cfield).

(** [s.split(sep)] for a non-empty [sep]. [skip] counts the characters of
    a separator still to be dropped. *)
Fixpoint split_str_aux (sep : string) (skip : nat) (s : string) : list string :=
  match s with
  | EmptyString => [EmptyString]
  | String c s' =>
      match skip with
      | S k => split_str_aux sep k s'
      | O =>
          if String.prefix sep s then EmptyString :: split_str_aux sep (String.length sep - 1) s'
          else match split_str_aux sep 0 s' with
               | [] => [String c EmptyString]
               | w :: ws => String c w :: ws
               end
      end
  end.

Definition split_str (sep s : string) : list string := split_str_aux sep 0 s.

(** [key, value = s.split(":", 1)] ([None]: [ValueError]). *)
Fixpoint split_once (sep : ascii) (s : string) : option (string * string) :=
  match s with
  | EmptyString => None
  | String c s' =>
      if Ascii.eqb c sep then Some (EmptyString, s')
      else match split_once sep s' with
           | Some (k, v) => Some (String c k, v)
           | None => None
           end
  end.

(** [leading_4_spaces.sub("", line)] with [leading_4_spaces = re.compile("^    ")] *)
Definition sub_leading_4_spaces (line : string) : string :=
  if String.prefix "    " line then substring 4 (String.length line - 4) line else line.

(** [sub in s] for a one-character [sub] *)
Definition has_char (ch : ascii) (s : string) : bool :=
  existsb (Ascii.eqb ch) (list_ascii_of_string s).

(** ["\n".join(parts)] *)
Definition join_nl (parts : list string) : string := String.concat (String nl EmptyString) parts.

(** Truthiness of a dict. *)
Definition nonempty (d : commit) : bool := match d with [] => false | _ => true end.

(** [save_current_commit()]: the dict appended to [commits] ([None]: it
    raises). A [str] ["message"] is indexed and joined character by
    character, as Python does. *)
Definition save_current_commit (current_commit : commit) : option commit :=
  let finish (title : string) (message : list string) :=
    let current_commit := assoc_set "title" (FStr title) current_commit in
    let current_commit := assoc_set "message" (FStr (join_nl message)) current_commit in
    Some (assoc_set "files"
            (FList (map (fun m => strip (first_part "|" m)) (filter (has_char "|") message)))
            current_commit) in
  match assoc_get "message" current_commit with
  | Some (FList (title :: message)) =>
      finish title (match message with EmptyString :: m => m | m => m end)
  | Some (FStr (String c s)) =>
      finish (String c EmptyString) (map (fun ch => String ch EmptyString) (list_ascii_of_string s))
  | _ => None
  end.

(** The [for line in lines] loop, the final save and [commits.reverse()];
    [commits] is in append order. *)
Fixpoint parse_loop (lines : list string) (current_commit : commit) (commits : list commit)
    : option (list commit) :=
  match lines with
  | [] =>
      if nonempty current_commit then
        match save_current_commit current_commit with
        | Some c => Some (rev (app commits [c]))
        | None => None
        end
      else Some (rev commits)
  | line :: lines =>
      if negb (String.prefix " " line) then
        if String.prefix "commit " line then
          let saved :=
            if nonempty current_commit then
              match save_current_commit current_commit with
              | Some c => Some (app commits [c], [])
              | None => None
              end
            else Some (commits, current_commit) in
          match saved with
          | None => None
          | Some (commits, current_commit) =>
              match nth_error (split_str "commit " line) 1 with
              | Some h => parse_loop lines (assoc_set "hash" (FStr h) current_commit) commits
              | None => None
              end
          end
        else
          match split_once ":" line with
          | Some (key, value) =>
              parse_loop lines (assoc_set (lower key) (FStr (strip value)) current_commit) commits
          | None => parse_loop lines current_commit commits
          end
      else
        match assoc_get "message" current_commit with
        | None =>
            parse_loop lines
              (assoc_set "message" (FList [sub_leading_4_spaces line]) current_commit) commits
        | Some (FList l) =>
            parse_loop lines
              (assoc_set "message" (FList (app l [sub_leading_4_spaces line])) current_commit) commits
        | Some (FStr _) => None
        end
  end.

Definition parse_log (lines : list string) : option (list commit) := parse_loop lines [] [].

(** [get_commits(since_date, until_date)]. [run command] is
    [subprocess.check_output(command)] decoded ([None]:
    [CalledProcessError]); [git] is [_get_git_command()]. *)
Definition get_commits (run : list string -> option string) (git : string)
    (since_date until_date : option string) : option (list commit) :=
  let command :=
    match since_date, until_date with
    | Some (String c s), Some (String c' u) =>
        [git; "log"; "--stat"; "--since"; String c s; "--until"; String c' u]
    | _, _ => [git; "log"; "--stat"]
    end in
  match run command with
  | None => Some []
  | Some out => parse_log (split nl out)
  end.

End Git.

(** * Tests on concrete inputs *)

Example catalog_fix_login :
  Catalog.catalog_commit "Fix the login bug" = (Some "Fixed", "The login bug").
Proof. reflexivity. Qed.

Example add_commit_plain : Section.add_commit [] "some update  " = ["* some update"].
Proof. reflexivity. Qed.

Example add_commit_sub : Section.add_commit [] "  - some new update" = ["  - some new update"].
Proof. reflexivity. Qed.

Example remove_dups_ex :
  Section.remove_duplicates ["* a"; "* b"; "* a"; "* c"; "* b"] = ["* a"; "* b"; "* c"].
Proof. reflexivity. Qed.

Example sha224_empty :
  Sha224.sha224_hex "" = "d14a028c2a3a2bc9476102bb288234c415a2b01f828ea62ac5b3e42f".
Proof. vm_compute. reflexivity. Qed.
Example sha224_abc :
  Sha224.sha224_hex "abc" = "23097d223405d8228642a477bda255b32aadbce4bda0b3f7e36c9da7".
Proof. vm_compute. reflexivity. Qed.
Example sha224_two_blocks :
  Sha224.sha224_hex ("abcdbcdecdefdefgefghfghighijhijkijkljklmklmnlmnomnopnopq" ++ String "233" "xyz")
  = "3e9d4d4788fb96809fcb99e9d3cbf00161a3e3449f6055be41d9782a".
Proof. vm_compute. reflexivity. Qed.
Example sha224_default :
  Sha224.sha224_hex "DefaultProject" = "43b19d74ca03b1cd94634041e026c91ba8fb8a0dfba5ab93e17bbbc1".
Proof. vm_compute. reflexivity. Qed.

Example release_read_test :
  Release.read ["### Fixed" ++ String nl ""; ""; "* an update"; "  * a sub update";
                "- a third"; "### Some other section"; "* not this one"]
               Release.empty_sections
  = Release.mk_sections [] [] ["* an update"; "  * a sub update"; "- a third"] [] [].
Proof. reflexivity. Qed.

Example release_roundtrip_test :
  let r := Release.mk_release "1.0.0" "2021-12-25" false
             (Release.mk_sections ["* a"; "  - b"] [] ["*"] [] []) [] in
  Release.read (readlines (Release.to_str r)) Release.empty_sections = Release.secs r.
Proof. reflexivity. Qed.


(** ** Predicates used by the statements *)

(** The shape the spec promises for a stored line: an optional run of
    whitespace, a marker, a whitespace character; no trailing whitespace. *)
Definition claimed_line (l : string) : bool :=
  Section.bullet_match l && String.eqb (rstrip l) l.

(** The shape [add_commit] really guarantees: an optional run of
    whitespace, a marker, then a whitespace character or the end of the
    line; no trailing whitespace. *)
Definition bullet_or_bare (l : string) : bool :=
  match lstrip l with
  | String m rest =>
      Section.is_marker m && match rest with EmptyString => true | String d _ => is_space d end
  | EmptyString => false
  end.

Definition stored_ok (l : string) : bool := String.eqb (rstrip l) l && bullet_or_bare l.

(** "Keep the first occurrence of each distinct value, in order": the
    element at index [i] is kept iff it does not occur before [i]. *)
Definition first_occurrences (l : list string) : list string :=
  map (fun i => nth i l EmptyString)
      (filter (fun i => negb (Section.mem (nth i l EmptyString) (firstn i l)))
              (seq 0 (List.length l))).

(** Which batched texts belong to category [c] under the spec's contract:
    the pairs whose category names [c]; a [None] category names none. *)
Definition cat_eqb (a b : Release.category) : bool := String.eqb (Release.cat_name a) (Release.cat_name b).

Definition names_cat (c : Release.category) (o : option string) : bool :=
  match o with
  | Some k => match Release.cat_of_key k with Some c' => cat_eqb c c' | None => false end
  | None => false
  end.

Definition msgs_for (c : Release.category) (l : list (option string * string)) : list string :=
  map snd (filter (fun p => names_cat c (fst p)) l).

(** A category [_update_log] accepts: [None], an empty name, or a key. *)
Definition valid_cat (o : option string) : bool :=
  if Gateway.truthy o then
    match o with
    | Some k => match Release.cat_of_key k with Some _ => true | None => false end
    | None => true
    end
  else true.

(** The windows the spec asks for: walking the tags newest-first, skip a
    tag whose name without its [v] prefix has been [seen] (a key of the
    releases or a tag generated before), otherwise generate it from the
    next-older tag's date, or from the sentinel for the oldest tag. *)
Definition window_start (all_tags : list (string * string)) (i : nat) : string :=
  if Nat.eqb i (List.length all_tags - 1) then Doc.sentinel
  else snd (nth (S i) all_tags (EmptyString, EmptyString)).

Fixpoint spec_plan (all_tags : list (string * string)) (i : nat) (rest : list (string * string))
    (seen : list string) : list (string * string * string) :=
  match rest with
  | [] => []
  | (tag_name, tag_date) :: rest' =>
      let v := strip (lstrip_char "v" tag_name) in
      if Section.mem v seen then spec_plan all_tags (S i) rest' seen
      else (v, tag_date, window_start all_tags i) :: spec_plan all_tags (S i) rest' (v :: seen)
  end.

Section Plan.
Variable e : Gateway.env.
Variable net : Gateway.request -> Gateway.net_result.
Variable json_loads : string -> option Gateway.msg.
Variable get_commits : string -> string -> list string.

(** Generate the planned releases, in order, and store each one. *)
Fixpoint run_plan (plan : list (string * string * string)) (rels : list (string * Release.release))
  : option (list (string * Release.release) * list event) :=
  match plan with
  | [] => Some (rels, [])
  | (v, tag_date, start) :: plan' =>
      match Gen.generate e net json_loads get_commits (Release.new_release v tag_date) start with
      | Some (release, ev1) =>
          match run_plan plan' (Gateway.assoc_set v release rels) with
          | Some (rels', ev2) => Some (rels', ev1 ++ ev2)%list
          | None => None
          end
      | None => None
      end
  end.
End Plan.

(** A lowercase hexadecimal digest of SHA-224's length. *)
Definition is_hex (c : ascii) : bool := existsb (Ascii.eqb c) (list_ascii_of_string "0123456789abcdef").

Definition hex56 (s : string) : bool :=
  Nat.eqb (String.length s) 56 && forallb is_hex (list_ascii_of_string s).

(** A request carries the digest of the project name as [project]. *)
Definition request_ok (e : Gateway.env) (q : Gateway.request) : Prop :=
  Gateway.assoc_get "project" (Gateway.req_params q) = Some (Sha224.sha224_hex (Gateway.project_name e)).

Definition requests_ok (e : Gateway.env) (tr : list event) : Prop :=
  Forall (fun ev => match ev with EvRequest q => request_ok e q | _ => True end) tr.

(** The requests of a trace, counted. *)
Definition is_request (ev : event) : bool :=
  match ev with EvRequest _ => true | _ => false end.

Definition count_requests (tr : list event) : nat := List.length (filter is_request tr).

(** The titles [ChangelogRelease.generate] tracks: the non-empty ones. *)
Definition tracked (titles : list string) : list string :=
  filter (fun t => Gateway.truthy (Some t)) titles.

(** The version a line of [ChangelogDoc.read] names ([_ver]), and whether
    the line is a version heading. *)
Definition ver_of (line : string) : string :=
  lstrip_char "v" (strip (hd EmptyString (split "-" (strip (lstrip_char "#" line))))).

Definition is_ver_heading (line : string) : bool :=
  Doc.ver_match (ver_of line) || String.eqb (lower (ver_of line)) "unreleased".

(** Lines and texts of a rendered release: [nlf] adds the newline
    [readlines] keeps, [cat] joins, [render_lines] lists the lines of
    [Release.to_str] (a heading block per non-empty category). *)
Definition nlf (l : string) : string := l ++ String nl EmptyString.

Fixpoint cat (ls : list string) : string :=
  match ls with [] => EmptyString | x :: xs => x ++ cat xs end.

Definition contains (c : ascii) (s : string) : bool :=
  existsb (Ascii.eqb c) (list_ascii_of_string s).

(** A line of a rendered release that does not open a category. *)
Definition not_cat_line (line : string) : Prop :=
  Release.is_category_word (lower (strip (lstrip_char "#" line))) = false.

Definition good_line (l : string) : bool := stored_ok l && negb (has_nl l).

Definition block_lines (c : Release.category) (ls : list string) : list string :=
  if Section.has_content ls then ("### " ++ Release.cat_name c) :: EmptyString :: (ls ++ [EmptyString])%list
  else [].

Definition render_lines (r : Release.release) : list string :=
  Release.header r :: EmptyString
  :: flat_map (fun c => block_lines c (Release.get_sec c (Release.secs r))) Release.categories.

Definition stops (rest : list string) : Prop :=
  match rest with
  | [] => True
  | h :: _ => Section.bullet_match h = false /\ Section.heading_match h = true
  end.

(** The events start-up can record before the changelog is touched. *)
Definition startup_event (ev : Config.cevent) : bool :=
  match ev with Config.CPrint _ | Config.CGet _ => true | _ => false end.

Definition is_print (ev : Config.cevent) : bool :=
  match ev with Config.CPrint _ => true | _ => false end.

(** Shape of [git log --stat] output: one block per commit. *)
Record gcommit := mk_gcommit {
  g_hash : string;
  g_headers : list string;
  g_title : string;
  g_body : list string }.

Definition no_space (s : string) : bool :=
  forallb (fun c => negb (Ascii.eqb c " ")) (list_ascii_of_string s).

(** A header line ([Author: ...], [Date: ...], blank): not indented, not a
    commit line, and not a [message:] or [hash:] key. *)
Definition header_ok (l : string) : bool :=
  negb (String.prefix " " l) && negb (String.prefix "commit " l)
  && match Git.split_once ":" l with
     | Some (k, _) => negb (String.eqb (lower k) "message") && negb (String.eqb (lower k) "hash")
     | None => true
     end.

(** A line after the title: indented (message or file stats) or a header line. *)
Definition body_ok (l : string) : bool := String.prefix " " l || header_ok l.

Definition log_block_lines (b : gcommit) : list string :=
  ("commit " ++ g_hash b) :: app (g_headers b) (("    " ++ g_title b) :: g_body b).

Definition wf_block (b : gcommit) : bool :=
  no_space (g_hash b) && forallb header_ok (g_headers b) && forallb body_ok (g_body b).

Definition key_of (c : Git.commit) : option Git.cfield * option Git.cfield :=
  (Gateway.assoc_get "hash" c, Gateway.assoc_get "title" c).

(** A non-indented line that does not set a [message] key. *)
Definition no_msg_line (l : string) : bool :=
  negb (String.prefix " " l)
  && (String.prefix "commit " l
      || match Git.split_once ":" l with
         | Some (k, _) => negb (String.eqb (lower k) "message")
         | None => true
         end).

(** A line the loop records in the current dict. *)
Definition records (l : string) : bool :=
  String.prefix "commit " l || match Git.split_once ":" l with Some _ => true | None => false end.

(** * Proofs *)

(** ** Helper lemmas on the string primitives *)

Lemma mem_In (x : string) (l : list string) : Section.mem x l = true <-> In x l.
Proof.
  unfold Section.mem. rewrite existsb_exists. split.
  - intros [y [Hy Heq]]. apply String.eqb_eq in Heq. subst. exact Hy.
  - intros H. exists x. split; [exact H | apply String.eqb_refl].
Qed.

Lemma mem_app (x : string) (a b : list string) :
  Section.mem x (a ++ b) = Section.mem x a || Section.mem x b.
Proof. unfold Section.mem. apply existsb_app. Qed.

Lemma mem_single (x y : string) : Section.mem x [y] = String.eqb x y.
Proof. unfold Section.mem. simpl. apply orb_false_r. Qed.

Lemma rstrip_cons_nonspace (c : ascii) (s : string) :
  is_space c = false -> rstrip (String c s) = String c (rstrip s).
Proof. intros H. simpl. destruct (rstrip s); [rewrite H|]; reflexivity. Qed.

Lemma rstrip_cons_shape (c : ascii) (s : string) :
  rstrip (String c s) = EmptyString \/ exists t, rstrip (String c s) = String c t.
Proof.
  simpl. destruct (rstrip s).
  - destruct (is_space c); [left | right; eexists]; reflexivity.
  - right. eexists. reflexivity.
Qed.

Lemma rstrip_idem (s : string) : rstrip (rstrip s) = rstrip s.
Proof.
  induction s as [|c s IH]; [reflexivity|].
  simpl. destruct (rstrip s) as [|a t] eqn:E.
  - destruct (is_space c) eqn:Sc; [reflexivity|]. simpl. rewrite Sc. reflexivity.
  - change (rstrip (String c (String a t)) = String c (String a t)).
    simpl. simpl in IH. rewrite IH. reflexivity.
Qed.

Lemma rstrip_app_ne (w z : string) :
  rstrip z <> EmptyString -> rstrip (w ++ z) = w ++ rstrip z.
Proof.
  intros Hz. induction w as [|c w IH]; [reflexivity|].
  simpl. rewrite IH. destruct (w ++ rstrip z) eqn:E; [|reflexivity].
  destruct w; simpl in E; [contradiction | discriminate].
Qed.

(** Every string is its leading whitespace run followed by its [lstrip]. *)
Lemma lstrip_split (s : string) :
  exists w, s = w ++ lstrip s /\ forall q, lstrip (w ++ q) = lstrip q.
Proof.
  induction s as [|c s [w [Hw Hq]]].
  - exists EmptyString. split; reflexivity.
  - simpl. destruct (is_space c) eqn:Sc.
    + exists (String c w). split.
      * simpl. f_equal. exact Hw.
      * intros q. simpl. rewrite Sc. apply Hq.
    + exists EmptyString. split; reflexivity.
Qed.

Lemma marker_not_space (m : ascii) : Section.is_marker m = true -> is_space m = false.
Proof.
  unfold Section.is_marker. intros H. apply orb_prop in H.
  destruct H as [H | H]; apply Ascii.eqb_eq in H; subst; reflexivity.
Qed.

Lemma stored_ok_rstrip_marker (w : string) (m : ascii) (r0 : string) :
  (forall q, lstrip (w ++ q) = lstrip q) ->
  Section.is_marker m = true ->
  (r0 = EmptyString \/ exists d t, r0 = String d t /\ is_space d = true) ->
  stored_ok (rstrip (w ++ String m r0)) = true.
Proof.
  intros Hw Hm Hr. pose proof (marker_not_space m Hm) as Sm.
  rewrite rstrip_app_ne by (rewrite rstrip_cons_nonspace by exact Sm; discriminate).
  rewrite rstrip_cons_nonspace by exact Sm.
  unfold stored_ok. apply andb_true_intro. split.
  - apply String.eqb_eq. rewrite rstrip_app_ne.
    + rewrite rstrip_cons_nonspace by exact Sm. rewrite rstrip_idem. reflexivity.
    + rewrite rstrip_cons_nonspace by exact Sm. discriminate.
  - unfold bullet_or_bare. rewrite Hw. simpl. rewrite Sm. rewrite Hm. simpl.
    destruct Hr as [-> | [d [t [-> Hd]]]]; [reflexivity|].
    destruct (rstrip_cons_shape d t) as [-> | [t' ->]]; [reflexivity | exact Hd].
Qed.

(** Every line [add_commit] appends has the [stored_ok] shape. *)
Lemma add_commit_line_ok (x : string) : stored_ok (Section.add_commit_line x) = true.
Proof.
  unfold Section.add_commit_line. destruct (Section.bullet_match x) eqn:B.
  - unfold Section.bullet_match in B.
    destruct (lstrip_split x) as [w [Hx Hw]].
    destruct (lstrip x) as [|m [|d t]] eqn:L; try discriminate.
    apply andb_prop in B as [Hm Hd]. rewrite Hx.
    apply stored_ok_rstrip_marker; [exact Hw | exact Hm | right; eauto].
  - apply (stored_ok_rstrip_marker EmptyString "*" (String " " x)).
    + reflexivity.
    + reflexivity.
    + right. eauto.
Qed.

(** ** Helper lemmas on [remove_duplicates] *)

Lemma snoc_prefix (p : list string) (x : string) (i : nat) :
  i < List.length p ->
  nth i (p ++ [x]) EmptyString = nth i p EmptyString /\ firstn i (p ++ [x]) = firstn i p.
Proof.
  intros Hi. split.
  - apply app_nth1. exact Hi.
  - rewrite firstn_app. replace (i - List.length p) with 0 by lia.
    simpl. apply app_nil_r.
Qed.

Lemma first_occurrences_snoc (p : list string) (x : string) :
  first_occurrences (p ++ [x])
  = (first_occurrences p ++ (if Section.mem x p then [] else [x]))%list.
Proof.
  unfold first_occurrences. rewrite length_app. simpl.
  rewrite seq_app. rewrite filter_app, map_app. f_equal.
  - rewrite (filter_ext_in _ (fun i => negb (Section.mem (nth i p EmptyString) (firstn i p)))).
    + apply map_ext_in. intros i Hi. apply filter_In in Hi as [Hi _].
      apply in_seq in Hi. apply snoc_prefix. lia.
    + intros i Hi. apply in_seq in Hi.
      destruct (snoc_prefix p x i) as [-> ->]; [lia | reflexivity].
  - simpl. rewrite app_nth2 by lia. rewrite Nat.sub_diag. simpl.
    rewrite firstn_app, Nat.sub_diag, firstn_all. simpl. rewrite app_nil_r.
    destruct (Section.mem x p); simpl; [reflexivity|].
    rewrite app_nth2 by lia. rewrite Nat.sub_diag. reflexivity.
Qed.

Lemma mem_first_occurrences (x : string) (p : list string) :
  Section.mem x (first_occurrences p) = Section.mem x p.
Proof.
  induction p as [|y p IH] using rev_ind; [reflexivity|].
  rewrite first_occurrences_snoc, !mem_app, IH.
  destruct (Section.mem y p) eqn:Ey.
  - change (Section.mem x []) with false. rewrite mem_single, orb_false_r.
    destruct (String.eqb x y) eqn:Exy.
    + apply String.eqb_eq in Exy. subst. rewrite Ey. reflexivity.
    + rewrite orb_false_r. reflexivity.
  - reflexivity.
Qed.

Lemma loop_first_occurrences (s p : list string) :
  Section.remove_dups_loop (first_occurrences p) s = first_occurrences (p ++ s).
Proof.
  revert p. induction s as [|a s IH]; intros p.
  - simpl. rewrite app_nil_r. reflexivity.
  - simpl. rewrite mem_first_occurrences.
    replace (p ++ a :: s)%list with ((p ++ [a]) ++ s)%list by (rewrite <- app_assoc; reflexivity).
    rewrite <- IH, first_occurrences_snoc.
    destruct (Section.mem a p); [rewrite app_nil_r|]; reflexivity.
Qed.

Lemma loop_NoDup (s acc : list string) :
  NoDup acc -> NoDup (Section.remove_dups_loop acc s).
Proof.
  revert acc. induction s as [|a s IH]; intros acc Hacc; simpl; [exact Hacc|].
  destruct (Section.mem a acc) eqn:E; apply IH; [exact Hacc|].
  apply NoDup_app; [exact Hacc | constructor; [intros [] | constructor] |].
  intros z Hz [<- | []]. apply mem_In in Hz. congruence.
Qed.

Lemma loop_on_NoDup (s acc : list string) :
  NoDup s -> (forall x, In x s -> Section.mem x acc = false) ->
  Section.remove_dups_loop acc s = (acc ++ s)%list.
Proof.
  revert acc. induction s as [|a s IH]; intros acc Hnd Hout; simpl.
  - rewrite app_nil_r. reflexivity.
  - rewrite (Hout a (or_introl eq_refl)). inversion Hnd as [|? ? Ha Hs]; subst.
    rewrite IH; [rewrite <- app_assoc; reflexivity | exact Hs |].
    intros x Hx. rewrite mem_app, (Hout x (or_intror Hx)), mem_single. simpl.
    apply String.eqb_neq. intros ->. contradiction.
Qed.

Lemma remove_duplicates_incl (l : list string) (x : string) :
  In x (Section.remove_duplicates l) -> In x l.
Proof.
  unfold Section.remove_duplicates. change (first_occurrences []) with (@nil string).
  intros H. rewrite <- (app_nil_l l).
  change (@nil string) with (first_occurrences []) in H.
  rewrite loop_first_occurrences in H. simpl in H.
  apply mem_In. rewrite <- mem_first_occurrences. apply mem_In. exact H.
Qed.

(** ** Claims *)

(** C6: [remove_duplicates] keeps exactly the first occurrence of every
    distinct line, in order (the element at index [i] survives iff it does
    not occur before [i]), and applying it twice is the same as once. *)
Theorem remove_duplicates_first_occurrence_idempotent (l : list string) :
  Section.remove_duplicates l = first_occurrences l
  /\ Section.remove_duplicates (Section.remove_duplicates l) = Section.remove_duplicates l.
Proof.
  split.
  - unfold Section.remove_duplicates.
    change (@nil string) with (first_occurrences []).
    apply loop_first_occurrences.
  - unfold Section.remove_duplicates at 1.
    apply loop_on_NoDup; [apply loop_NoDup; constructor | reflexivity].
Qed.

(** C10 (as stated, refuted): adding the empty title to a fresh section
    stores the bare line ["*"], which has no whitespace after the marker. *)
Lemma section_invariant_counterexample :
  Section.run_ops [Section.AddCommit ""] = ["*"]
  /\ claimed_line "*" = false.
Proof. split; reflexivity. Qed.

(** C10 (amended): after any sequence of [add_commit] and
    [remove_duplicates] calls on a fresh section, every stored line has no
    trailing whitespace and is an optional whitespace run, a ['*'] or ['-']
    marker, and then either a whitespace character or the end of the line. *)
Theorem section_lines_stored_ok (ops : list Section.op) :
  Forall (fun l => stored_ok l = true) (Section.run_ops ops).
Proof.
  unfold Section.run_ops.
  assert (forall acc, Forall (fun l => stored_ok l = true) acc ->
          Forall (fun l => stored_ok l = true) (fold_left Section.run_op ops acc)) as Hgen.
  { induction ops as [|o ops IH]; intros acc Hacc; simpl; [exact Hacc|].
    apply IH. destruct o as [s|]; simpl.
    - unfold Section.add_commit. apply Forall_app. split; [exact Hacc|].
      constructor; [apply add_commit_line_ok | constructor].
    - rewrite Forall_forall in *. intros x Hx. apply Hacc.
      apply remove_duplicates_incl. exact Hx. }
  apply Hgen. constructor.
Qed.

(** C7: a title whose first word (of the lowercased title, up to the first
    space) is not a lexicon key is returned unchanged with no category. *)
Theorem catalog_commit_miss (commit : string)
  (Hmiss : Catalog.lookup (first_part " " (lower commit)) Catalog.commit_types = None) :
  Catalog.catalog_commit commit = (None, commit).
Proof. unfold Catalog.catalog_commit. rewrite Hmiss. reflexivity. Qed.

Lemma catalog_commit_miss_witness :
  Catalog.lookup (first_part " " (lower "Google a test commit")) Catalog.commit_types = None
  /\ Catalog.catalog_commit "Google a test commit" = (None, "Google a test commit").
Proof.
  split; [reflexivity|]. apply catalog_commit_miss. reflexivity.
Defined.

(** C1 (code bug): on a hit, [commit_lower.replace(start_word, "")] strips
    every occurrence of the verb, not only the leading token: "Add address"
    gives "Ress" where the leading-token cut gives "Address". *)
Theorem catalog_commit_strips_every_occurrence :
  Catalog.catalog_commit "Add address" = (Some "Added", "Ress")
  /\ Catalog.spec_cleaned "Add address" = "Address".
Proof. split; reflexivity. Qed.

(** ** Helper lemmas for the release round trip *)

Lemma sapp_assoc (a b c : string) : (a ++ b) ++ c = a ++ (b ++ c).
Proof. induction a as [|x a IH]; simpl; [reflexivity | rewrite IH; reflexivity]. Qed.

Lemma sapp_nil_r (a : string) : a ++ EmptyString = a.
Proof. induction a as [|x a IH]; simpl; [reflexivity | rewrite IH; reflexivity]. Qed.

Lemma concat_empty_sep (l : list string) : String.concat EmptyString l = cat l.
Proof.
  induction l as [|x l IH]; [reflexivity|].
  simpl. destruct l as [|y l]; simpl.
  - rewrite sapp_nil_r. reflexivity.
  - simpl in IH. rewrite IH. reflexivity.
Qed.

Lemma cat_app (l1 l2 : list string) : cat (l1 ++ l2) = cat l1 ++ cat l2.
Proof. induction l1 as [|x l1 IH]; simpl; [reflexivity | rewrite IH, sapp_assoc; reflexivity]. Qed.

Lemma has_nl_app (a b : string) : has_nl (a ++ b) = has_nl a || has_nl b.
Proof.
  unfold has_nl. induction a as [|x a IH]; [reflexivity|].
  simpl. rewrite IH. apply orb_assoc.
Qed.

Lemma contains_app (c : ascii) (a b : string) : contains c (a ++ b) = contains c a || contains c b.
Proof.
  unfold contains. induction a as [|x a IH]; [reflexivity|].
  simpl. rewrite IH. apply orb_assoc.
Qed.

Lemma contains_cons (c x : ascii) (s : string) :
  contains c (String x s) = Ascii.eqb c x || contains c s.
Proof. reflexivity. Qed.

Lemma contains_lstrip (c : ascii) (s : string) :
  is_space c = false -> contains c s = true -> contains c (lstrip s) = true.
Proof.
  intros Hc. induction s as [|x s IH]; [discriminate|].
  rewrite contains_cons. simpl. intros H. destruct (is_space x) eqn:Sx.
  - apply orb_prop in H as [H | H]; [|apply IH; exact H].
    apply Ascii.eqb_eq in H. subst. congruence.
  - rewrite contains_cons. exact H.
Qed.

Lemma contains_rstrip (c : ascii) (s : string) :
  is_space c = false -> contains c s = true -> contains c (rstrip s) = true.
Proof.
  intros Hc. induction s as [|x s IH]; [discriminate|].
  rewrite contains_cons. intros H. simpl.
  apply orb_prop in H as [H | H].
  - apply Ascii.eqb_eq in H as <-. destruct (rstrip s); [rewrite Hc|];
      rewrite contains_cons, Ascii.eqb_refl; reflexivity.
  - specialize (IH H). destruct (rstrip s); [discriminate|].
    rewrite contains_cons, IH, orb_true_r. reflexivity.
Qed.

Lemma contains_lower_dash (s : string) :
  contains "-" s = true -> contains "-" (lower s) = true.
Proof.
  induction s as [|x s IH]; [discriminate|].
  rewrite contains_cons. change (lower (String x s)) with (String (lower_char x) (lower s)).
  rewrite contains_cons. intros H.
  apply orb_prop in H as [H | H].
  - apply Ascii.eqb_eq in H as <-. reflexivity.
  - rewrite IH by exact H. apply orb_true_r.
Qed.

Lemma category_word_no_dash (s : string) :
  Release.is_category_word s = true -> contains "-" s = false.
Proof.
  unfold Release.is_category_word. simpl. intros H.
  repeat (apply orb_prop in H as [H | H]; [apply String.eqb_eq in H; subst; reflexivity|]).
  discriminate.
Qed.

Lemma rstrip_app_space (s : string) (c : ascii) :
  is_space c = true -> rstrip (s ++ String c EmptyString) = rstrip s.
Proof.
  intros Hc. induction s as [|x s IH]; simpl; [rewrite Hc; reflexivity|].
  rewrite IH. reflexivity.
Qed.

Lemma lstrip_app_lead (s q : string) :
  lstrip (s ++ q) = match lstrip s with EmptyString => lstrip q | t => t ++ q end.
Proof.
  induction s as [|x s IH]; [reflexivity|].
  simpl. destruct (is_space x); [exact IH | reflexivity].
Qed.

Lemma readlines_line (a rest : string) :
  has_nl a = false -> readlines (a ++ String nl rest) = nlf a :: readlines rest.
Proof.
  unfold nlf. induction a as [|x a IH]; intros H; [reflexivity|].
  change (has_nl (String x a)) with (Ascii.eqb nl x || has_nl a) in H.
  apply orb_false_elim in H as [Hx Ha].
  cbn [readlines append]. rewrite Ascii.eqb_sym, Hx. rewrite IH by exact Ha. reflexivity.
Qed.

Lemma readlines_cat (L : list string) :
  Forall (fun l => has_nl l = false) L -> readlines (cat (map nlf L)) = map nlf L.
Proof.
  induction L as [|x L IH]; intros H; [reflexivity|].
  inversion H as [|? ? Hx HL]; subst. simpl. unfold nlf at 1.
  rewrite sapp_assoc. simpl. rewrite readlines_line by exact Hx.
  rewrite IH by exact HL. reflexivity.
Qed.

Lemma first_char_lstrip (s : string) (m : ascii) (t : string) :
  lstrip s = String m t -> exists x s', s = String x s' /\ (is_space x = true \/ x = m).
Proof.
  destruct s as [|x s']; [discriminate|]. simpl. intros H.
  exists x, s'. split; [reflexivity|]. destruct (is_space x) eqn:Sx; [left; reflexivity|].
  right. injection H as -> _. reflexivity.
Qed.

Lemma good_line_facts (l : string) :
  good_line l = true ->
  Section.bullet_match (nlf l) = true
  /\ Section.add_commit_line (nlf l) = l
  /\ not_cat_line (nlf l)
  /\ has_nl l = false.
Proof.
  unfold good_line, stored_ok, bullet_or_bare. intros H.
  apply andb_prop in H as [H Hn]. apply andb_prop in H as [Hr Hb].
  apply String.eqb_eq in Hr. apply negb_true_iff in Hn.
  destruct (lstrip l) as [|m rest] eqn:L; [discriminate|].
  apply andb_prop in Hb as [Hm Hrest].
  assert (Sm := marker_not_space m Hm).
  assert (Hlead : lstrip (nlf l) = String m (rest ++ String nl EmptyString)).
  { unfold nlf. rewrite lstrip_app_lead, L. reflexivity. }
  assert (Hbm : Section.bullet_match (nlf l) = true).
  { unfold Section.bullet_match. rewrite Hlead. rewrite Hm. simpl.
    destruct rest as [|d t]; [reflexivity | exact Hrest]. }
  split; [exact Hbm|]. split.
  - unfold Section.add_commit_line. rewrite Hbm. unfold nlf.
    rewrite rstrip_app_space by reflexivity. exact Hr.
  - split; [|exact Hn]. unfold not_cat_line.
    assert (Hh : lstrip_char "#" (nlf l) = nlf l).
    { destruct (first_char_lstrip l m rest L) as [x [l' [-> Hx]]].
      unfold nlf. simpl. destruct (Ascii.eqb x "#") eqn:E; [|reflexivity].
      apply Ascii.eqb_eq in E. subst x. exfalso. destruct Hx as [Hx | <-].
      - discriminate.
      - discriminate. }
    rewrite Hh. unfold strip. rewrite Hlead.
    rewrite rstrip_cons_nonspace by exact Sm. simpl.
    unfold Release.is_category_word.
    unfold Section.is_marker in Hm. apply orb_prop in Hm as [E | E];
      apply Ascii.eqb_eq in E; subst; reflexivity.
Qed.

Lemma lstrip_nonspace (c : ascii) (s : string) :
  is_space c = false -> lstrip (String c s) = String c s.
Proof. intros H. simpl. rewrite H. reflexivity. Qed.

Lemma good_line_nonempty (l : string) : good_line l = true -> l <> EmptyString.
Proof. intros H ->. discriminate. Qed.

Lemma good_line_rstrip (l : string) : good_line l = true -> rstrip l = l.
Proof.
  unfold good_line, stored_ok. intros H.
  apply andb_prop in H as [H _]. apply andb_prop in H as [H _].
  apply String.eqb_eq. exact H.
Qed.

Lemma block_str (c : Release.category) (ls : list string) :
  Forall (fun l => good_line l = true) ls ->
  (if Section.has_content ls
   then strip (Section.to_str (Release.cat_name c) ls) ++ Release.nl2 else EmptyString)
  = cat (map nlf (block_lines c ls)).
Proof.
  intros Hg. unfold block_lines. destruct (Section.has_content ls) eqn:Hc; [|reflexivity].
  destruct ls as [|x xs]; [discriminate|].
  destruct (exists_last (l := x :: xs) ltac:(discriminate)) as [ls' [z Hz]].
  rewrite Hz in *. clear Hz Hc x xs.
  assert (Gz : good_line z = true).
  { rewrite Forall_forall in Hg. apply Hg. apply in_or_app. right. left. reflexivity. }
  set (W := "### " ++ Release.cat_name c ++ Release.nl2 ++ cat (map nlf ls')).
  assert (E : Section.to_str (Release.cat_name c) (ls' ++ [z])%list = W ++ (z ++ String nl EmptyString)).
  { unfold Section.to_str, W. rewrite concat_empty_sep. rewrite map_app, cat_app.
    change (map (fun c0 => c0 ++ String nl EmptyString) ls') with (map nlf ls').
    simpl. rewrite sapp_nil_r. unfold nlf. rewrite !sapp_assoc. reflexivity. }
  rewrite E. unfold strip.
  assert (L : lstrip (W ++ (z ++ String nl EmptyString)) = W ++ (z ++ String nl EmptyString)).
  { unfold W. simpl. reflexivity. }
  rewrite L. rewrite rstrip_app_ne.
  - rewrite rstrip_app_space by reflexivity. rewrite (good_line_rstrip z Gz).
    unfold W, block_lines, Release.nl2, nlf.
    repeat (rewrite ?map_app, ?cat_app, ?sapp_assoc, ?sapp_nil_r; cbn [append cat map]).
    reflexivity.
  - rewrite rstrip_app_space by reflexivity. rewrite (good_line_rstrip z Gz).
    apply good_line_nonempty. exact Gz.
Qed.

Lemma cat_map_flat_map (f : Release.category -> list string) (cs : list Release.category) :
  cat (map nlf (flat_map f cs)) = cat (map (fun c => cat (map nlf (f c))) cs).
Proof.
  induction cs as [|c cs IH]; [reflexivity|].
  simpl. rewrite map_app, cat_app, IH. reflexivity.
Qed.

Lemma to_str_lines (r : Release.release) :
  (forall c, Forall (fun l => good_line l = true) (Release.get_sec c (Release.secs r))) ->
  Release.to_str r = cat (map nlf (render_lines r)).
Proof.
  intros Hg. unfold Release.to_str, render_lines. rewrite concat_empty_sep.
  cbn [map cat]. rewrite cat_map_flat_map.
  rewrite (map_ext _ (fun c => cat (map nlf (block_lines c (Release.get_sec c (Release.secs r))))))
    by (intros c; apply block_str; apply Hg).
  unfold nlf at 1 2, Release.nl2. rewrite !sapp_assoc. reflexivity.
Qed.

Lemma header_no_nl (r : Release.release) :
  has_nl (Release.version r) = false -> has_nl (Release.date r) = false ->
  has_nl (Release.header r) = false.
Proof.
  intros Hv Hd. unfold Release.header. destruct (Release.unreleased r);
    rewrite ?has_nl_app, ?Hv, ?Hd; reflexivity.
Qed.

Lemma header_not_cat (r : Release.release) :
  (Release.unreleased r = true -> Release.version r = "Unreleased") ->
  not_cat_line (nlf (Release.header r)).
Proof.
  intros Hu. unfold not_cat_line, Release.header.
  destruct (Release.unreleased r) eqn:U.
  - rewrite (Hu eq_refl). reflexivity.
  - set (v := Release.version r). set (d := Release.date r).
    assert (Hs : lstrip_char "#" (nlf ("## " ++ v ++ " - " ++ d))
                 = " " ++ nlf (v ++ " - " ++ d)) by reflexivity.
    rewrite Hs.
    assert (Hc : contains "-" (" " ++ nlf (v ++ " - " ++ d)) = true).
    { unfold nlf. rewrite !contains_app. simpl. rewrite !orb_true_r. reflexivity. }
    apply contains_lstrip in Hc; [|reflexivity].
    apply contains_rstrip in Hc; [|reflexivity].
    apply contains_lower_dash in Hc. fold (strip (" " ++ nlf (v ++ " - " ++ d))) in Hc.
    destruct (Release.is_category_word (lower (strip (" " ++ nlf (v ++ " - " ++ d))))) eqn:E;
      [|reflexivity].
    apply category_word_no_dash in E. congruence.
Qed.

Lemma heading_line_facts (c : Release.category) :
  let h := nlf ("### " ++ Release.cat_name c) in
  Release.is_category_word (lower (strip (lstrip_char "#" h))) = true
  /\ Release.cat_of_key (capitalize (strip (lstrip_char "#" h))) = Some c
  /\ Section.bullet_match h = false
  /\ Section.heading_match h = true
  /\ has_nl ("### " ++ Release.cat_name c) = false.
Proof. destruct c; repeat split; reflexivity. Qed.

Lemma get_set (c : Release.category) (l : list string) (ss : Release.sections) :
  Release.get_sec c (Release.set_sec c l ss) = l.
Proof. destruct c; reflexivity. Qed.

Lemma set_set (c : Release.category) (l l' : list string) (ss : Release.sections) :
  Release.set_sec c l (Release.set_sec c l' ss) = Release.set_sec c l ss.
Proof. destruct c; reflexivity. Qed.

Lemma set_get (c : Release.category) (ss : Release.sections) :
  Release.set_sec c (Release.get_sec c ss) ss = ss.
Proof. destruct c, ss; reflexivity. Qed.

Lemma read_skip (L rest : list string) (ss : Release.sections) :
  Forall not_cat_line L -> Release.read (L ++ rest) ss = Release.read rest ss.
Proof.
  induction L as [|x L IH]; intros H; [reflexivity|].
  inversion H as [|? ? Hx HL]; subst. unfold not_cat_line in Hx.
  cbn [app Release.read]. rewrite Hx. apply IH. exact HL.
Qed.

Lemma read_section_lines (c : Release.category) (ls rest : list string) (ss : Release.sections) :
  Forall (fun l => good_line l = true) ls ->
  Release.read_section c (map nlf ls ++ rest) ss
  = Release.read_section c rest (Release.set_sec c (Release.get_sec c ss ++ ls) ss).
Proof.
  revert ss. induction ls as [|x ls IH]; intros ss H.
  - rewrite app_nil_r, set_get. reflexivity.
  - inversion H as [|? ? Hx Hls]; subst.
    destruct (good_line_facts x Hx) as [Hb [Ha _]].
    cbn [map app Release.read_section]. rewrite Hb.
    unfold Release.add_to, Section.add_commit. rewrite Ha.
    rewrite IH by exact Hls. rewrite get_set, set_set, <- app_assoc. reflexivity.
Qed.

Lemma read_section_stop (c : Release.category) (rest : list string) (ss : Release.sections) :
  stops rest -> Release.read_section c rest ss = ss.
Proof.
  destruct rest as [|h rest]; [reflexivity|]. intros [Hb Hh].
  cbn [Release.read_section]. rewrite Hb, Hh. reflexivity.
Qed.

Lemma read_cons (line : string) (rest : list string) (ss : Release.sections) :
  Release.read (line :: rest) ss
  = Release.read rest
      (if Release.is_category_word (lower (strip (lstrip_char "#" line))) then
         match Release.cat_of_key (capitalize (strip (lstrip_char "#" line))) with
         | Some title => Release.read_section title rest ss
         | None => ss
         end
       else ss).
Proof. reflexivity. Qed.

Lemma read_section_skip (c : Release.category) (line : string) (rest : list string)
    (ss : Release.sections) :
  Section.bullet_match line = false -> Section.heading_match line = false ->
  Release.read_section c (line :: rest) ss = Release.read_section c rest ss.
Proof. intros Hb Hh. cbn [Release.read_section]. rewrite Hb, Hh. reflexivity. Qed.

Lemma read_block (c : Release.category) (ls rest : list string) (ss : Release.sections) :
  Forall (fun l => good_line l = true) ls -> stops rest ->
  Release.read (map nlf (block_lines c ls) ++ rest) ss
  = Release.read rest (Release.set_sec c (Release.get_sec c ss ++ ls) ss).
Proof.
  intros Hg Hs. unfold block_lines. destruct (Section.has_content ls) eqn:Hc.
  - destruct (heading_line_facts c) as [H1 [H2 [_ [_ _]]]].
    cbn [map]. rewrite map_app. cbn [app]. rewrite <- app_assoc.
    rewrite read_cons, H1, H2.
    rewrite read_section_skip by reflexivity.
    rewrite read_section_lines by exact Hg.
    cbn [map app]. rewrite read_section_skip by reflexivity.
    rewrite read_section_stop by exact Hs.
    replace (nlf "" :: map nlf ls ++ nlf "" :: rest)%list
      with ((nlf "" :: map nlf ls ++ [nlf ""]) ++ rest)%list
      by (cbn [app]; rewrite <- app_assoc; reflexivity).
    rewrite read_skip; [reflexivity|].
    constructor; [reflexivity|]. apply Forall_app. split.
    + rewrite Forall_forall in *. intros y Hy. apply in_map_iff in Hy as [x [<- Hx]].
      apply (good_line_facts x (Hg x Hx)).
    + constructor; [reflexivity | constructor].
  - destruct ls; [|discriminate]. rewrite app_nil_r, set_get. reflexivity.
Qed.

Lemma map_nlf_flat_map (f : Release.category -> list string) (cs : list Release.category) :
  map nlf (flat_map f cs) = flat_map (fun c => map nlf (f c)) cs.
Proof.
  induction cs as [|c cs IH]; [reflexivity|]. simpl. rewrite map_app, IH. reflexivity.
Qed.

Lemma stops_blocks (G : Release.category -> list string) (cs : list Release.category) :
  stops (flat_map (fun c => map nlf (block_lines c (G c))) cs).
Proof.
  induction cs as [|c cs IH]; [exact I|]. simpl. unfold block_lines.
  destruct (Section.has_content (G c)); [|exact IH].
  destruct (heading_line_facts c) as [_ [_ [H3 [H4 _]]]]. simpl. split; assumption.
Qed.

Lemma read_blocks (G : Release.category -> list string) (cs : list Release.category)
    (ss : Release.sections) :
  (forall c, Forall (fun l => good_line l = true) (G c)) ->
  Release.read (flat_map (fun c => map nlf (block_lines c (G c))) cs) ss
  = fold_left (fun acc c => Release.set_sec c (Release.get_sec c acc ++ G c) acc) cs ss.
Proof.
  intros Hg. revert ss. induction cs as [|c cs IH]; intros ss; [reflexivity|].
  simpl. rewrite read_block; [apply IH | apply Hg | apply stops_blocks].
Qed.

(** C3 (as stated, refuted): a section line holding a newline (as
    [add_commit] stores for a title or a refined text with a newline) comes
    back from the round trip as two lines. *)
Lemma release_roundtrip_counterexample :
  let line := "a" ++ String nl "* b" in
  let r := Release.mk_release "1.0.0" "2021-12-25" false
             (Release.mk_sections (Section.add_commit [] line) [] [] [] []) [] in
  Section.add_commit [] line = ["* a" ++ String nl "* b"]
  /\ Release.read (readlines (Release.to_str r)) Release.empty_sections
     = Release.mk_sections ["* a"; "* b"] [] [] [] []
  /\ Release.read (readlines (Release.to_str r)) Release.empty_sections <> Release.secs r.
Proof.
  split; [reflexivity|]. split; [reflexivity|]. vm_compute. discriminate.
Qed.

(** C3 (amended): for a release whose version, date and stored lines hold
    no newline, whose stored lines have the shape [add_commit] gives them
    ([stored_ok], see [section_lines_stored_ok]) and whose [Unreleased]
    flavour is named "Unreleased", rendering it with [__str__], cutting the
    text into lines after each newline (as [readlines] does) and reading
    them into a fresh release gives back every category's lines, in order;
    empty categories stay empty. *)
Theorem release_roundtrip (r : Release.release)
  (Hv : has_nl (Release.version r) = false)
  (Hd : has_nl (Release.date r) = false)
  (Hu : Release.unreleased r = true -> Release.version r = "Unreleased")
  (Hl : forall c, Forall (fun l => stored_ok l = true /\ has_nl l = false)
                         (Release.get_sec c (Release.secs r))) :
  Release.read (readlines (Release.to_str r)) Release.empty_sections = Release.secs r.
Proof.
  assert (Hg : forall c, Forall (fun l => good_line l = true) (Release.get_sec c (Release.secs r))).
  { intros c. specialize (Hl c). rewrite Forall_forall in *. intros x Hx.
    destruct (Hl x Hx) as [H1 H2]. unfold good_line. rewrite H1, H2. reflexivity. }
  rewrite to_str_lines by exact Hg.
  rewrite readlines_cat.
  - unfold render_lines. cbn [map].
    change (nlf (Release.header r) :: nlf EmptyString
              :: map nlf (flat_map (fun c => block_lines c (Release.get_sec c (Release.secs r)))
                                   Release.categories))%list
      with ([nlf (Release.header r); nlf EmptyString]
              ++ map nlf (flat_map (fun c => block_lines c (Release.get_sec c (Release.secs r)))
                                   Release.categories))%list.
    rewrite read_skip.
    + rewrite map_nlf_flat_map, read_blocks by exact Hg.
      destruct (Release.secs r). reflexivity.
    + constructor; [apply header_not_cat; exact Hu|]. constructor; [reflexivity | constructor].
  - unfold render_lines. constructor; [apply header_no_nl; assumption|].
    constructor; [reflexivity|]. apply Forall_forall. intros y Hy.
    apply in_flat_map in Hy as [c [_ Hy]]. unfold block_lines in Hy.
    destruct (Section.has_content _); [|destruct Hy].
    destruct Hy as [<- | [<- | Hy]]; [apply (heading_line_facts c) | reflexivity |].
    apply in_app_or in Hy as [Hy | [<- | []]]; [|reflexivity].
    specialize (Hl c). rewrite Forall_forall in Hl. apply (Hl y Hy).
Qed.

Lemma release_roundtrip_witness :
  let r := Release.mk_release "1.0.0" "2021-12-25" false
             (Release.mk_sections ["* a"; "  - b"] [] ["*"] [] []) [] in
  Release.read (readlines (Release.to_str r)) Release.empty_sections = Release.secs r.
Proof.
  apply release_roundtrip.
  - reflexivity.
  - reflexivity.
  - discriminate.
  - intros c. destruct c; repeat constructor.
Defined.

(** ** [ChangelogDoc.read]: the date of a version heading *)

(** C2 (refuted): a heading [## 1.2.0 - 2021-12-25] splits on ["-"] into four
    parts, not two, so the explicit date is dropped and the tag list is asked
    instead: the release gets the tag's date [2020-01-01], or ["None"] when
    no tag [v1.2.0] exists. Only a date without a dash is taken as written. *)
Theorem read_heading_date_from_tags :
  let heading := "## 1.2.0 - 2021-12-25" ++ Doc.nls in
  List.length (split "-" (strip (lstrip_char "#" heading))) = 4
  /\ option_map Release.date
       (Gateway.assoc_get "1.2.0" (Doc.read [("v1.2.0", "2020-01-01")] heading []))
     = Some "2020-01-01"
  /\ option_map Release.date (Gateway.assoc_get "1.2.0" (Doc.read [] heading [])) = Some "None"
  /\ option_map Release.date
       (Gateway.assoc_get "1.2.0" (Doc.read [] ("## 1.2.0 - 20211225" ++ Doc.nls) []))
     = Some "20211225".
Proof. vm_compute. repeat split. Qed.

(** ** [ChangelogDoc.generate] and [save] without git *)

(** C4: when [has_git] is false, [generate] only prints its message: it does
    not read the file (no [EvReadFile]), fetches nothing, sends nothing and
    returns the document unchanged; [save] leaves the file's text as it was. *)
Theorem generate_without_git (e : Gateway.env) (net : Gateway.request -> Gateway.net_result)
    (json_loads : string -> option Gateway.msg) (get_commits : string -> string -> list string)
    (file : option string) (d : Doc.doc) :
  Doc.has_git d = false ->
  Doc.generate e net json_loads get_commits file d = Some (d, [EvPrint Doc.not_enabled_msg])
  /\ Doc.save file d = file.
Proof. intros H. unfold Doc.generate, Doc.save. rewrite H. split; reflexivity. Qed.

Lemma generate_without_git_witness :
  Doc.has_git (Doc.mk_doc [] [("v1.0.0", "2021-12-25")] false) = false
  /\ Doc.generate (Gateway.mk_env None None None None) (fun _ => Gateway.ConnectionError)
       (fun _ => None) (fun _ _ => ["Add x"]) (Some "# Changelog")
       (Doc.mk_doc [] [("v1.0.0", "2021-12-25")] false)
     = Some (Doc.mk_doc [] [("v1.0.0", "2021-12-25")] false, [EvPrint Doc.not_enabled_msg])
  /\ Doc.save (Some "# Changelog") (Doc.mk_doc [] [("v1.0.0", "2021-12-25")] false)
     = Some "# Changelog".
Proof.
  split; [reflexivity|].
  apply (generate_without_git (Gateway.mk_env None None None None) (fun _ => Gateway.ConnectionError)
           (fun _ => None) (fun _ _ => ["Add x"]) (Some "# Changelog")
           (Doc.mk_doc [] [("v1.0.0", "2021-12-25")] false)).
  reflexivity.
Defined.

(** ** [post_classification] *)

Lemma get_add_to (c c' : Release.category) (m : string) (ss : Release.sections) :
  Release.get_sec c (Release.add_to c' m ss)
  = if cat_eqb c c' then Section.add_commit (Release.get_sec c ss) m else Release.get_sec c ss.
Proof. destruct c, c'; reflexivity. Qed.

Lemma not_truthy_names (c : Release.category) (o : option string) :
  Gateway.truthy o = false -> names_cat c o = false.
Proof. destruct o as [[|a k]|]; simpl; try discriminate; reflexivity. Qed.

Lemma update_log_sections (ss ss' : Release.sections) (l : list (option string * string)) :
  Gen.update_log ss l = Some ss' ->
  forall c, Release.get_sec c ss' = (Release.get_sec c ss ++ map Section.add_commit_line (msgs_for c l))%list.
Proof.
  revert ss. induction l as [|[o m] l IH]; intros ss H c.
  - simpl in H. injection H as <-. simpl. rewrite app_nil_r. reflexivity.
  - simpl in H. unfold msgs_for. simpl.
    destruct (Gateway.truthy o) eqn:Ht.
    + destruct o as [k|]; [|discriminate].
      destruct (Release.cat_of_key k) as [c'|] eqn:Hc; [|discriminate].
      rewrite (IH _ H c), get_add_to. simpl. rewrite Hc.
      destruct (cat_eqb c c'); [|reflexivity].
      unfold Section.add_commit. simpl. rewrite <- app_assoc. reflexivity.
    + rewrite (not_truthy_names c o Ht). apply (IH _ H c).
Qed.

Lemma update_log_total (ss : Release.sections) (l : list (option string * string)) :
  forallb (fun p => valid_cat (fst p)) l = true -> exists ss', Gen.update_log ss l = Some ss'.
Proof.
  revert ss. induction l as [|[o m] l IH]; intros ss H; [exists ss; reflexivity|].
  simpl in H. apply andb_true_iff in H as [Ho Hl]. simpl. unfold valid_cat in Ho.
  destruct (Gateway.truthy o) eqn:Ht; [|apply IH; exact Hl].
  destruct o as [k|]; [|discriminate Ht].
  destruct (Release.cat_of_key k); [apply IH; exact Hl | discriminate].
Qed.

(** The categories [catalog_commit] puts into a batch are all accepted. *)
Lemma catalog_commit_valid (title : string) : valid_cat (fst (Catalog.catalog_commit title)) = true.
Proof.
  unfold Catalog.catalog_commit.
  assert (Hall : forall k t, Catalog.lookup k Catalog.commit_types = Some t ->
                             exists c, Release.cat_of_key t = Some c).
  { intros k t. unfold Catalog.commit_types.
    repeat (cbn [Catalog.lookup fst snd]; destruct (String.eqb _ k);
            [intros H; injection H as <-; eexists; reflexivity|]).
    discriminate. }
  destruct (Catalog.lookup _ _) as [t|] eqn:Hl; [|reflexivity].
  simpl. destruct (Hall _ _ Hl) as [c Hc]. unfold valid_cat. rewrite Hc.
  destruct (Gateway.truthy (Some t)); reflexivity.
Qed.

Lemma post_classification_cases (e : Gateway.env) (net : Gateway.request -> Gateway.net_result)
    (json_loads : string -> option Gateway.msg) (r : Release.release) (b : option string * string)
    (bs : list (option string * string)) :
  Release.batched r = (b :: bs)%list ->
  let p := Gateway.post net json_loads e "classify" (b :: bs) [("version", Release.version r)] in
  exists l, (l = (b :: bs)%list \/ snd p = Some (Gateway.MPairs l))
    /\ (snd p = None -> l = (b :: bs)%list)
    /\ (Gen.post_classification e net json_loads r
        = match Gen.update_log (Release.secs r) l with
          | Some ss => Some (Gen.with_secs r ss [], Gen.request_events (fst p))
          | None => None
          end
        \/ Gen.post_classification e net json_loads r = None).
Proof.
  intros Hb p. unfold Gen.post_classification. rewrite Hb. fold p.
  destruct p as [q res]. simpl.
  destruct res as [[[|x l]|[|c m]]|].
  - exists (b :: bs)%list. split; [left; reflexivity|]. split; [discriminate|]. left; reflexivity.
  - exists (x :: l)%list. split; [right; reflexivity|]. split; [discriminate|]. left; reflexivity.
  - exists (b :: bs)%list. split; [left; reflexivity|]. split; [discriminate|]. left; reflexivity.
  - exists (b :: bs)%list. split; [left; reflexivity|]. split; [discriminate|]. right; reflexivity.
  - exists (b :: bs)%list. split; [left; reflexivity|]. split; [reflexivity|]. left; reflexivity.
Qed.

(** C5: for a non-empty pending batch, write [p] for the gateway call
    [post("classify", batch, {"version": version})].
    (i) If it returns [None] (no key, connection failure or a non-200
    status) and the batch holds only categories [_update_log] accepts (as
    every batch [catalog_commit] fills does: [catalog_commit_valid]),
    [post_classification] succeeds, merges the original batch: each
    category gains the texts of the pairs naming it, in order, and a pair
    with a [None] category gains nothing; the batch is then empty.
    (ii) Whenever [post_classification] completes, the batch is empty and
    the sections are the old ones merged with the original batch or with
    the pairs the gateway returned. *)
Theorem post_classification_merge (e : Gateway.env) (net : Gateway.request -> Gateway.net_result)
    (json_loads : string -> option Gateway.msg) (r : Release.release) :
  Release.batched r <> [] ->
  let p := Gateway.post net json_loads e "classify" (Release.batched r) [("version", Release.version r)] in
  (snd p = None -> forallb (fun q => valid_cat (fst q)) (Release.batched r) = true ->
   exists r', Gen.post_classification e net json_loads r = Some (r', Gen.request_events (fst p))
     /\ Release.batched r' = []
     /\ forall c, Release.get_sec c (Release.secs r')
                  = (Release.get_sec c (Release.secs r)
                     ++ map Section.add_commit_line (msgs_for c (Release.batched r)))%list)
  /\ (forall r' tr, Gen.post_classification e net json_loads r = Some (r', tr) ->
      Release.batched r' = [] /\ tr = Gen.request_events (fst p)
      /\ exists l, (l = Release.batched r \/ snd p = Some (Gateway.MPairs l))
         /\ forall c, Release.get_sec c (Release.secs r')
                      = (Release.get_sec c (Release.secs r)
                         ++ map Section.add_commit_line (msgs_for c l))%list).
Proof.
  intros Hne p. destruct (Release.batched r) as [|b bs] eqn:Hb; [contradiction|].
  destruct (post_classification_cases e net json_loads r b bs Hb) as [l [Hl [Hnone Hpc]]].
  fold p in Hl, Hnone, Hpc. split.
  - intros Hp Hv. specialize (Hnone Hp). subst l.
    destruct (update_log_total (Release.secs r) _ Hv) as [ss Hss].
    exists (Gen.with_secs r ss []). destruct Hpc as [Hpc | Hpc].
    + rewrite Hss in Hpc. split; [exact Hpc|]. split; [reflexivity|].
      apply (update_log_sections _ _ _ Hss).
    + exfalso. unfold Gen.post_classification in Hpc. rewrite Hb in Hpc.
      fold p in Hpc. destruct p as [q res]. simpl in Hp. subst res.
      rewrite Hss in Hpc. discriminate.
  - intros r' tr H. destruct Hpc as [Hpc | Hpc]; rewrite Hpc in H; [|discriminate].
    destruct (Gen.update_log (Release.secs r) l) as [ss|] eqn:Hss; [|discriminate].
    injection H as <- <-. split; [reflexivity|]. split; [reflexivity|].
    exists l. split; [exact Hl|]. apply (update_log_sections _ _ _ Hss).
Qed.

Lemma post_classification_merge_witness :
  Release.batched (Release.mk_release "1.0.0" "2021-12-25" false Release.empty_sections
                     [(Some "Added", "New thing"); (None, "something else")]) <> []
  /\ forallb (fun q => valid_cat (fst q)) [(Some "Added", "New thing"); (None, "something else")] = true.
Proof.
  split; [discriminate|].
  pose proof (post_classification_merge (Gateway.mk_env (Some "key") None None None)
                (fun _ => Gateway.ConnectionError) (fun _ => None)
                (Release.mk_release "1.0.0" "2021-12-25" false Release.empty_sections
                   [(Some "Added", "New thing"); (None, "something else")])) as H.
  destruct H as [H _]; [discriminate|].
  destruct H as [r' [_ [_ _]]]; [vm_compute; reflexivity | vm_compute; reflexivity |].
  vm_compute. reflexivity.
Defined.

(** ** The tag loop of [ChangelogDoc.generate] *)

Lemma mem_assoc_set {A} (k v : string) (x : A) (rels : list (string * A)) :
  Doc.mem k (Gateway.assoc_set v x rels) = String.eqb v k || Doc.mem k rels.
Proof.
  unfold Doc.mem. induction rels as [|[k' y] rels IH]; simpl.
  - destruct (String.eqb v k); reflexivity.
  - destruct (String.eqb k' v) eqn:E1; simpl.
    + apply String.eqb_eq in E1. subst k'. destruct (String.eqb v k); reflexivity.
    + destruct (String.eqb k' k) eqn:E2; [|exact IH].
      destruct (String.eqb v k); reflexivity.
Qed.

Lemma mem_keys {A} (k : string) (rels : list (string * A)) :
  Doc.mem k rels = Section.mem k (map fst rels).
Proof.
  unfold Doc.mem, Section.mem. induction rels as [|[k' y] rels IH]; [reflexivity|]. simpl.
  rewrite (String.eqb_sym k k'). destruct (String.eqb k' k); [reflexivity | exact IH].
Qed.

Lemma gen_tags_run_plan (e : Gateway.env) (net : Gateway.request -> Gateway.net_result)
    (json_loads : string -> option Gateway.msg) (get_commits : string -> string -> list string)
    (all_tags rest : list (string * string)) :
  forall i rels seen, (forall k, Doc.mem k rels = Section.mem k seen) ->
  Doc.gen_tags e net json_loads get_commits all_tags i rest rels
  = run_plan e net json_loads get_commits (spec_plan all_tags i rest seen) rels.
Proof.
  induction rest as [|[tag_name tag_date] rest IH]; intros i rels seen Hinv; [reflexivity|].
  simpl. rewrite Hinv.
  destruct (Section.mem (strip (lstrip_char "v" tag_name)) seen); [apply IH; exact Hinv|].
  simpl. unfold window_start.
  destruct (Gen.generate _ _ _ _ _ _) as [[release ev1]|]; [|reflexivity].
  rewrite (IH (S i) _ (strip (lstrip_char "v" tag_name) :: seen)%list); [reflexivity|].
  intros k. rewrite mem_assoc_set, Hinv. unfold Section.mem. simpl.
  rewrite String.eqb_sym. reflexivity.
Qed.

(** C8: the loop over the tags (newest first) generates exactly the
    releases of [spec_plan]: a tag whose [v]-less name is already a key of
    the releases (or was generated earlier in the loop) is skipped with no
    release built and no commits fetched; every other tag is generated, in
    order, from the next-older tag's date, or from ["1999-01-01"] for the
    oldest tag, and stored under its [v]-less name. *)
Theorem gen_tags_skips_present (e : Gateway.env) (net : Gateway.request -> Gateway.net_result)
    (json_loads : string -> option Gateway.msg) (get_commits : string -> string -> list string)
    (tags : list (string * string)) (rels : list (string * Release.release)) :
  Doc.gen_tags e net json_loads get_commits tags 0 tags rels
  = run_plan e net json_loads get_commits (spec_plan tags 0 tags (map fst rels)) rels.
Proof. apply gen_tags_run_plan. intros k. apply mem_keys. Qed.

(** ** The [project] parameter of every request *)

Lemma lao_app (a b : string) :
  list_ascii_of_string (a ++ b) = (list_ascii_of_string a ++ list_ascii_of_string b)%list.
Proof. induction a as [|x a IH]; simpl; [reflexivity | rewrite IH; reflexivity]. Qed.

Lemma length_lao (s : string) : String.length s = List.length (list_ascii_of_string s).
Proof. induction s as [|x s IH]; simpl; [reflexivity | rewrite IH; reflexivity]. Qed.

Lemma hex_digit_is_hex (n : Z) : is_hex (Sha224.hex_digit n) = true.
Proof.
  unfold Sha224.hex_digit. generalize (Z.to_nat n) as k. intros k.
  do 16 (destruct k as [|k]; [reflexivity|]). destruct k; reflexivity.
Qed.

Lemma hex8_shape (w : Z) :
  List.length (list_ascii_of_string (Sha224.hex8 w)) = 8
  /\ forallb is_hex (list_ascii_of_string (Sha224.hex8 w)) = true.
Proof.
  unfold Sha224.hex8. rewrite list_ascii_of_string_of_list_ascii, length_map. split; [reflexivity|].
  generalize [0; 1; 2; 3; 4; 5; 6; 7]%Z as l. intros l.
  induction l as [|i l IH]; [reflexivity|]. cbn [map forallb]. rewrite hex_digit_is_hex. exact IH.
Qed.

Lemma sha224_hex_shape (s : string) : hex56 (Sha224.sha224_hex s) = true.
Proof.
  unfold hex56, Sha224.sha224_hex. rewrite length_lao, !lao_app, !length_app, !forallb_app.
  destruct (hex8_shape (Sha224.ha (Sha224.digest (Sha224.utf8 s)))) as [-> ->].
  destruct (hex8_shape (Sha224.hb (Sha224.digest (Sha224.utf8 s)))) as [-> ->].
  destruct (hex8_shape (Sha224.hc (Sha224.digest (Sha224.utf8 s)))) as [-> ->].
  destruct (hex8_shape (Sha224.hd (Sha224.digest (Sha224.utf8 s)))) as [-> ->].
  destruct (hex8_shape (Sha224.he (Sha224.digest (Sha224.utf8 s)))) as [-> ->].
  destruct (hex8_shape (Sha224.hf (Sha224.digest (Sha224.utf8 s)))) as [-> ->].
  destruct (hex8_shape (Sha224.hg (Sha224.digest (Sha224.utf8 s)))) as [-> ->].
  reflexivity.
Qed.

Lemma post_request_project (e : Gateway.env) (net : Gateway.request -> Gateway.net_result)
    (json_loads : string -> option Gateway.msg) (payload : list (option string * string))
    (v : string) (q : Gateway.request) :
  fst (Gateway.post net json_loads e "classify" payload [("version", v)]) = Some q -> request_ok e q.
Proof.
  intros H. unfold Gateway.post in H.
  destruct (Gateway.py_or _ _) as [[|c s]|]; [discriminate| |discriminate]. cbv zeta in H.
  destruct (net _) as [|st m]; [|destruct (st =? 200)%Z]; simpl in H; injection H as <-;
    reflexivity.
Qed.

Lemma requests_ok_app (e : Gateway.env) (a b : list event) :
  requests_ok e a -> requests_ok e b -> requests_ok e (a ++ b)%list.
Proof. unfold requests_ok. intros Ha Hb. apply Forall_app. split; assumption. Qed.

Lemma post_classification_requests (e : Gateway.env) (net : Gateway.request -> Gateway.net_result)
    (json_loads : string -> option Gateway.msg) (r r' : Release.release) (tr : list event) :
  Gen.post_classification e net json_loads r = Some (r', tr) -> requests_ok e tr.
Proof.
  intros H. destruct (Release.batched r) as [|b bs] eqn:Hb.
  - unfold Gen.post_classification in H. rewrite Hb in H. injection H as _ <-. constructor.
  - destruct (post_classification_cases e net json_loads r b bs Hb) as [l [_ [_ Hpc]]].
    rewrite <- Hb in Hpc.
    destruct Hpc as [Hpc | Hpc]; rewrite Hpc in H; [|discriminate].
    destruct (Gen.update_log _ _); [|discriminate]. injection H as _ <-.
    destruct (fst _) as [q|] eqn:Hq; constructor; [|constructor].
    apply (post_request_project e net json_loads _ _ _ Hq).
Qed.

Lemma track_all_requests (e : Gateway.env) (net : Gateway.request -> Gateway.net_result)
    (json_loads : string -> option Gateway.msg) (commits : list string) :
  forall r r' tr, Gen.track_all e net json_loads r commits = Some (r', tr) -> requests_ok e tr.
Proof.
  induction commits as [|title commits IH]; intros r r' tr H.
  - simpl in H. injection H as _ <-. constructor.
  - simpl in H. destruct title as [|t0 title']; [exact (IH _ _ _ H)|].
    destruct (Catalog.catalog_commit _) as [ct cc].
    destruct (Gen.track_commit e net json_loads r ct cc) as [[r1 ev1]|] eqn:Ht; [|discriminate].
    destruct (Gen.track_all e net json_loads r1 commits) as [[r2 ev2]|] eqn:Ha; [|discriminate].
    injection H as _ <-. apply requests_ok_app; [|exact (IH _ _ _ Ha)].
    unfold Gen.track_commit in Ht. destruct (Nat.leb _ _).
    + exact (post_classification_requests _ _ _ _ _ _ Ht).
    + injection Ht as _ <-. constructor.
Qed.

Lemma gen_generate_requests (e : Gateway.env) (net : Gateway.request -> Gateway.net_result)
    (json_loads : string -> option Gateway.msg) (get_commits : string -> string -> list string)
    (r r' : Release.release) (start : string) (tr : list event) :
  Gen.generate e net json_loads get_commits r start = Some (r', tr) -> requests_ok e tr.
Proof.
  unfold Gen.generate. intros H.
  destruct (Gen.track_all _ _ _ _ _) as [[r1 ev1]|] eqn:Ha; [|discriminate].
  destruct (Gen.post_classification _ _ _ r1) as [[r2 ev2]|] eqn:Hp; [|discriminate].
  injection H as _ <-. constructor; [exact I|].
  apply requests_ok_app; [exact (track_all_requests _ _ _ _ _ _ _ Ha)
                         | exact (post_classification_requests _ _ _ _ _ _ Hp)].
Qed.

Lemma gen_tags_requests (e : Gateway.env) (net : Gateway.request -> Gateway.net_result)
    (json_loads : string -> option Gateway.msg) (get_commits : string -> string -> list string)
    (all_tags rest : list (string * string)) :
  forall i rels rels' tr,
  Doc.gen_tags e net json_loads get_commits all_tags i rest rels = Some (rels', tr) -> requests_ok e tr.
Proof.
  induction rest as [|[tag_name tag_date] rest IH]; intros i rels rels' tr H.
  - simpl in H. injection H as _ <-. constructor.
  - simpl in H. destruct (Doc.mem _ rels); [exact (IH _ _ _ _ H)|].
    destruct (Gen.generate _ _ _ _ _ _) as [[release ev1]|] eqn:Hg; [|discriminate].
    destruct (Doc.gen_tags _ _ _ _ _ _ _ _) as [[rels2 ev2]|] eqn:Ht; [|discriminate].
    injection H as _ <-. apply requests_ok_app;
      [exact (gen_generate_requests _ _ _ _ _ _ _ _ Hg) | exact (IH _ _ _ _ Ht)].
Qed.

(** C9: every request a run of [ChangelogDoc.generate] sends carries as
    [project] the SHA-224 hex digest of the project name [post] uses (the
    configured [DOCULOG_PROJECT_NAME], or ["DefaultProject"] when it is
    unset or empty), whatever the configuration; the digest is a string of
    56 lowercase hex digits, so it is never a raw name that is not one. *)
Theorem requests_carry_project_digest (e : Gateway.env) (net : Gateway.request -> Gateway.net_result)
    (json_loads : string -> option Gateway.msg) (get_commits : string -> string -> list string)
    (file : option string) (d d' : Doc.doc) (tr : list event) :
  Doc.generate e net json_loads get_commits file d = Some (d', tr) ->
  requests_ok e tr
  /\ hex56 (Sha224.sha224_hex (Gateway.project_name e)) = true
  /\ (forall raw, hex56 raw = false -> Sha224.sha224_hex (Gateway.project_name e) <> raw).
Proof.
  intros H. assert (Hh := sha224_hex_shape (Gateway.project_name e)).
  split; [|split; [exact Hh | intros raw Hr Heq; rewrite Heq in Hh; congruence]].
  unfold Doc.generate in H. destruct (negb (Doc.has_git d)).
  - injection H as _ <-. constructor; [exact I | constructor].
  - destruct (match file with Some _ => _ | None => _ end) as [rels0 ev0] eqn:Hf.
    assert (H0 : requests_ok e ev0).
    { destruct file; injection Hf as _ <-; repeat constructor. }
    destruct (Gateway.assoc_get _ _) as [u|]; [|discriminate].
    destruct (Gen.generate _ _ _ _ u _) as [[u' ev1]|] eqn:Hg; [|discriminate].
    destruct (Doc.gen_tags _ _ _ _ _ _ _ _) as [[rels3 ev2]|] eqn:Ht; [|discriminate].
    injection H as _ <-. apply requests_ok_app; [exact H0|].
    apply requests_ok_app; [exact (gen_generate_requests _ _ _ _ _ _ _ _ Hg)
                           | exact (gen_tags_requests _ _ _ _ _ _ _ _ _ _ Ht)].
Qed.

Lemma requests_carry_project_digest_witness :
  exists d' tr,
    Doc.generate (Gateway.mk_env (Some "key") None None None) (fun _ => Gateway.ConnectionError)
      (fun _ => None) (fun _ _ => ["Add x"]) None (Doc.mk_doc [] [] true) = Some (d', tr)
    /\ requests_ok (Gateway.mk_env (Some "key") None None None) tr
    /\ List.length tr = 2.
Proof.
  destruct (Doc.generate (Gateway.mk_env (Some "key") None None None) (fun _ => Gateway.ConnectionError)
              (fun _ => None) (fun _ _ => ["Add x"]) None (Doc.mk_doc [] [] true))
    as [[d' tr]|] eqn:H; [|vm_compute in H; discriminate].
  exists d', tr. split; [reflexivity|]. split.
  - exact (proj1 (requests_carry_project_digest (Gateway.mk_env (Some "key") None None None)
                    (fun _ => Gateway.ConnectionError) (fun _ => None) (fun _ _ => ["Add x"])
                    None (Doc.mk_doc [] [] true) d' tr H)).
  - vm_compute in H. injection H as _ <-. reflexivity.
Defined.

(** C9 on a concrete configuration: with no project name configured the
    request carries the digest of ["DefaultProject"]. *)
Example project_param_default :
  option_map (fun q => Gateway.assoc_get "project" (Gateway.req_params q))
    (fst (Gateway.post (fun _ => Gateway.ConnectionError) (fun _ => None)
            (Gateway.mk_env None (Some "key") (Some "") None) "classify" [] [("version", "1.0.0")]))
  = Some (Some "43b19d74ca03b1cd94634041e026c91ba8fb8a0dfba5ab93e17bbbc1").
Proof. vm_compute. reflexivity. Qed.

(** C8 on a concrete document: [1.0.0] is already present, so only
    [1.1.0] is generated, from [1.0.0]'s date. *)
Example spec_plan_skips_present :
  spec_plan [("v1.1.0", "2021-02-01"); ("v1.0.0", "2021-01-01")] 0
            [("v1.1.0", "2021-02-01"); ("v1.0.0", "2021-01-01")] ["Unreleased"; "1.0.0"]
  = [("1.1.0", "2021-02-01", "2021-01-01")].
Proof. reflexivity. Qed.

(** * Further properties of the code *)

(** ** [ChangelogSection.remove_duplicates] *)

Lemma loop_In (s acc : list string) (x : string) :
  In x (Section.remove_dups_loop acc s) <-> In x acc \/ In x s.
Proof.
  revert acc. induction s as [|a s IH]; intros acc; simpl.
  - tauto.
  - destruct (Section.mem a acc) eqn:E; rewrite IH.
    + apply mem_In in E. split; [tauto|]. intros [H | [<- | H]]; tauto.
    + rewrite in_app_iff. simpl. tauto.
Qed.

(** [remove_duplicates] drops no distinct line (the lines before and
    after are the same as a set) and leaves no line twice. *)
Theorem remove_duplicates_members_nodup (l : list string) :
  (forall x, In x (Section.remove_duplicates l) <-> In x l)
  /\ NoDup (Section.remove_duplicates l).
Proof.
  split.
  - intros x. unfold Section.remove_duplicates. rewrite loop_In. simpl. tauto.
  - apply loop_NoDup. constructor.
Qed.

(** ** [ChangelogRelease.read] *)

Lemma read_section_appends (c : Release.category) (ls : list string) :
  forall ss c', exists l', Release.get_sec c' (Release.read_section c ls ss) = (Release.get_sec c' ss ++ l')%list
                   /\ Forall (fun l => stored_ok l = true) l'.
Proof.
  induction ls as [|line ls IH]; intros ss c'; simpl.
  - exists []. rewrite app_nil_r. split; [reflexivity | constructor].
  - destruct (Section.bullet_match line).
    + destruct (IH (Release.add_to c line ss) c') as [l' [H1 H2]].
      rewrite H1, get_add_to. destruct (cat_eqb c' c).
      * exists (Section.add_commit_line line :: l')%list. unfold Section.add_commit.
        rewrite <- app_assoc. split; [reflexivity|]. constructor; [apply add_commit_line_ok | exact H2].
      * exists l'. split; [reflexivity | exact H2].
    + destruct (Section.heading_match line); [|apply IH].
      exists []. rewrite app_nil_r. split; [reflexivity | constructor].
Qed.

(** [read] never drops or reorders the lines a section already holds: it
    only appends, and every line it appends has the shape [add_commit]
    gives (no trailing whitespace; optional whitespace, a marker, then
    whitespace or the end of the line). *)
Theorem release_read_appends (ls : list string) :
  forall ss c, exists l', Release.get_sec c (Release.read ls ss) = (Release.get_sec c ss ++ l')%list
                 /\ Forall (fun l => stored_ok l = true) l'.
Proof.
  induction ls as [|line ls IH]; intros ss c.
  - exists []. rewrite app_nil_r. split; [reflexivity | constructor].
  - rewrite read_cons.
    set (ss1 := if Release.is_category_word _ then _ else ss).
    assert (H1 : exists l1, Release.get_sec c ss1 = (Release.get_sec c ss ++ l1)%list
                    /\ Forall (fun l => stored_ok l = true) l1).
    { subst ss1. destruct (Release.is_category_word _);
        [destruct (Release.cat_of_key _) as [t|]; [apply read_section_appends|] |];
        exists []; rewrite app_nil_r; split; (reflexivity || constructor). }
    destruct H1 as [l1 [E1 F1]]. destruct (IH ss1 c) as [l2 [E2 F2]].
    exists (l1 ++ l2)%list. rewrite E2, E1, app_assoc. split; [reflexivity|].
    apply Forall_app. split; assumption.
Qed.






(** ** [catalog_commit] *)

Lemma lookup_commit_types_cat (k t : string) :
  Catalog.lookup k Catalog.commit_types = Some t -> exists c, Release.cat_of_key t = Some c.
Proof.
  unfold Catalog.commit_types.
  repeat (cbn [Catalog.lookup fst snd]; destruct (String.eqb _ k);
          [intros H; injection H as <-; eexists; reflexivity|]).
  discriminate.
Qed.

(** The category [catalog_commit] finds locally is always the name of one
    of the five sections, so [_update_log] never raises [KeyError] on a
    batch classified locally, whatever the titles. *)
Theorem catalog_commit_names_section (titles : list string) (ss : Release.sections) :
  (forall t, match fst (Catalog.catalog_commit t) with
             | Some k => Release.cat_of_key k <> None
             | None => True
             end)
  /\ exists ss', Gen.update_log ss (map Catalog.catalog_commit titles) = Some ss'.
Proof.
  split.
  - intros t. unfold Catalog.catalog_commit.
    destruct (Catalog.lookup _ _) as [k|] eqn:Hl; [|exact I].
    destruct (lookup_commit_types_cat _ _ Hl) as [c Hc]. simpl. rewrite Hc. discriminate.
  - apply update_log_total. induction titles as [|t titles IH]; [reflexivity|].
    simpl. rewrite catalog_commit_valid. exact IH.
Qed.

Lemma lower_char_idem (c : ascii) : lower_char (lower_char c) = lower_char c.
Proof. destruct c as [[] [] [] [] [] [] [] []]; reflexivity. Qed.

Lemma lower_idem (s : string) : lower (lower s) = lower s.
Proof. induction s as [|c s IH]; simpl; [reflexivity | rewrite lower_char_idem, IH; reflexivity]. Qed.

(** [catalog_commit] ignores case: a title and its lowercase form get the
    same category, and on a hit the same cleaned text. *)
Theorem catalog_commit_case_insensitive (t : string) :
  fst (Catalog.catalog_commit (lower t)) = fst (Catalog.catalog_commit t)
  /\ (fst (Catalog.catalog_commit t) <> None ->
      snd (Catalog.catalog_commit (lower t)) = snd (Catalog.catalog_commit t)).
Proof.
  unfold Catalog.catalog_commit. rewrite lower_idem.
  destruct (Catalog.lookup _ _); split; try reflexivity. intros H. exfalso. apply H. reflexivity.
Qed.

Lemma catalog_commit_case_insensitive_witness :
  fst (Catalog.catalog_commit "FIX Crash On Start") <> None
  /\ snd (Catalog.catalog_commit (lower "FIX Crash On Start"))
     = snd (Catalog.catalog_commit "FIX Crash On Start").
Proof.
  assert (H : fst (Catalog.catalog_commit "FIX Crash On Start") <> None) by discriminate.
  split; [exact H | exact (proj2 (catalog_commit_case_insensitive "FIX Crash On Start") H)].
Defined.

(** ** Batching in [ChangelogRelease.generate] *)

Lemma count_requests_app (a b : list event) :
  count_requests (a ++ b)%list = count_requests a + count_requests b.
Proof. unfold count_requests. rewrite filter_app, length_app. reflexivity. Qed.

Lemma post_classification_clears (e : Gateway.env) (net : Gateway.request -> Gateway.net_result)
    (json_loads : string -> option Gateway.msg) (r r' : Release.release) (tr : list event) :
  Gen.post_classification e net json_loads r = Some (r', tr) ->
  Release.batched r' = [] /\ count_requests tr <= 1 /\ (Release.batched r = [] -> tr = []).
Proof.
  intros H. destruct (Release.batched r) as [|b bs] eqn:Hb.
  - unfold Gen.post_classification in H. rewrite Hb in H. injection H as <- <-.
    split; [exact Hb|]. split; [unfold count_requests; simpl; lia | intros _; reflexivity].
  - destruct (post_classification_cases e net json_loads r b bs Hb) as [l [_ [_ Hpc]]].
    destruct Hpc as [Hpc | Hpc]; rewrite Hpc in H; [|discriminate].
    destruct (Gen.update_log _ _); [|discriminate]. injection H as <- <-.
    split; [reflexivity|]. split; [|discriminate].
    destruct (fst _); unfold count_requests; simpl; lia.
Qed.

Lemma track_all_batch (e : Gateway.env) (net : Gateway.request -> Gateway.net_result)
    (json_loads : string -> option Gateway.msg) (ts : list string) :
  forall r r' tr, Gen.track_all e net json_loads r ts = Some (r', tr) ->
  25 * count_requests tr + List.length (Release.batched r')
    <= List.length (Release.batched r) + List.length (tracked ts)
  /\ (List.length (Release.batched r) < 25 -> List.length (Release.batched r') < 25).
Proof.
  induction ts as [|t ts IH]; intros r r' tr H.
  - simpl in H. injection H as <- <-. simpl. lia.
  - simpl in H. destruct t as [|t0 t']; [exact (IH _ _ _ H)|].
    destruct (Catalog.catalog_commit _) as [ct cc].
    destruct (Gen.track_commit e net json_loads r ct cc) as [[r1 ev1]|] eqn:Ht; [|discriminate].
    destruct (Gen.track_all e net json_loads r1 ts) as [[r2 ev2]|] eqn:Ha; [|discriminate].
    injection H as <- <-. destruct (IH _ _ _ Ha) as [I1 I2].
    unfold Gen.track_commit in Ht. cbn [Release.batched Gen.with_secs] in Ht.
    rewrite length_app in Ht. change (List.length [(ct, cc)]) with 1 in Ht. change (tracked (String t0 t' :: ts)) with (String t0 t' :: tracked ts)%list.
    cbn [List.length]. rewrite count_requests_app.
    destruct (Nat.leb 25 (List.length (Release.batched r) + 1)) eqn:Hle.
    + apply Nat.leb_le in Hle. destruct (post_classification_clears _ _ _ _ _ _ Ht) as [B [C _]].
      rewrite B in I1, I2. simpl in I1, I2. split; [lia|]. intros _. apply I2. lia.
    + apply Nat.leb_gt in Hle. injection Ht as <- <-. simpl in I1, I2.
      rewrite length_app in I1, I2. simpl in I1, I2.
      change (count_requests []) with 0. split; [lia|]. intros _. apply I2. lia.
Qed.

(** Between two calls the pending batch never reaches 25 commits: a run
    of [track_commit] over titles, started below 25, ends below 25 (the
    batch is posted and cleared as soon as it reaches 25). *)
Theorem track_all_batch_below_25 (e : Gateway.env) (net : Gateway.request -> Gateway.net_result)
    (json_loads : string -> option Gateway.msg) (ts : list string) (r r' : Release.release)
    (tr : list event) :
  List.length (Release.batched r) < 25 ->
  Gen.track_all e net json_loads r ts = Some (r', tr) ->
  List.length (Release.batched r') < 25.
Proof. intros H1 H2. exact (proj2 (track_all_batch e net json_loads ts r r' tr H2) H1). Qed.

Lemma track_all_batch_below_25_witness :
  exists r' tr,
    Gen.track_all (Gateway.mk_env (Some "key") None None None) (fun _ => Gateway.ConnectionError)
      (fun _ => None) (Release.new_release "1.0.0" "2021-12-25") (repeat "Add x" 30) = Some (r', tr)
    /\ List.length (Release.batched r') = 5.
Proof.
  destruct (Gen.track_all (Gateway.mk_env (Some "key") None None None) (fun _ => Gateway.ConnectionError)
              (fun _ => None) (Release.new_release "1.0.0" "2021-12-25") (repeat "Add x" 30))
    as [[r' tr]|] eqn:H; [|vm_compute in H; discriminate].
  exists r', tr. split; [reflexivity|].
  pose proof (track_all_batch_below_25 (Gateway.mk_env (Some "key") None None None)
                (fun _ => Gateway.ConnectionError) (fun _ => None) (repeat "Add x" 30)
                (Release.new_release "1.0.0" "2021-12-25") r' tr ltac:(simpl; lia) H) as _.
  vm_compute in H. injection H as <- _. reflexivity.
Defined.

(** [ChangelogRelease.generate] sends at most one request per 25 tracked
    commits, rounded up: with [n] non-empty titles in the window and [b]
    commits already pending, [25 * requests <= b + n + 24]; with nothing
    to classify it sends none. *)
Theorem generate_request_bound (e : Gateway.env) (net : Gateway.request -> Gateway.net_result)
    (json_loads : string -> option Gateway.msg) (get_commits : string -> string -> list string)
    (r r' : Release.release) (start : string) (tr : list event) :
  Gen.generate e net json_loads get_commits r start = Some (r', tr) ->
  25 * count_requests tr
    <= List.length (Release.batched r) + List.length (tracked (get_commits start (Release.date r))) + 24.
Proof.
  unfold Gen.generate. intros H.
  destruct (Gen.track_all _ _ _ _ _) as [[r1 ev1]|] eqn:Ha; [|discriminate].
  destruct (Gen.post_classification _ _ _ r1) as [[r2 ev2]|] eqn:Hp; [|discriminate].
  injection H as _ <-. destruct (track_all_batch _ _ _ _ _ _ _ Ha) as [I1 _].
  destruct (post_classification_clears _ _ _ _ _ _ Hp) as [_ [C E]].
  change (count_requests (EvGetCommits start (Release.date r) :: ev1 ++ ev2)%list)
    with (count_requests (ev1 ++ ev2)%list).
  rewrite count_requests_app.
  destruct (Release.batched r1) as [|x b1].
  - rewrite (E eq_refl). unfold count_requests at 2. simpl in *. lia.
  - simpl in I1. lia.
Qed.

Lemma generate_request_bound_witness :
  exists r' tr,
    Gen.generate (Gateway.mk_env (Some "key") None None None) (fun _ => Gateway.ConnectionError)
      (fun _ => None) (fun _ _ => repeat "Add x" 30) (Release.new_release "1.0.0" "2021-12-25")
      "1999-01-01" = Some (r', tr)
    /\ count_requests tr = 2.
Proof.
  destruct (Gen.generate (Gateway.mk_env (Some "key") None None None) (fun _ => Gateway.ConnectionError)
              (fun _ => None) (fun _ _ => repeat "Add x" 30) (Release.new_release "1.0.0" "2021-12-25")
              "1999-01-01") as [[r' tr]|] eqn:H; [|vm_compute in H; discriminate].
  exists r', tr. split; [reflexivity|].
  pose proof (generate_request_bound (Gateway.mk_env (Some "key") None None None)
                (fun _ => Gateway.ConnectionError) (fun _ => None) (fun _ _ => repeat "Add x" 30)
                (Release.new_release "1.0.0" "2021-12-25") r' "1999-01-01" tr H) as _.
  vm_compute in H. injection H as _ <-. reflexivity.
Defined.

(** ** [ChangelogRelease.generate] without an API key *)

Lemma post_offline (e : Gateway.env) (net : Gateway.request -> Gateway.net_result)
    (json_loads : string -> option Gateway.msg) (endpoint : string)
    (payload : list (option string * string)) (params : list (string * string)) :
  Gateway.truthy (Gateway.py_or (Gateway.documatic_api_key e) (Gateway.doculog_api_key e)) = false ->
  Gateway.post net json_loads e endpoint payload params = (None, None).
Proof.
  intros H. unfold Gateway.post.
  destruct (Gateway.py_or _ _) as [[|c s]|]; [reflexivity | discriminate | reflexivity].
Qed.

Lemma msgs_for_app (c : Release.category) (a b : list (option string * string)) :
  msgs_for c (a ++ b)%list = (msgs_for c a ++ msgs_for c b)%list.
Proof. unfold msgs_for. rewrite filter_app, map_app. reflexivity. Qed.

Lemma post_classification_offline (e : Gateway.env) (net : Gateway.request -> Gateway.net_result)
    (json_loads : string -> option Gateway.msg) (r : Release.release) :
  Gateway.truthy (Gateway.py_or (Gateway.documatic_api_key e) (Gateway.doculog_api_key e)) = false ->
  forallb (fun p => valid_cat (fst p)) (Release.batched r) = true ->
  exists r', Gen.post_classification e net json_loads r = Some (r', [])
    /\ Release.batched r' = [] /\ Release.version r' = Release.version r
    /\ Release.date r' = Release.date r /\ Release.unreleased r' = Release.unreleased r
    /\ forall c, Release.get_sec c (Release.secs r')
                 = (Release.get_sec c (Release.secs r)
                    ++ map Section.add_commit_line (msgs_for c (Release.batched r)))%list.
Proof.
  intros Hk Hv. unfold Gen.post_classification.
  destruct (Release.batched r) as [|b bs] eqn:Hb.
  - exists r. rewrite Hb. repeat split; try reflexivity. intros c. simpl. rewrite app_nil_r. reflexivity.
  - rewrite post_offline by exact Hk. cbn iota beta.
    destruct (update_log_total (Release.secs r) _ Hv) as [ss Hss]. rewrite Hss.
    exists (Gen.with_secs r ss []). repeat split; try reflexivity.
    apply (update_log_sections _ _ _ Hss).
Qed.

Lemma track_all_offline (e : Gateway.env) (net : Gateway.request -> Gateway.net_result)
    (json_loads : string -> option Gateway.msg) (ts : list string) :
  Gateway.truthy (Gateway.py_or (Gateway.documatic_api_key e) (Gateway.doculog_api_key e)) = false ->
  forall r, forallb (fun p => valid_cat (fst p)) (Release.batched r) = true ->
  exists r', Gen.track_all e net json_loads r ts = Some (r', [])
    /\ forallb (fun p => valid_cat (fst p)) (Release.batched r') = true
    /\ Release.version r' = Release.version r
    /\ Release.date r' = Release.date r /\ Release.unreleased r' = Release.unreleased r
    /\ forall c, (Release.get_sec c (Release.secs r')
                  ++ map Section.add_commit_line (msgs_for c (Release.batched r')))%list
                 = (Release.get_sec c (Release.secs r)
                    ++ map Section.add_commit_line
                         (msgs_for c (Release.batched r ++ map Catalog.catalog_commit (tracked ts))))%list.
Proof.
  intros Hk. induction ts as [|t ts IH]; intros r Hv.
  - exists r. repeat split; try reflexivity; [exact Hv|]. intros c. simpl. rewrite app_nil_r. reflexivity.
  - destruct t as [|t0 t'].
    + destruct (IH r Hv) as [r' [H1 H2]]. exists r'. split; [exact H1 | exact H2].
    + change (tracked (String t0 t' :: ts)) with (String t0 t' :: tracked ts)%list.
      cbn [Gen.track_all Gateway.truthy]. pose proof (catalog_commit_valid (String t0 t')) as Hcv.
      destruct (Catalog.catalog_commit (String t0 t')) as [ct cc] eqn:Hcat.
      set (r1 := Gen.with_secs r (Release.secs r) (Release.batched r ++ [(ct, cc)])%list).
      assert (Hv1 : forallb (fun p => valid_cat (fst p)) (Release.batched r1) = true).
      { simpl. rewrite forallb_app, Hv. simpl. simpl in Hcv. rewrite Hcv. reflexivity. }
      assert (Hstep : exists rn, Gen.track_commit e net json_loads r ct cc = Some (rn, [])
                  /\ forallb (fun p => valid_cat (fst p)) (Release.batched rn) = true
                  /\ Release.version rn = Release.version r
                  /\ Release.date rn = Release.date r /\ Release.unreleased rn = Release.unreleased r
                  /\ forall c, (Release.get_sec c (Release.secs rn)
                                ++ map Section.add_commit_line (msgs_for c (Release.batched rn)))%list
                               = (Release.get_sec c (Release.secs r)
                                  ++ map Section.add_commit_line (msgs_for c (Release.batched r1)))%list).
      { unfold Gen.track_commit. fold r1. destruct (Nat.leb _ _).
        - destruct (post_classification_offline e net json_loads r1 Hk Hv1)
            as [rn [P1 [P2 [P3 [P4 [P5 P6]]]]]].
          exists rn. rewrite P1. split; [reflexivity|]. split; [rewrite P2; reflexivity|].
          split; [rewrite P3; reflexivity|]. split; [rewrite P4; reflexivity|].
          split; [rewrite P5; reflexivity|].
          intros c. rewrite P2, P6. simpl. rewrite app_nil_r. reflexivity.
        - exists r1. repeat split; try reflexivity; exact Hv1. }
      destruct Hstep as [rn [S1 [S2 [S3 [S4 [S5 S6]]]]]].
      destruct (IH rn S2) as [r' [T1 [T2 [T3 [T4 [T5 T6]]]]]].
      exists r'. rewrite S1, T1. repeat split; try assumption; try congruence.
      intros c. rewrite T6, msgs_for_app, map_app, app_assoc, S6.
      simpl. rewrite <- !app_assoc, !msgs_for_app, !map_app, <- !app_assoc, Hcat.
      change ((ct, cc) :: map Catalog.catalog_commit (tracked ts))%list
        with ([(ct, cc)] ++ map Catalog.catalog_commit (tracked ts))%list.
      rewrite msgs_for_app, map_app. reflexivity.
Qed.

Lemma get_dedup_all (c : Release.category) (ss : Release.sections) :
  Release.get_sec c (Gen.dedup_all ss) = Section.remove_duplicates (Release.get_sec c ss).
Proof. destruct c; reflexivity. Qed.

(** Without an API key (neither [DOCUMATIC_API_KEY] nor [DOCULOG_API_KEY]
    is set and non-empty) [ChangelogRelease.generate] sends no request and
    cannot fail: it fetches the commits of its window once and adds each
    non-empty title the local classifier recognises, cleaned, to the
    section of its verb (titles with an unknown verb are dropped), then
    removes duplicates; the batch ends empty. *)
Theorem generate_offline (e : Gateway.env) (net : Gateway.request -> Gateway.net_result)
    (json_loads : string -> option Gateway.msg) (get_commits : string -> string -> list string)
    (r : Release.release) (start : string) :
  Gateway.truthy (Gateway.py_or (Gateway.documatic_api_key e) (Gateway.doculog_api_key e)) = false ->
  forallb (fun p => valid_cat (fst p)) (Release.batched r) = true ->
  exists r', Gen.generate e net json_loads get_commits r start
             = Some (r', [EvGetCommits start (Release.date r)])
    /\ Release.batched r' = [] /\ Release.version r' = Release.version r
    /\ Release.date r' = Release.date r
    /\ forall c, Release.get_sec c (Release.secs r')
                 = Section.remove_duplicates
                     (Release.get_sec c (Release.secs r)
                      ++ map Section.add_commit_line
                           (msgs_for c (Release.batched r
                              ++ map Catalog.catalog_commit
                                   (tracked (get_commits start (Release.date r))))))%list.
Proof.
  intros Hk Hv. unfold Gen.generate.
  destruct (track_all_offline e net json_loads (get_commits start (Release.date r)) Hk r Hv)
    as [r1 [A1 [A2 [A3 [A4 [A5 A6]]]]]].
  rewrite A1.
  destruct (post_classification_offline e net json_loads r1 Hk A2) as [r2 [P1 [P2 [P3 [P4 [P5 P6]]]]]].
  rewrite P1. eexists. split; [reflexivity|]. cbn [Release.batched Release.version Release.date
                                                    Release.secs Gen.with_secs].
  repeat split; try congruence. intros c. rewrite get_dedup_all, P6, A6. reflexivity.
Qed.

Lemma generate_offline_witness :
  Gateway.truthy (Gateway.py_or (Gateway.documatic_api_key (Gateway.mk_env None (Some "") None None))
                                (Gateway.doculog_api_key (Gateway.mk_env None (Some "") None None)))
    = false
  /\ Gen.generate (Gateway.mk_env None (Some "") None None) (fun _ => Gateway.ConnectionError)
       (fun _ => None) (fun _ _ => ["Fix crash"; "Tidy up"; ""; "fix crash"]) (Release.new_release "1.0.0" "2021-12-25")
       "1999-01-01"
     = Some (Release.mk_release "1.0.0" "2021-12-25" false
               (Release.mk_sections [] [] ["* Crash"] [] []) [],
             [EvGetCommits "1999-01-01" "2021-12-25"]).
Proof.
  split; [reflexivity|].
  destruct (generate_offline (Gateway.mk_env None (Some "") None None) (fun _ => Gateway.ConnectionError)
              (fun _ => None) (fun _ _ => ["Fix crash"; "Tidy up"; ""; "fix crash"])
              (Release.new_release "1.0.0" "2021-12-25") "1999-01-01" eq_refl eq_refl)
    as [r' [H _]].
  rewrite H. vm_compute in H. injection H as <-. reflexivity.
Defined.

(** After [ChangelogRelease.generate] no section holds a line twice. *)
Theorem generate_sections_nodup (e : Gateway.env) (net : Gateway.request -> Gateway.net_result)
    (json_loads : string -> option Gateway.msg) (get_commits : string -> string -> list string)
    (r r' : Release.release) (start : string) (tr : list event) :
  Gen.generate e net json_loads get_commits r start = Some (r', tr) ->
  forall c, NoDup (Release.get_sec c (Release.secs r')).
Proof.
  unfold Gen.generate. intros H c.
  destruct (Gen.track_all _ _ _ _ _) as [[r1 ev1]|]; [|discriminate].
  destruct (Gen.post_classification _ _ _ r1) as [[r2 ev2]|]; [|discriminate].
  injection H as <- _. cbn [Release.secs Gen.with_secs]. rewrite get_dedup_all.
  apply loop_NoDup. constructor.
Qed.

Lemma generate_sections_nodup_witness :
  exists r' tr,
    Gen.generate (Gateway.mk_env None None None None) (fun _ => Gateway.ConnectionError)
      (fun _ => None) (fun _ _ => ["Add x"; "add x"]) (Release.new_release "1.0.0" "2021-12-25")
      "1999-01-01" = Some (r', tr)
    /\ NoDup (Release.get_sec Release.Added (Release.secs r')).
Proof.
  destruct (Gen.generate (Gateway.mk_env None None None None) (fun _ => Gateway.ConnectionError)
              (fun _ => None) (fun _ _ => ["Add x"; "add x"]) (Release.new_release "1.0.0" "2021-12-25")
              "1999-01-01") as [[r' tr]|] eqn:H; [|vm_compute in H; discriminate].
  exists r', tr. split; [reflexivity|].
  exact (generate_sections_nodup (Gateway.mk_env None None None None) (fun _ => Gateway.ConnectionError)
           (fun _ => None) (fun _ _ => ["Add x"; "add x"]) (Release.new_release "1.0.0" "2021-12-25")
           r' "1999-01-01" tr H Release.Added).
Defined.

(** ** [ChangelogDoc]: its releases *)

Lemma assoc_get_set {A} (k k' : string) (x : A) (rels : list (string * A)) :
  Gateway.assoc_get k' (Gateway.assoc_set k x rels)
  = if String.eqb k k' then Some x else Gateway.assoc_get k' rels.
Proof.
  induction rels as [|[k0 y] rels IH]; simpl.
  - destruct (String.eqb k k'); reflexivity.
  - destruct (String.eqb k0 k) eqn:E1; simpl.
    + apply String.eqb_eq in E1. subst k0. destruct (String.eqb k k'); reflexivity.
    + rewrite IH. destruct (String.eqb k0 k') eqn:E2; [|reflexivity].
      apply String.eqb_eq in E2. subst k'. rewrite String.eqb_sym, E1. reflexivity.
Qed.

Lemma read_release_keys (rd : Doc.reader) (rels : list (string * Release.release)) (k : string) :
  Doc.mem k rels = true -> Doc.mem k (Doc.read_release rd rels) = true.
Proof.
  unfold Doc.read_release. destruct (Doc.curr_version rd); [|tauto].
  intros H. rewrite mem_assoc_set, H. apply orb_true_r.
Qed.

Lemma read_loop_keys (tags : list (string * string)) (content : list string) (k : string) :
  forall rd rels, Doc.mem k rels = true -> Doc.mem k (Doc.read_loop tags content rd rels) = true.
Proof.
  induction content as [|line content IH]; intros rd rels H; simpl.
  - apply read_release_keys, H.
  - destruct (_ || _); apply IH; [apply read_release_keys|]; exact H.
Qed.

Lemma gen_tags_keys (e : Gateway.env) (net : Gateway.request -> Gateway.net_result)
    (json_loads : string -> option Gateway.msg) (get_commits : string -> string -> list string)
    (all_tags rest : list (string * string)) :
  forall i rels rels' tr, Doc.gen_tags e net json_loads get_commits all_tags i rest rels = Some (rels', tr) ->
  (forall k, Doc.mem k rels = true -> Doc.mem k rels' = true)
  /\ (forall t, In t rest -> Doc.mem (strip (lstrip_char "v" (fst t))) rels' = true).
Proof.
  induction rest as [|[tag_name tag_date] rest IH]; intros i rels rels' tr H.
  - simpl in H. injection H as <- _. split; [tauto | intros t []].
  - simpl in H. destruct (Doc.mem (strip (lstrip_char "v" tag_name)) rels) eqn:Hm.
    + destruct (IH _ _ _ _ H) as [K T]. split; [exact K|].
      intros t [<- | Ht]; [apply K, Hm | apply T, Ht].
    + destruct (Gen.generate _ _ _ _ _ _) as [[release ev1]|]; [|discriminate].
      destruct (Doc.gen_tags _ _ _ _ _ _ _ _) as [[rels2 ev2]|] eqn:Ht; [|discriminate].
      injection H as <- _. destruct (IH _ _ _ _ Ht) as [K T].
      split; [intros k Hk; apply K; rewrite mem_assoc_set, Hk; apply orb_true_r|].
      intros t [<- | Hin]; [|apply T, Hin].
      apply K. rewrite mem_assoc_set, String.eqb_refl. reflexivity.
Qed.

(** After a successful [ChangelogDoc.generate] (with git) the document has
    an ["Unreleased"] release and a release for every tag, under the tag's
    name without its [v]; no release it held before is removed, and its
    tags and git flag are unchanged. *)
Theorem doc_generate_keys (e : Gateway.env) (net : Gateway.request -> Gateway.net_result)
    (json_loads : string -> option Gateway.msg) (get_commits : string -> string -> list string)
    (file : option string) (d d' : Doc.doc) (tr : list event) :
  Doc.has_git d = true ->
  Doc.generate e net json_loads get_commits file d = Some (d', tr) ->
  Doc.mem "Unreleased" (Doc.releases d') = true
  /\ (forall t, In t (Doc.tags d) -> Doc.mem (strip (lstrip_char "v" (fst t))) (Doc.releases d') = true)
  /\ (forall k, Doc.mem k (Doc.releases d) = true -> Doc.mem k (Doc.releases d') = true)
  /\ Doc.tags d' = Doc.tags d /\ Doc.has_git d' = Doc.has_git d.
Proof.
  intros Hg H. unfold Doc.generate in H. rewrite Hg in H. cbn [negb] in H.
  destruct (match file with Some _ => _ | None => _ end) as [rels0 ev0] eqn:Hf.
  assert (K0 : forall k, Doc.mem k (Doc.releases d) = true -> Doc.mem k rels0 = true).
  { intros k Hk. destruct file; injection Hf as <- _; [apply read_loop_keys|]; exact Hk. }
  match type of H with
  | context [if ?b then Gateway.assoc_set "Unreleased" ?v rels0 else rels0] =>
      set (rels1 := if b then Gateway.assoc_set "Unreleased" v rels0 else rels0) in H
  end.
  assert (K1 : forall k, Doc.mem k rels0 = true -> Doc.mem k rels1 = true).
  { intros k Hk. subst rels1. destruct (_ || _); [|exact Hk].
    rewrite mem_assoc_set, Hk. apply orb_true_r. }
  destruct (Gateway.assoc_get "Unreleased" rels1) as [u|] eqn:Hu; [|discriminate].
  destruct (Gen.generate _ _ _ _ u _) as [[u' ev1]|]; [|discriminate].
  destruct (Doc.gen_tags _ _ _ _ _ _ _ _) as [[rels3 ev2]|] eqn:Ht; [|discriminate].
  injection H as <- _. destruct (gen_tags_keys _ _ _ _ _ _ _ _ _ _ Ht) as [K T].
  cbn [Doc.releases Doc.tags Doc.has_git].
  split; [apply K; rewrite mem_assoc_set; reflexivity|].
  split; [exact T|]. split; [|split; [reflexivity | symmetry; exact Hg]].
  intros k Hk. apply K. rewrite mem_assoc_set, (K1 _ (K0 _ Hk)). apply orb_true_r.
Qed.

Lemma doc_generate_keys_witness :
  exists d' tr,
    Doc.has_git (Doc.mk_doc [] [("v1.0.0", "2021-12-25")] true) = true
    /\ Doc.generate (Gateway.mk_env None None None None) (fun _ => Gateway.ConnectionError)
         (fun _ => None) (fun _ _ => ["Add x"]) None (Doc.mk_doc [] [("v1.0.0", "2021-12-25")] true)
       = Some (d', tr)
    /\ map fst (Doc.releases d') = ["Unreleased"; "1.0.0"].
Proof.
  destruct (Doc.generate (Gateway.mk_env None None None None) (fun _ => Gateway.ConnectionError)
              (fun _ => None) (fun _ _ => ["Add x"]) None (Doc.mk_doc [] [("v1.0.0", "2021-12-25")] true))
    as [[d' tr]|] eqn:H; [|vm_compute in H; discriminate].
  exists d', tr. split; [reflexivity|]. split; [reflexivity|].
  pose proof (doc_generate_keys (Gateway.mk_env None None None None) (fun _ => Gateway.ConnectionError)
                (fun _ => None) (fun _ _ => ["Add x"]) None (Doc.mk_doc [] [("v1.0.0", "2021-12-25")] true)
                d' tr eq_refl H) as _.
  vm_compute in H. injection H as <- _. reflexivity.
Defined.

(** [ChangelogDoc.__str__] writes only ["Unreleased"] and the releases a
    tag names: storing a release under any other key (a version read from
    the file that has no tag, say) leaves the text unchanged, so [save]
    drops it from the file. *)
Theorem doc_to_str_ignores_untagged (rels : list (string * Release.release))
    (tags : list (string * string)) (g : bool) (k : string) (x : Release.release) :
  k <> "Unreleased" ->
  (forall t, In t tags -> strip (lstrip_char "v" (fst t)) <> k) ->
  Doc.to_str (Doc.mk_doc (Gateway.assoc_set k x rels) tags g) = Doc.to_str (Doc.mk_doc rels tags g).
Proof.
  intros Hu Ht. unfold Doc.to_str. cbn [Doc.releases Doc.tags].
  rewrite assoc_get_set.
  destruct (String.eqb k "Unreleased") eqn:E; [apply String.eqb_eq in E; contradiction|].
  erewrite map_ext_in; [reflexivity|].
  intros t Hin. cbv beta. rewrite assoc_get_set.
  destruct (String.eqb k (strip (lstrip_char "v" (fst t)))) eqn:E2; [|reflexivity].
  apply String.eqb_eq in E2. exfalso. apply (Ht t Hin). symmetry. exact E2.
Qed.

Lemma doc_to_str_ignores_untagged_witness :
  "0.9.0" <> "Unreleased"
  /\ Doc.to_str (Doc.mk_doc (Gateway.assoc_set "0.9.0" (Release.new_release "0.9.0" "2020-01-01") [])
                  [("v1.0.0", "2021-12-25")] true)
     = Doc.to_str (Doc.mk_doc [] [("v1.0.0", "2021-12-25")] true).
Proof.
  split; [discriminate|].
  apply doc_to_str_ignores_untagged; [discriminate|].
  intros t [<- | []]. discriminate.
Defined.

(** ** [ChangelogDoc.read] *)

Lemma read_loop_cons (tags : list (string * string)) (line : string) (rest : list string)
    (rd : Doc.reader) (rels : list (string * Release.release)) :
  Doc.read_loop tags (line :: rest) rd rels
  = if is_ver_heading line then
      Doc.read_loop tags rest
        (Doc.mk_reader (Some (ver_of line))
           (if Nat.eqb (List.length (split "-" (strip (lstrip_char "#" line)))) 2
            then strip (nth 1 (split "-" (strip (lstrip_char "#" line))) EmptyString)
            else Doc.py_str (Doc.get_tag_date tags ("v" ++ ver_of line))) [])
        (Doc.read_release rd rels)
    else Doc.read_loop tags rest
           (Doc.mk_reader (Doc.curr_version rd) (Doc.version_date rd) (Doc.curr_lines rd ++ [line])%list)
           rels.
Proof. reflexivity. Qed.

Lemma read_loop_body (tags : list (string * string)) (b rest : list string) :
  Forall (fun l => is_ver_heading l = false) b ->
  forall cv vd cl rels,
  Doc.read_loop tags (b ++ rest) (Doc.mk_reader cv vd cl) rels
  = Doc.read_loop tags rest (Doc.mk_reader cv vd (cl ++ b)%list) rels.
Proof.
  induction b as [|l b IH]; intros Hb cv vd cl rels.
  - simpl. rewrite app_nil_r. reflexivity.
  - inversion Hb as [|? ? Hl Hb']; subst. simpl app. rewrite read_loop_cons, Hl. cbn [Doc.curr_version
      Doc.version_date Doc.curr_lines]. rewrite IH by exact Hb'. rewrite <- app_assoc. reflexivity.
Qed.

Lemma read_loop_no_version (tags : list (string * string)) (ls : list string) :
  forall vd cl vd' cl' rels,
  Doc.read_loop tags ls (Doc.mk_reader None vd cl) rels
  = Doc.read_loop tags ls (Doc.mk_reader None vd' cl') rels.
Proof.
  induction ls as [|l ls IH]; intros vd cl vd' cl' rels; [reflexivity|].
  rewrite !read_loop_cons. destruct (is_ver_heading l); [reflexivity | apply IH].
Qed.

(** [ChangelogDoc.read] ignores everything before the first version
    heading; in particular a file with no version heading leaves the
    releases as they were. *)
Theorem doc_read_ignores_preamble (tags : list (string * string)) (pre rest : list string)
    (content : string) (rels : list (string * Release.release)) :
  (Forall (fun l => is_ver_heading l = false) pre ->
   Doc.read_loop tags (pre ++ rest) (Doc.mk_reader None "None" []) rels
   = Doc.read_loop tags rest (Doc.mk_reader None "None" []) rels)
  /\ (Forall (fun l => is_ver_heading l = false) (readlines content) ->
      Doc.read tags content rels = rels).
Proof.
  split.
  - intros H. rewrite read_loop_body by exact H. apply read_loop_no_version.
  - intros H. unfold Doc.read. rewrite <- (app_nil_r (readlines content)).
    rewrite read_loop_body by exact H. reflexivity.
Qed.

Lemma doc_read_ignores_preamble_witness :
  Forall (fun l => is_ver_heading l = false)
    (readlines ("# Changelog" ++ Doc.nls ++ "* stray line" ++ Doc.nls))
  /\ Doc.read [] ("# Changelog" ++ Doc.nls ++ "* stray line" ++ Doc.nls) [] = [].
Proof.
  assert (H : Forall (fun l => is_ver_heading l = false)
                (readlines ("# Changelog" ++ Doc.nls ++ "* stray line" ++ Doc.nls)))
    by (vm_compute; repeat constructor).
  split; [exact H|].
  exact (proj2 (doc_read_ignores_preamble [] [] [] ("# Changelog" ++ Doc.nls ++ "* stray line" ++ Doc.nls) []) H).
Defined.




(** ** Start-up *)


Lemma validate_key_events (net_get : Gateway.request -> Config.get_result) (e : Gateway.env) :
  forallb startup_event (fst (Config.validate_key net_get e)) = true.
Proof.
  unfold Config.validate_key.
  destruct (Gateway.py_or _ _) as [[|c s]|]; try reflexivity.
  destruct (negb _); [reflexivity|].
  destruct (net_get _) as [|st m et]; [reflexivity|].
  destruct (st =? 200)%Z; [reflexivity|].
  destruct (st =? 403)%Z; [destruct et|]; reflexivity.
Qed.

(** [validate_key] contacts the server only with a non-empty API key and
    [DOCULOG_RUN_LOCALLY] equal to ["False"]; the request it sends is a GET
    of the [validate] endpoint carrying the digest of the project name and
    the key. Its result is [False] unless the server answered with status
    200, in which case it is that answer's ["message"], or it raises
    ([KeyError]) on a 403 answer without an error-type header. *)
Theorem validate_key_contract (net_get : Gateway.request -> Config.get_result) (e : Gateway.env) :
  let (tr, r) := Config.validate_key net_get e in
  (forall q, In (Config.CGet q) tr ->
     (exists key, Gateway.py_or (Gateway.documatic_api_key e) (Gateway.doculog_api_key e) = Some key
        /\ key <> EmptyString
        /\ Gateway.req_headers q = [("x-api-key", key); ("content-type", "application/json")])
     /\ Gateway.doculog_run_locally e = Some "False"
     /\ Gateway.req_url q = Gateway.SERVER_DOMAIN ++ "validate"
     /\ Gateway.req_params q = [("project", Sha224.sha224_hex (Gateway.project_name e))])
  /\ (r = Some (Config.JBool false)
      \/ (exists q m et, In (Config.CGet q) tr /\ net_get q = Config.GResponse 200 m et /\ r = m)
      \/ (exists q m, In (Config.CGet q) tr /\ net_get q = Config.GResponse 403 m None /\ r = None)).
Proof.
  unfold Config.validate_key.
  destruct (Gateway.py_or _ _) as [[|c s]|] eqn:Hk;
    try (split; [intros q [H|H]; discriminate + contradiction | left; reflexivity]).
  destruct (Gateway.doculog_run_locally e) as [v|] eqn:Hl;
    [|split; [intros q [] | left; reflexivity]].
  destruct (String.eqb v "False") eqn:Hv; cbn [negb];
    [|split; [intros q [] | left; reflexivity]].
  apply String.eqb_eq in Hv. subst v.
  set (req := Gateway.mk_request _ _ _ _).
  assert (Hq : forall q, In (Config.CGet q) [Config.CGet req] -> q = req)
    by (intros q [H|[]]; injection H; auto).
  assert (Hreq : (exists key, Some (String c s) = Some key /\ key <> EmptyString
        /\ Gateway.req_headers req = [("x-api-key", key); ("content-type", "application/json")])
     /\ Some "False" = Some "False"
     /\ Gateway.req_url req = Gateway.SERVER_DOMAIN ++ "validate"
     /\ Gateway.req_params req = [("project", Sha224.sha224_hex (Gateway.project_name e))]).
  { split; [exists (String c s); split; [reflexivity | split; [discriminate | reflexivity]]|].
    repeat split. }
  destruct (net_get req) as [|st m et] eqn:Hn.
  - split; [intros q Hi; rewrite (Hq q Hi); exact Hreq | left; reflexivity].
  - destruct (st =? 200)%Z eqn:H200.
    + split; [intros q Hi; rewrite (Hq q Hi); exact Hreq|].
      right; left. exists req, m, et. apply Z.eqb_eq in H200. subst st.
      split; [left; reflexivity | split; [exact Hn | reflexivity]].
    + destruct (st =? 403)%Z eqn:H403; [destruct et as [t|]|].
      * split; [|left; reflexivity]. intros q [H|[H|[]]]; [|discriminate].
        injection H as <-. exact Hreq.
      * split; [intros q Hi; rewrite (Hq q Hi); exact Hreq|].
        right; right. exists req, m. apply Z.eqb_eq in H403. subst st.
        split; [left; reflexivity | split; [exact Hn | reflexivity]].
      * split; [intros q Hi; rewrite (Hq q Hi); exact Hreq | left; reflexivity].
Qed.

Lemma list_ascii_of_string_app (s t : string) :
  list_ascii_of_string (s ++ t) = app (list_ascii_of_string s) (list_ascii_of_string t).
Proof. induction s as [|c s IH]; simpl; [reflexivity | rewrite IH; reflexivity]. Qed.

Lemma endswith_append (suffix n : string) :
  Config.endswith suffix (n ++ suffix) = true.
Proof.
  unfold Config.endswith. rewrite list_ascii_of_string_app, length_app.
  rewrite Nat.add_sub, skipn_app, skipn_all, Nat.sub_diag. simpl.
  rewrite string_of_list_ascii_of_string, String.eqb_refl.
  apply andb_true_intro; split; [apply Nat.leb_le; lia | reflexivity].
Qed.

(** Whatever [parse_config] returns either is the default config with the
    default variables set, or has the two keys ["changelog_name"] and
    ["local"], with the project name and [str(local)] written to the
    environment. *)
Lemma parse_config_shape load_dotenv stem root_join pp e e' cfg :
  snd (Config.parse_config load_dotenv stem root_join pp e) = Some (e', cfg) ->
  (cfg = Config.DEFAULT_CONFIG
   /\ e' = Config.set_env_vars (Config.DEFAULT_VARS stem) (load_dotenv e))
  \/ exists name local pn,
       cfg = [("changelog_name", Config.CStr name); ("local", Config.CBool local)]
       /\ Config.endswith ".md" name = true
       /\ e' = Config.env_set "DOCULOG_RUN_LOCALLY" (Some (Config.py_str_bool local))
                (Config.env_set "DOCULOG_PROJECT_NAME" (Some pn) (load_dotenv e)).
Proof.
  unfold Config.parse_config. destruct pp as [| |cp]; cbn [snd].
  - intros H. injection H as <- <-. left; split; reflexivity.
  - discriminate.
  - destruct (negb _).
    + intros H. injection H as <- <-. left; split; reflexivity.
    + destruct (Config.get_or cp _ "project" _) as [pn|]; [|discriminate].
      destruct (Config.getboolean_or_false _ _ _) as [local|]; [|discriminate].
      destruct (Config.get_or cp _ "changelog" _) as [name|]; [|discriminate].
      cbn [snd]. intros H. injection H as <- <-. right.
      destruct (Config.endswith ".md" name) eqn:En; cbn [negb].
      * exists name, local, pn. split; [reflexivity | split; [exact En | reflexivity]].
      * exists (name ++ ".md"), local, pn.
        split; [reflexivity | split; [apply endswith_append | reflexivity]].
Qed.

Lemma parse_config_events load_dotenv stem root_join pp e :
  forallb is_print (fst (Config.parse_config load_dotenv stem root_join pp e)) = true.
Proof.
  unfold Config.parse_config. destruct pp as [| |cp]; cbn [fst]; try reflexivity.
  destruct (negb _); [reflexivity|].
  destruct (Config.get_or cp _ "project" _) as [pn|]; [|reflexivity].
  destruct (Config.getboolean_or_false _ _ _) as [local|]; [|reflexivity].
  destruct (Config.get_or cp _ "changelog" _); cbn [fst]; rewrite !forallb_app;
  destruct (negb _ && negb _), (Config.env_has _); reflexivity.
Qed.


(** Without ["False"] in [DOCULOG_RUN_LOCALLY], [configure_api(False)]
    removes both keys without contacting the server. *)
Lemma configure_api_unvalidated net_get e :
  Gateway.doculog_run_locally e <> Some "False" ->
  exists tr, Config.configure_api net_get false e
     = (tr, Some (Gateway.mk_env None None (Gateway.doculog_project_name e) (Gateway.doculog_run_locally e)))
     /\ (forall q, ~ In (Config.CGet q) tr).
Proof.
  intros Hl. destruct e as [d1 d2 pn rl]. cbn [Gateway.doculog_run_locally] in Hl.
  assert (Hv : Config.validate_key net_get (Gateway.mk_env d1 d2 pn rl) = ([], Some (Config.JBool false))
            \/ Config.validate_key net_get (Gateway.mk_env d1 d2 pn rl)
                = ([Config.CPrint "DOCUMATIC_API_KEY not in environment"], Some (Config.JBool false))).
  { unfold Config.validate_key. cbn [Gateway.documatic_api_key Gateway.doculog_api_key Gateway.doculog_run_locally].
    destruct (Gateway.py_or d1 d2) as [[|c s]|]; [right; reflexivity| |right; reflexivity].
    left. destruct rl as [v|]; [|reflexivity].
    destruct (String.eqb v "False") eqn:E; [apply String.eqb_eq in E; subst v; contradiction Hl; reflexivity|].
    reflexivity. }
  unfold Config.configure_api.
  destruct Hv as [Hv|Hv]; rewrite Hv; cbn [Config.json_truthy];
    (eexists; split; [destruct d1, d2; reflexivity|]);
    [intros q []| intros q [H|[]]; discriminate].
Qed.

(** With no [pyproject.toml], or one without a [[tool.doculog]] section,
    [configure] returns the default config and ends with both API keys
    removed from the environment, whatever the server would answer: it sets
    [DOCULOG_RUN_LOCALLY] to ["false"], which is not ["False"], so
    [validate_key] never asks the server and returns [False]. Every later
    [post] then sends nothing. *)
Theorem configure_without_doculog_section net_get load_dotenv stem root_join pp e :
  (pp = Config.NoFile \/ exists cp, pp = Config.Read cp /\ Config.cp_has_section cp "tool.doculog" = false) ->
  exists tr e',
    Config.configure net_get load_dotenv stem root_join pp e = (tr, Some (e', Config.DEFAULT_CONFIG))
    /\ Gateway.documatic_api_key e' = None /\ Gateway.doculog_api_key e' = None
    /\ Gateway.doculog_project_name e' = Some stem
    /\ Gateway.doculog_run_locally e' = Some "false"
    /\ (forall q, ~ In (Config.CGet q) tr)
    /\ (forall net json_loads endpoint payload params,
          Gateway.post net json_loads e' endpoint payload params = (None, None)).
Proof.
  intros Hpp.
  assert (Hp : Config.parse_config load_dotenv stem root_join pp (load_dotenv e)
               = ([Config.CPrint ("Reading environment variables from " ++ root_join ".env.")],
                  Some (Config.set_env_vars (Config.DEFAULT_VARS stem) (load_dotenv (load_dotenv e)),
                        Config.DEFAULT_CONFIG))).
  { destruct Hpp as [->|(cp & -> & Hs)]; unfold Config.parse_config; [|rewrite Hs]; reflexivity. }
  unfold Config.configure. rewrite Hp.
  change (Gateway.assoc_get "local" Config.DEFAULT_CONFIG) with (Some (Config.CBool false)).
  cbv iota beta. cbn [Config.cval_truthy].
  set (e1 := Config.set_env_vars (Config.DEFAULT_VARS stem) (load_dotenv (load_dotenv e))).
  assert (Hrl : Gateway.doculog_run_locally e1 = Some "false")
    by (subst e1; destruct (load_dotenv (load_dotenv e)); reflexivity).
  assert (Hpn : Gateway.doculog_project_name e1 = Some stem)
    by (subst e1; destruct (load_dotenv (load_dotenv e)); reflexivity).
  destruct (configure_api_unvalidated net_get e1) as [tr [Hc Hq]]; [rewrite Hrl; discriminate|].
  rewrite Hc. rewrite Hrl, Hpn.
  eexists; eexists; split; [reflexivity|].
  split; [reflexivity|]. split; [reflexivity|]. split; [reflexivity|]. split; [reflexivity|].
  split.
  - intros q [H|H]; [discriminate | exact (Hq q H)].
  - intros. reflexivity.
Qed.

Lemma configure_without_doculog_section_witness :
  exists tr e',
    Config.configure (fun _ => Config.GResponse 200 (Some (Config.JBool true)) None) (fun e => e)
      "proj" (fun n => "/home/proj/" ++ n) Config.NoFile
      (Gateway.mk_env (Some "key") None None (Some "False"))
      = (tr, Some (e', Config.DEFAULT_CONFIG))
    /\ Gateway.documatic_api_key e' = None /\ Gateway.doculog_api_key e' = None
    /\ Gateway.doculog_project_name e' = Some "proj"
    /\ Gateway.doculog_run_locally e' = Some "false"
    /\ (forall q, ~ In (Config.CGet q) tr)
    /\ (forall net json_loads endpoint payload params,
          Gateway.post net json_loads e' endpoint payload params = (None, None)).
Proof.
  apply configure_without_doculog_section. left. reflexivity.
Defined.

Lemma prefix_app (s t : string) : String.prefix s (s ++ t) = true.
Proof.
  induction s as [|c s IH]; simpl; [destruct t; reflexivity|].
  destruct (Ascii.ascii_dec c c) as [_|n]; [exact IH | contradiction n; reflexivity].
Qed.

Lemma post_local_prefix net json_loads e endpoint payload params q :
  Gateway.doculog_run_locally e = Some "True" ->
  fst (Gateway.post net json_loads e endpoint payload params) = Some q ->
  String.prefix "http://127.0.0.1:3000/" (Gateway.req_url q) = true.
Proof.
  intros Hl. unfold Gateway.post. rewrite Hl. cbv beta iota. rewrite String.eqb_refl.
  destruct (Gateway.py_or _ _) as [[|c s]|]; [discriminate| |discriminate].
  destruct (net _) as [|st m]; [|destruct (st =? 200)%Z];
    intros H; injection H as <-; exact (prefix_app "http://127.0.0.1:3000/" endpoint).
Qed.

Lemma configure_cases net_get load_dotenv stem root_join pp e tr e' cfg :
  Config.configure net_get load_dotenv stem root_join pp e = (tr, Some (e', cfg)) ->
  exists tr1 tr2 e1 local,
    Config.parse_config load_dotenv stem root_join pp (load_dotenv e) = (tr1, Some (e1, cfg))
    /\ Gateway.assoc_get "local" cfg = Some (Config.CBool local)
    /\ Config.configure_api net_get local e1 = (tr2, Some e')
    /\ tr = app tr1 tr2.
Proof.
  unfold Config.configure.
  destruct (Config.parse_config _ _ _ _ _) as [tr1 [[e1 cfg1]|]] eqn:Hp; [|discriminate].
  pose proof (parse_config_shape load_dotenv stem root_join pp (load_dotenv e) e1 cfg1) as Hs.
  rewrite Hp in Hs. specialize (Hs eq_refl).
  assert (Hl : exists local, Gateway.assoc_get "local" cfg1 = Some (Config.CBool local)).
  { destruct Hs as [[-> _]|(n & l & pn & -> & _)]; [exists false | exists l]; reflexivity. }
  destruct Hl as [local Hl]. rewrite Hl. cbn [Config.cval_truthy].
  destruct (Config.configure_api net_get local e1) as [tr2 [e2|]] eqn:Hc; [|discriminate].
  intros H. injection H as <- <- <-.
  exists tr1, tr2, e1, local. split; [reflexivity | split; [exact Hl | split; [exact Hc | reflexivity]]].
Qed.

(** With [local = true] in [[tool.doculog]], [configure] keeps the API keys
    that [.env] and the environment provide, never calls [validate_key],
    and sets [DOCULOG_RUN_LOCALLY] to ["True"], so that every request
    [post] sends afterwards goes to the local server
    [http://127.0.0.1:3000/]. *)
Theorem configure_local_keeps_keys net_get load_dotenv stem root_join pp e tr e' cfg :
  Config.configure net_get load_dotenv stem root_join pp e = (tr, Some (e', cfg)) ->
  Gateway.assoc_get "local" cfg = Some (Config.CBool true) ->
  Gateway.documatic_api_key e' = Gateway.documatic_api_key (load_dotenv (load_dotenv e))
  /\ Gateway.doculog_api_key e' = Gateway.doculog_api_key (load_dotenv (load_dotenv e))
  /\ Gateway.doculog_run_locally e' = Some "True"
  /\ (forall q, ~ In (Config.CGet q) tr)
  /\ (forall net json_loads endpoint payload params q,
        fst (Gateway.post net json_loads e' endpoint payload params) = Some q ->
        String.prefix "http://127.0.0.1:3000/" (Gateway.req_url q) = true).
Proof.
  intros Hc Hl.
  destruct (configure_cases _ _ _ _ _ _ _ _ _ Hc) as (tr1 & tr2 & e1 & local & Hp & Hl' & Ha & ->).
  rewrite Hl in Hl'. injection Hl' as <-.
  unfold Config.configure_api in Ha. injection Ha as <- <-.
  pose proof (parse_config_shape load_dotenv stem root_join pp (load_dotenv e) e1 cfg) as Hs.
  rewrite Hp in Hs. specialize (Hs eq_refl).
  destruct Hs as [[-> _]|(n & l & pn & -> & _ & ->)]; [discriminate|].
  cbn in Hl. injection Hl as ->.
  assert (Hq : forall q, ~ In (Config.CGet q) tr1).
  { intros q Hi. pose proof (parse_config_events load_dotenv stem root_join pp (load_dotenv e)) as Ev.
    rewrite Hp in Ev. cbn [fst] in Ev. rewrite forallb_forall in Ev.
    specialize (Ev _ Hi). discriminate. }
  destruct (load_dotenv (load_dotenv e)) as [d1 d2 pn0 rl].
  split; [reflexivity|]. split; [reflexivity|]. split; [reflexivity|]. split.
  - rewrite app_nil_r. exact Hq.
  - intros net json_loads endpoint payload params q. apply post_local_prefix. reflexivity.
Qed.

Lemma configure_local_keeps_keys_witness :
  let pp := Config.Read (Config.mk_parser (fun s => String.eqb s "tool.doculog")
              (fun _ o => if String.eqb o "local" then Config.CPValue "True" else Config.CPNoOption)) in
  let e := Gateway.mk_env (Some "key") None None None in
  exists tr e' cfg,
    Config.configure (fun _ => Config.GConnectionError) (fun e => e) "proj"
      (fun n => "/home/proj/" ++ n) pp e = (tr, Some (e', cfg))
    /\ Gateway.assoc_get "local" cfg = Some (Config.CBool true)
    /\ Gateway.documatic_api_key e' = Some "key"
    /\ Gateway.doculog_run_locally e' = Some "True"
    /\ (forall q, ~ In (Config.CGet q) tr).
Proof.
  intros pp e.
  destruct (Config.configure (fun _ => Config.GConnectionError) (fun e => e) "proj"
      (fun n => "/home/proj/" ++ n) pp e) as [tr [[e' cfg]|]] eqn:H;
    [|vm_compute in H; discriminate].
  assert (Hl : Gateway.assoc_get "local" cfg = Some (Config.CBool true))
    by (vm_compute in H; injection H as _ _ <-; reflexivity).
  destruct (configure_local_keeps_keys _ _ _ _ _ _ _ _ _ H Hl) as (H1 & _ & H3 & H4 & _).
  exists tr, e', cfg. split; [reflexivity|]. split; [exact Hl|].
  split; [exact H1|]. split; [exact H3 | exact H4].
Defined.

(** With [local] false (also the default), the API keys survive [configure]
    only if the server's [validate] endpoint was asked and answered with
    status 200 and a truthy ["message"]; in every other case both keys are
    gone from the environment afterwards. *)
Theorem configure_keys_need_validation net_get load_dotenv stem root_join pp e tr e' cfg :
  Config.configure net_get load_dotenv stem root_join pp e = (tr, Some (e', cfg)) ->
  Gateway.assoc_get "local" cfg = Some (Config.CBool false) ->
  (Gateway.documatic_api_key e' = None /\ Gateway.doculog_api_key e' = None)
  \/ exists q m et, In (Config.CGet q) tr
       /\ Gateway.req_url q = Gateway.SERVER_DOMAIN ++ "validate"
       /\ net_get q = Config.GResponse 200 (Some m) et
       /\ Config.json_truthy m = true.
Proof.
  intros Hc Hl.
  destruct (configure_cases _ _ _ _ _ _ _ _ _ Hc) as (tr1 & tr2 & e1 & local & Hp & Hl' & Ha & ->).
  rewrite Hl in Hl'. injection Hl' as <-.
  unfold Config.configure_api in Ha.
  pose proof (validate_key_contract net_get e1) as C.
  destruct (Config.validate_key net_get e1) as [tr0 r0].
  destruct r0 as [v|]; [|discriminate].
  destruct (Config.json_truthy v) eqn:Ht.
  - injection Ha as <- <-. right.
    destruct C as [Cq [Cf|[(q & m & et & Hi & Hn & Hm)|(q & m & Hi & Hn & Hm)]]].
    + injection Cf as ->. discriminate.
    + subst m. exists q, v, et.
      split; [apply in_or_app; right; exact Hi|].
      split; [exact (proj1 (proj2 (proj2 (Cq q Hi)))) | split; [exact Hn | exact Ht]].
    + discriminate.
  - injection Ha as <- <-. left.
    destruct e1 as [d1 d2 pn rl]. destruct d1, d2; split; reflexivity.
Qed.

Lemma configure_keys_need_validation_witness :
  let pp := Config.Read (Config.mk_parser (fun s => String.eqb s "tool.doculog")
              (fun _ _ => Config.CPNoOption)) in
  let e := Gateway.mk_env (Some "key") None None None in
  exists tr e' cfg,
    Config.configure (fun _ => Config.GResponse 200 (Some (Config.JBool false)) None) (fun e => e)
      "proj" (fun n => "/home/proj/" ++ n) pp e = (tr, Some (e', cfg))
    /\ Gateway.assoc_get "local" cfg = Some (Config.CBool false)
    /\ Gateway.documatic_api_key e' = None
    /\ exists q, In (Config.CGet q) tr.
Proof.
  intros pp e.
  destruct (Config.configure (fun _ => Config.GResponse 200 (Some (Config.JBool false)) None) (fun e => e)
      "proj" (fun n => "/home/proj/" ++ n) pp e) as [tr [[e' cfg]|]] eqn:H;
    [|vm_compute in H; discriminate].
  assert (Hl : Gateway.assoc_get "local" cfg = Some (Config.CBool false))
    by (vm_compute in H; injection H as _ _ <-; reflexivity).
  exists tr, e', cfg. split; [reflexivity|]. split; [exact Hl|].
  destruct (configure_keys_need_validation _ _ _ _ _ _ _ _ _ H Hl) as [[H1 _]|(q & m & et & Hi & _ & Hn & Hm)].
  - split; [exact H1|]. vm_compute in H. injection H as <- _ _.
    eexists. right. left. reflexivity.
  - injection Hn as <- _. discriminate.
Defined.

Lemma print_startup (l : list Config.cevent) :
  forallb is_print l = true -> forallb startup_event l = true.
Proof.
  induction l as [|[] l IH]; simpl; try discriminate; auto.
Qed.

Lemma configure_api_events net_get local e :
  forallb startup_event (fst (Config.configure_api net_get local e)) = true.
Proof.
  unfold Config.configure_api. destruct local; [reflexivity|].
  pose proof (validate_key_events net_get e) as V.
  destruct (Config.validate_key net_get e) as [tr [v|]]; [|exact V].
  destruct (Config.json_truthy v); exact V.
Qed.

Lemma configure_events net_get load_dotenv stem root_join pp e :
  forallb startup_event (fst (Config.configure net_get load_dotenv stem root_join pp e)) = true.
Proof.
  unfold Config.configure.
  pose proof (parse_config_events load_dotenv stem root_join pp (load_dotenv e)) as P.
  destruct (Config.parse_config _ _ _ _ _) as [tr1 [[e1 cfg]|]]; cbn [fst] in P |- *;
    [|exact (print_startup _ P)].
  destruct (Gateway.assoc_get "local" cfg) as [l|]; [|exact (print_startup _ P)].
  pose proof (configure_api_events net_get (Config.cval_truthy l) e1) as A.
  destruct (Config.configure_api _ _ _) as [tr2 [e2|]]; cbn [fst] in A |- *;
    rewrite forallb_app, (print_startup _ P), A; reflexivity.
Qed.

Lemma configure_config_keys net_get load_dotenv stem root_join pp e tr e' cfg :
  Config.configure net_get load_dotenv stem root_join pp e = (tr, Some (e', cfg)) ->
  exists name, Gateway.assoc_get "changelog_name" cfg = Some (Config.CStr name)
               /\ Gateway.assoc_get "categories" cfg = None.
Proof.
  intros Hc.
  destruct (configure_cases _ _ _ _ _ _ _ _ _ Hc) as (tr1 & tr2 & e1 & local & Hp & _).
  pose proof (parse_config_shape load_dotenv stem root_join pp (load_dotenv e) e1 cfg) as Hs.
  rewrite Hp in Hs. specialize (Hs eq_refl).
  destruct Hs as [[-> _]|(n & l & pn & -> & _)];
    [exists "CHANGELOG.md" | exists n]; split; reflexivity.
Qed.

Lemma no_remove (l : list Config.cevent) p :
  forallb startup_event l = true -> ~ In (Config.CRemove p) l.
Proof.
  intros H Hi. rewrite forallb_forall in H. specialize (H _ Hi). discriminate.
Qed.

(** [main.generate_changelog] always raises: the config [configure] returns
    has no ["categories"] key, so the lookup [config["categories"]] fails
    before any [ChangelogDoc] is built, generated or saved. Before that,
    with [overwrite] set, it deletes the existing changelog file: a
    changelog file is removed exactly when [overwrite] is set,
    [configure] succeeded and the file named by the config exists. *)
Theorem generate_changelog_always_raises net_get load_dotenv stem root_join exists_ rest
    overwrite pp e :
  let (tr, r) := Config.generate_changelog net_get load_dotenv stem root_join exists_ rest
                   overwrite pp e in
  r = None
  /\ (forall p, In (Config.CRemove p) tr <->
        overwrite = true /\ exists_ p = true
        /\ exists tr0 e' cfg name,
             Config.configure net_get load_dotenv stem root_join pp e = (tr0, Some (e', cfg))
             /\ Gateway.assoc_get "changelog_name" cfg = Some (Config.CStr name)
             /\ p = root_join name).
Proof.
  unfold Config.generate_changelog.
  pose proof (configure_events net_get load_dotenv stem root_join pp e) as Ev.
  destruct (Config.configure _ _ _ _ _ _) as [tr0 [[e' cfg]|]] eqn:Hc; cbn [fst] in Ev.
  - destruct (configure_config_keys _ _ _ _ _ _ _ _ _ Hc) as (name & Hn & Hcat).
    rewrite Hn, Hcat. split; [reflexivity|]. intros p. split.
    + intros Hi. apply in_app_or in Hi. destruct Hi as [Hi|Hi]; [contradiction (no_remove _ p Ev Hi)|].
      destruct overwrite; [|destruct Hi].
      destruct (exists_ (root_join name)) eqn:Hx; destruct Hi as [Hi|Hi]; try discriminate.
      * injection Hi as <-. split; [reflexivity|]. split; [exact Hx|].
        exists tr0, e', cfg, name. split; [reflexivity | split; [exact Hn | reflexivity]].
      * destruct Hi as [Hi|[]]. discriminate.
      * destruct Hi.
    + intros (Ho & Hx & tr1 & e1 & cfg1 & name1 & H1 & Hn1 & ->).
      injection H1 as <- <- <-. rewrite Hn in Hn1. injection Hn1 as <-.
      subst overwrite. rewrite Hx. apply in_or_app. right. left. reflexivity.
  - split; [reflexivity|]. intros p. split.
    + intros Hi. contradiction (no_remove _ p Ev Hi).
    + intros (_ & _ & tr1 & e1 & cfg1 & name1 & H1 & _). discriminate.
Qed.

(** ** Commit history *)

Lemma prefix_app_inv (p s : string) : String.prefix p s = true -> exists r, s = p ++ r.
Proof.
  revert s. induction p as [|c p IH]; intros s H; [exists s; reflexivity|].
  destruct s as [|c' s]; [discriminate|]. simpl in H.
  destruct (Ascii.ascii_dec c c') as [<-|]; [|discriminate].
  destruct (IH s H) as [r ->]. exists r. reflexivity.
Qed.

Lemma split_str_aux_nonnil sep k s : Git.split_str_aux sep k s <> [].
Proof.
  revert k. induction s as [|c s IH]; intros [|k]; cbn [Git.split_str_aux]; [discriminate | discriminate | | apply IH].
  destruct (String.prefix sep (String c s)); [discriminate|].
  destruct (Git.split_str_aux sep 0 s); discriminate.
Qed.

Lemma split_commit_prefix (r : string) :
  Git.split_str "commit " ("commit " ++ r) = EmptyString :: Git.split_str "commit " r.
Proof.
  unfold Git.split_str. change ("commit " ++ r) with (String "c" ("ommit " ++ r)).
  cbn [Git.split_str_aux]. change (String "c" ("ommit " ++ r)) with ("commit " ++ r).
  rewrite prefix_app. cbn. reflexivity.
Qed.

Lemma split_no_space (h : string) : no_space h = true -> Git.split_str "commit " h = [h].
Proof.
  unfold Git.split_str. induction h as [|c h IH]; intros H; [reflexivity|].
  cbn [no_space list_ascii_of_string forallb] in H. apply andb_prop in H as [Hc Hh].
  cbn [Git.split_str_aux].
  destruct (String.prefix "commit " (String c h)) eqn:Hp.
  - destruct (prefix_app_inv _ _ Hp) as [r Hr].
    assert (Hn : no_space (String c h) = true) by (cbn; rewrite Hc, Hh; reflexivity).
    rewrite Hr in Hn. discriminate.
  - rewrite (IH Hh). reflexivity.
Qed.

Lemma substring_all (t : string) : substring 0 (String.length t) t = t.
Proof. induction t as [|c t IH]; simpl; [reflexivity | rewrite IH; reflexivity]. Qed.

Lemma sub_leading_4_spaces_indent (t : string) : Git.sub_leading_4_spaces ("    " ++ t) = t.
Proof.
  unfold Git.sub_leading_4_spaces. rewrite prefix_app.
  simpl. rewrite Nat.sub_0_r. apply substring_all.
Qed.

Lemma assoc_set_nonempty (k : string) (x : Git.cfield) (d : Git.commit) :
  Git.nonempty (Gateway.assoc_set k x d) = true.
Proof. destruct d as [|[k' y] d]; simpl; [|destruct (String.eqb k' k)]; reflexivity. Qed.

Lemma save_pending cur t ms :
  Gateway.assoc_get "message" cur = Some (Git.FList (t :: ms)) ->
  exists c, Git.save_current_commit cur = Some c
            /\ key_of c = (Gateway.assoc_get "hash" cur, Some (Git.FStr t)).
Proof.
  intros Hm. unfold Git.save_current_commit. rewrite Hm.
  eexists. split; [reflexivity|]. unfold key_of.
  rewrite !assoc_get_set. reflexivity.
Qed.

Lemma headers_run hs rest cur commits :
  forallb header_ok hs = true ->
  exists cur', Git.parse_loop (app hs rest) cur commits = Git.parse_loop rest cur' commits
    /\ Gateway.assoc_get "message" cur' = Gateway.assoc_get "message" cur
    /\ Gateway.assoc_get "hash" cur' = Gateway.assoc_get "hash" cur.
Proof.
  revert cur. induction hs as [|l hs IH]; intros cur H; [exists cur; auto|].
  cbn [forallb] in H. apply andb_prop in H as [Hl Hs].
  unfold header_ok in Hl. apply andb_prop in Hl as [Hl Hk]. apply andb_prop in Hl as [Hsp Hc].
  cbn [app Git.parse_loop]. rewrite Hsp. apply negb_true_iff in Hc. rewrite Hc.
  destruct (Git.split_once ":" l) as [[k v]|].
  - apply andb_prop in Hk as [Hk1 Hk2]. apply negb_true_iff in Hk1, Hk2.
    destruct (IH (Gateway.assoc_set (lower k) (Git.FStr (strip v)) cur) Hs) as (cur' & H1 & H2 & H3).
    exists cur'. rewrite H1, H2, H3, !assoc_get_set, Hk1, Hk2. auto.
  - exact (IH cur Hs).
Qed.

Lemma body_run body rest cur commits t ms :
  forallb body_ok body = true ->
  Gateway.assoc_get "message" cur = Some (Git.FList (t :: ms)) ->
  exists cur' ms', Git.parse_loop (app body rest) cur commits = Git.parse_loop rest cur' commits
    /\ Gateway.assoc_get "message" cur' = Some (Git.FList (t :: ms'))
    /\ Gateway.assoc_get "hash" cur' = Gateway.assoc_get "hash" cur.
Proof.
  revert cur ms. induction body as [|l body IH]; intros cur ms H Hm; [exists cur, ms; auto|].
  cbn [forallb] in H. apply andb_prop in H as [Hl Hs].
  unfold body_ok in Hl. destruct (String.prefix " " l) eqn:Hsp.
  - cbn [app Git.parse_loop]. rewrite Hsp, Hm. cbn [negb].
    destruct (IH (Gateway.assoc_set "message" (Git.FList (app (t :: ms) [Git.sub_leading_4_spaces l])) cur)
                 (app ms [Git.sub_leading_4_spaces l]) Hs) as (cur' & ms' & H1 & H2 & H3);
      [rewrite assoc_get_set; reflexivity|].
    exists cur', ms'. rewrite H1, H2, H3, assoc_get_set. auto.
  - cbn [orb] in Hl.
    destruct (headers_run [l] (app body rest) cur commits) as (cur1 & H1 & H2 & H3);
      [cbn; rewrite Hl; reflexivity|].
    rewrite Hm in H2.
    destruct (IH cur1 ms Hs) as (cur' & ms' & H4 & H5 & H6); [exact H2|].
    exists cur', ms'. change (app (l :: body) rest) with (app [l] (app body rest)). rewrite H1, H4, H6, H3. auto.
Qed.

Lemma commit_line_step h rest cur commits :
  no_space h = true ->
  Git.parse_loop (("commit " ++ h) :: rest) cur commits
  = match (if Git.nonempty cur then
             match Git.save_current_commit cur with
             | Some c => Some (app commits [c], [])
             | None => None
             end
           else Some (commits, cur)) with
    | None => None
    | Some (commits, cur) => Git.parse_loop rest (Gateway.assoc_set "hash" (Git.FStr h) cur) commits
    end.
Proof.
  intros Hh. cbn [Git.parse_loop].
  assert (H1 : String.prefix " " ("commit " ++ h) = false) by reflexivity.
  rewrite H1, prefix_app. cbn [negb].
  assert (H2 : nth_error (Git.split_str "commit " ("commit " ++ h)) 1 = Some h)
    by (rewrite split_commit_prefix, split_no_space by exact Hh; reflexivity).
  destruct (if Git.nonempty cur then _ else _) as [[commits' cur']|]; [|reflexivity].
  rewrite H2. reflexivity.
Qed.

Lemma blocks_run bs :
  forallb wf_block bs = true ->
  forall cur commits (p : option (string * string)),
  match p with
  | None => cur = []
  | Some (h, t) => Gateway.assoc_get "hash" cur = Some (Git.FStr h)
                   /\ exists ms, Gateway.assoc_get "message" cur = Some (Git.FList (t :: ms))
  end ->
  exists cs, Git.parse_loop (concat (map log_block_lines bs)) cur commits = Some (rev (app commits cs))
    /\ map key_of cs
       = map (fun ht => (Some (Git.FStr (fst ht)), Some (Git.FStr (snd ht))))
           (app (match p with None => [] | Some ht => [ht] end)
                (map (fun b => (g_hash b, g_title b)) bs)).
Proof.
  induction bs as [|b bs IH]; intros Hwf cur commits p Hp.
  - destruct p as [[h t]|].
    + destruct Hp as [Hh [ms Hm]].
      destruct (save_pending cur t ms Hm) as (c & Hs & Hk).
      exists [c]. cbn [concat map Git.parse_loop].
      assert (Hn : Git.nonempty cur = true) by (destruct cur; [discriminate | reflexivity]).
      rewrite Hn, Hs. split; [reflexivity|]. cbn. rewrite Hk, Hh. reflexivity.
    + subst cur. exists []. rewrite app_nil_r. split; reflexivity.
  - cbn [forallb] in Hwf. apply andb_prop in Hwf as [Hb Hbs].
    unfold wf_block in Hb. apply andb_prop in Hb as [Hb Hbody]. apply andb_prop in Hb as [Hh Hhs].
    assert (Htail : forall commits0, exists cs,
      Git.parse_loop (app (app (g_headers b) (("    " ++ g_title b) :: g_body b))
                          (concat (map log_block_lines bs)))
        (Gateway.assoc_set "hash" (Git.FStr (g_hash b)) []) commits0 = Some (rev (app commits0 cs))
      /\ map key_of cs
         = map (fun ht => (Some (Git.FStr (fst ht)), Some (Git.FStr (snd ht))))
             ((g_hash b, g_title b) :: map (fun b => (g_hash b, g_title b)) bs)).
    { intros commits0. rewrite <- app_assoc. cbn [app].
      destruct (headers_run (g_headers b) (("    " ++ g_title b) :: app (g_body b) (concat (map log_block_lines bs)))
                  (Gateway.assoc_set "hash" (Git.FStr (g_hash b)) []) commits0 Hhs) as (cur1 & H1 & H2 & H3).
      rewrite H1. cbn [Git.parse_loop].
      assert (Hsp : String.prefix " " ("    " ++ g_title b) = true) by reflexivity.
      rewrite Hsp, H2. cbn [negb Gateway.assoc_get Gateway.assoc_set String.eqb].
      rewrite sub_leading_4_spaces_indent.
      destruct (body_run (g_body b) (concat (map log_block_lines bs))
                  (Gateway.assoc_set "message" (Git.FList [g_title b]) cur1) commits0
                  (g_title b) [] Hbody) as (cur2 & ms2 & H4 & H5 & H6);
        [rewrite assoc_get_set; reflexivity|].
      rewrite H4.
      destruct (IH Hbs cur2 commits0 (Some (g_hash b, g_title b))) as (cs & H7 & H8).
      { split; [rewrite H6, assoc_get_set, H3; reflexivity | exists ms2; exact H5]. }
      exists cs. split; [exact H7 | exact H8]. }
    change (concat (map log_block_lines (b :: bs)))
      with (("commit " ++ g_hash b) :: app (app (g_headers b) (("    " ++ g_title b) :: g_body b))
                                          (concat (map log_block_lines bs))).
    rewrite commit_line_step by exact Hh.
    destruct p as [[h t]|].
    + destruct Hp as [Hh' [ms Hm]].
      destruct (save_pending cur t ms Hm) as (c & Hs & Hk).
      assert (Hn : Git.nonempty cur = true) by (destruct cur; [discriminate | reflexivity]).
      rewrite Hn, Hs. destruct (Htail (app commits [c])) as (cs & H1 & H2).
      exists (c :: cs). rewrite H1, <- app_assoc. split; [reflexivity|].
      cbn [map app]. rewrite Hk, Hh', H2. reflexivity.
    + subst cur. cbn [Git.nonempty]. destruct (Htail commits) as (cs & H1 & H2).
      exists cs. rewrite H1. split; [reflexivity | exact H2].
Qed.

(** On [git log --stat] output made of well-formed commit blocks (a
    [commit <hash>] line with a hash without spaces, header lines, the
    title indented by four spaces, then indented message and file-stat
    lines or further header lines), [get_commits]'s parser returns one
    dict per block, earliest first: the last block's hash and title come
    first, each title being the title line without its indentation. *)
Theorem parse_log_roundtrip (bs : list gcommit) :
  forallb wf_block bs = true ->
  exists cs, Git.parse_log (concat (map log_block_lines bs)) = Some cs
    /\ map key_of cs = rev (map (fun b => (Some (Git.FStr (g_hash b)), Some (Git.FStr (g_title b)))) bs).
Proof.
  intros Hwf. destruct (blocks_run bs Hwf [] [] None eq_refl) as (cs & H1 & H2).
  exists (rev cs). unfold Git.parse_log. rewrite H1. split; [reflexivity|].
  rewrite map_rev, H2. cbn [app]. rewrite map_map. reflexivity.
Qed.

Lemma parse_log_roundtrip_witness :
  let bs := [mk_gcommit "6c1f0e2" ["Author: Ann <ann@example.com>"; "Date:   Mon Jan 3 10:00:00 2022 +0000"; EmptyString]
               "feat: add parser" [EmptyString; "    Longer text."; EmptyString; " parser.py | 12 ++++"; " 1 file changed"];
             mk_gcommit "9ab33d0" ["Author: Bob <bob@example.com>"; EmptyString] "fix: typo" [EmptyString]] in
  forallb wf_block bs = true
  /\ exists cs, Git.parse_log (concat (map log_block_lines bs)) = Some cs
       /\ map key_of cs = [(Some (Git.FStr "9ab33d0"), Some (Git.FStr "fix: typo"));
                          (Some (Git.FStr "6c1f0e2"), Some (Git.FStr "feat: add parser"))].
Proof.
  intros bs.
  assert (Hwf : forallb wf_block bs = true) by reflexivity.
  split; [exact Hwf|]. exact (parse_log_roundtrip bs Hwf).
Defined.

Lemma stray_run pre : forall cur commits h rest,
  Gateway.assoc_get "message" cur = None ->
  forallb no_msg_line pre = true ->
  Git.nonempty cur = true \/ existsb records pre = true ->
  Git.parse_loop (app pre (("commit " ++ h) :: rest)) cur commits = None.
Proof.
  induction pre as [|l pre IH]; intros cur commits h rest Hm Hpre Hne.
  - destruct Hne as [Hne|]; [|discriminate].
    cbn [app Git.parse_loop].
    assert (H1 : String.prefix " " ("commit " ++ h) = false) by reflexivity.
    rewrite H1, prefix_app, Hne. cbn [negb].
    unfold Git.save_current_commit. rewrite Hm. reflexivity.
  - cbn [forallb] in Hpre. apply andb_prop in Hpre as [Hl Hpre].
    unfold no_msg_line in Hl. apply andb_prop in Hl as [Hsp Hk].
    cbn [app Git.parse_loop]. rewrite Hsp.
    cbn [existsb] in Hne. unfold records in Hne.
    destruct (String.prefix "commit " l) eqn:Hc.
    + destruct (Git.nonempty cur) eqn:Hn.
      * unfold Git.save_current_commit. rewrite Hm. reflexivity.
      * destruct (prefix_app_inv _ _ Hc) as [r ->].
        rewrite split_commit_prefix. unfold Git.split_str.
        destruct (Git.split_str_aux "commit " 0 r) as [|h' ws] eqn:Hs;
          [contradiction (split_str_aux_nonnil _ _ _ Hs)|].
        cbn [nth_error]. apply IH; [rewrite assoc_get_set; exact Hm | exact Hpre |].
        left. apply assoc_set_nonempty.
    + cbn [orb] in Hk, Hne. destruct (Git.split_once ":" l) as [[k v]|].
      * apply negb_true_iff in Hk.
        apply IH; [rewrite assoc_get_set, Hk; exact Hm | exact Hpre |].
        left. apply assoc_set_nonempty.
      * apply IH; [exact Hm | exact Hpre |]. destruct Hne as [Hne|Hne]; [left; exact Hne | right; exact Hne].
Qed.

(** [get_commits]'s parser raises ([KeyError: 'message']) when a commit
    line follows lines that put something in the current dict but no
    message line: a [key: value] line before the first commit (such as a
    warning git writes to stderr, which [get_commits] merges into the
    output), or a commit without any indented message line. *)
Theorem parse_log_stray_line_raises (pre : list string) (h : string) (rest : list string) :
  forallb no_msg_line pre = true -> existsb records pre = true ->
  Git.parse_log (app pre (("commit " ++ h) :: rest)) = None.
Proof.
  intros Hpre Hr. apply stray_run; [reflexivity | exact Hpre | right; exact Hr].
Qed.

Lemma parse_log_stray_line_raises_witness :
  forallb no_msg_line ["warning: refname 'HEAD' is ambiguous."] = true
  /\ existsb records ["warning: refname 'HEAD' is ambiguous."] = true
  /\ Git.parse_log (app ["warning: refname 'HEAD' is ambiguous."]
                     (("commit " ++ "6c1f0e2") :: ["Author: Ann"; EmptyString; "    feat: x"])) = None
  /\ forallb no_msg_line ["commit 9ab33d0"; "Author: Bob"; EmptyString] = true
  /\ Git.parse_log (app ["commit 9ab33d0"; "Author: Bob"; EmptyString]
                     (("commit " ++ "6c1f0e2") :: ["Author: Ann"; EmptyString; "    feat: x"])) = None.
Proof.
  split; [reflexivity|]. split; [reflexivity|].
  split; [apply parse_log_stray_line_raises; reflexivity|].
  split; [reflexivity|]. apply parse_log_stray_line_raises; reflexivity.
Defined.
